(** * freelo-mcp: the Freelo API client and the list-subtasks tool

    A shallow embedding of [src/utils/freeloApi.ts] and of
    [src/tools/FreeloListTaskSubtasks.ts].

    - JavaScript strings are [string]s (their UTF-8 bytes), objects used as
      maps are [gmap string _], JSON numbers are binary64 [float]s.
    - An [async] function is a computation [Async A]: it receives the log of
      the [fetch] calls dispatched so far and returns the extended log
      together with either the thrown value (a rejected promise) or the
      result.
    - The host (the transport behind [fetch], the engine's number printer
      and [process.env]) is a parameter [host : Host]; every statement holds
      for every host. *)

From Stdlib Require Import ZArith String Ascii List Floats Uint63 Lia.
From stdpp Require Import base option list gmap strings pretty.

Local Open Scope Z_scope.
Set Warnings "-register-all".

(** ** Strings *)

(** [String.prototype.includes]: [sub] occurs somewhere in [s]. *)
Fixpoint includes (s sub : string) : bool :=
  String.prefix sub s ||
  match s with
  | EmptyString => false
  | String _ s' => includes s' sub
  end.

(** ** Base64 (RFC 4648), as [Buffer.from(s).toString('base64')] computes it *)

Module Base64.

Definition alphabet : string :=
  "ABCDEFGHIJKLMNOPQRSTUVWXYZabcdefghijklmnopqrstuvwxyz0123456789+/".

Definition digit (n : N) : ascii :=
  match String.get (N.to_nat n) alphabet with
  | Some c => c
  | None => "="%char
  end.

Definition pad : ascii := "="%char.

Fixpoint encode_bytes (bs : list N) : string :=
  match bs with
  | [] => EmptyString
  | [a] =>
      String (digit (N.shiftr a 2))
        (String (digit (N.shiftl (N.land a 3) 4))
           (String pad (String pad EmptyString)))
  | [a; b] =>
      String (digit (N.shiftr a 2))
        (String (digit (N.lor (N.shiftl (N.land a 3) 4) (N.shiftr b 4)))
           (String (digit (N.shiftl (N.land b 15) 2))
              (String pad EmptyString)))
  | a :: b :: c :: rest =>
      String (digit (N.shiftr a 2))
        (String (digit (N.lor (N.shiftl (N.land a 3) 4) (N.shiftr b 4)))
           (String (digit (N.lor (N.shiftl (N.land b 15) 2) (N.shiftr c 6)))
              (String (digit (N.land c 63)) (encode_bytes rest))))
  end.

Definition bytes_of (s : string) : list N :=
  List.map N_of_ascii (list_ascii_of_string s).

Definition encode (s : string) : string := encode_bytes (bytes_of s).

End Base64.

(** ** JavaScript values *)

Inductive JsValue :=
| JUndefined
| JNull
| JBool (b : bool)
| JNum (x : float)
| JStr (s : string)
| JArr (xs : list JsValue)
| JObj (fields : gmap string JsValue).

(** What a [throw] carries: an [Error] instance (with the name of its class
    and its message) or any other value. *)
Inductive Thrown :=
| ErrorObject (name message : string)
| ThrownValue (v : JsValue).

(** [e instanceof Error] *)
Definition instanceof_Error (e : Thrown) : bool :=
  match e with
  | ErrorObject _ _ => true
  | ThrownValue _ => false
  end.

(** [new Error(message)] for a string. *)
Definition new_Error (message : string) : Thrown := ErrorObject "Error" message.

Definition TypeError (message : string) : Thrown := ErrorObject "TypeError" message.

(** ToBoolean *)
Definition truthy (v : JsValue) : bool :=
  match v with
  | JUndefined | JNull => false
  | JBool b => b
  | JNum x => negb (PrimFloat.eqb x 0 || PrimFloat.is_nan x)
  | JStr s => negb (String.eqb s "")
  | JArr _ | JObj _ => true
  end.

(** [a || b] on values. *)
Definition js_or (a b : JsValue) : JsValue := if truthy a then a else b.

(** [v.k] for the keys this program reads ([message], [error], [data],
    [subtasks], the fields of a subtask): none of them is a property of a
    primitive or of an array, so only objects answer; reading a property of
    [undefined] or [null] throws V8's TypeError. *)
Definition get_prop (v : JsValue) (k : string) : Thrown + JsValue :=
  match v with
  | JUndefined =>
      inl (TypeError ("Cannot read properties of undefined (reading '" +:+ k +:+ "')"))
  | JNull =>
      inl (TypeError ("Cannot read properties of null (reading '" +:+ k +:+ "')"))
  | JObj fields => inr (default JUndefined (fields !! k))
  | _ => inr JUndefined
  end.

(** [v === s] for a string literal [s]. *)
Definition strict_eq_string (v : JsValue) (s : string) : bool :=
  match v with
  | JStr t => String.eqb t s
  | _ => false
  end.

(** ** The host *)

(** [RequestInit], with [headers] a plain object. *)
Record RequestInit := {
  method : option string;
  headers : option (gmap string string);
  body : option string;
}.

(** [{}] *)
Definition empty_init : RequestInit :=
  {| method := None; headers := None; body := None |}.

(** What the program observes of a [Response]: the status line and the
    outcome of reading the body as JSON or as bytes. *)
Record Response := {
  status : Z;
  statusText : string;
  json : Thrown + JsValue;
  arrayBuffer : Thrown + list Byte.byte;
}.

(** [response.ok]: the status is in the range 200-299 (Fetch standard). *)
Definition ok (r : Response) : bool := (200 <=? status r) && (status r <=? 299).

Record Host := {
  (** [fetch(url, init)]: rejects with a thrown value or resolves to a response *)
  fetch : string -> RequestInit -> Thrown + Response;
  (** Number::toString, used by template literals *)
  Number_toString : float -> string;
  (** [process.env] *)
  process_env : gmap string string;
}.

(** The HTTP method a [fetch] call dispatches: GET unless [init] names one. *)
Definition dispatched_method (init : RequestInit) : string :=
  default "GET" (method init).

(** ** Asynchronous computations *)

Record FetchCall := { call_url : string; call_init : RequestInit }.

Definition Async (A : Type) : Type :=
  list FetchCall -> list FetchCall * (Thrown + A).

Definition resolve {A} (x : A) : Async A := fun log => (log, inr x).

Definition throw {A} (e : Thrown) : Async A := fun log => (log, inl e).

Definition await {A B} (m : Async A) (k : A -> Async B) : Async B :=
  fun log =>
    match m log with
    | (log', inr x) => k x log'
    | (log', inl e) => (log', inl e)
    end.

(** [try { m } catch (e) { h e }] *)
Definition try_catch {A} (m : Async A) (h : Thrown -> Async A) : Async A :=
  fun log =>
    match m log with
    | (log', inr x) => (log', inr x)
    | (log', inl e) => h e log'
    end.

(** A synchronous step that returns or throws. *)
Definition lift {A} (r : Thrown + A) : Async A := fun log => (log, r).

#[global] Instance Async_ret : MRet Async := @resolve.
#[global] Instance Async_bind : MBind Async := fun A B k m => await m k.

(** Run an operation from an empty log. *)
Definition run {A} (m : Async A) : list FetchCall * (Thrown + A) := m [].

(** The fetch calls an operation dispatches, and its outcome. *)
Definition calls {A} (m : Async A) : list FetchCall := fst (run m).
Definition outcome {A} (m : Async A) : Thrown + A := snd (run m).

(** ** The API client ([FreeloApiClient]) *)

Record FreeloApiClient := {
  email : string;
  apiKey : string;
  baseUrl : string;
}.

(** [!s] for a string. *)
Definition str_falsy (s : string) : bool := String.eqb s "".

(** [!s] for a string that may be [undefined]. *)
Definition opt_falsy (s : option string) : bool :=
  match s with
  | None => true
  | Some s => str_falsy s
  end.

(** [constructor(email, apiKey)] *)
Definition FreeloApiClient_new (email apiKey : string) : Thrown + FreeloApiClient :=
  if str_falsy email then
    inl (new_Error "Freelo email is required. Set FREELO_EMAIL environment variable.")
  else if str_falsy apiKey then
    inl (new_Error "Freelo API key is required. Set FREELO_API_KEY environment variable.")
  else
    inr {| email := email; apiKey := apiKey; baseUrl := "https://api.freelo.io/v1" |}.

(** [Buffer.from(`${this.email}:${this.apiKey}`).toString('base64')] *)
Definition credentials (c : FreeloApiClient) : string :=
  Base64.encode (email c +:+ ":" +:+ apiKey c).

Definition authorization (c : FreeloApiClient) : string := "Basic " +:+ credentials c.

Definition user_agent (c : FreeloApiClient) : string := "freelo-mcp (" +:+ email c +:+ ")".

(** The three headers [request] writes before the spread of [options.headers]. *)
Definition default_headers (c : FreeloApiClient) : gmap string string :=
  <["Authorization" := authorization c]>
    (<["User-Agent" := user_agent c]>
       {["Content-Type" := "application/json"]}).

(** [{ Authorization, User-Agent, Content-Type, ...options.headers }]: a
    key of [options.headers] replaces the same key written before it. *)
Definition request_headers (c : FreeloApiClient) (options : RequestInit) : gmap string string :=
  default ∅ (headers options) ∪ default_headers c.

(** [{ ...options, headers }] *)
Definition with_headers (options : RequestInit) (h : gmap string string) : RequestInit :=
  {| method := method options; headers := Some h; body := body options |}.

(** The two headers [downloadFile] sends. *)
Definition download_headers (c : FreeloApiClient) : gmap string string :=
  <["Authorization" := authorization c]> {["User-Agent" := user_agent c]}.

(** The call [request] dispatches: [fetch(url, { ...options, headers })]. *)
Definition request_call (c : FreeloApiClient) (endpoint : string) (options : RequestInit)
  : FetchCall :=
  {| call_url := baseUrl c +:+ endpoint;
     call_init := with_headers options (request_headers c options) |}.

(** The call [downloadFile] dispatches. *)
Definition download_call (c : FreeloApiClient) (fileUuid : string) : FetchCall :=
  {| call_url := baseUrl c +:+ "/file/" +:+ fileUuid;
     call_init := {| method := None; headers := Some (download_headers c); body := None |} |}.

(** The host's answer to a call. *)
Definition answer (host : Host) (call : FetchCall) : Thrown + Response :=
  fetch host (call_url call) (call_init call).

Definition api_error_prefix : string := "Freelo API error: ".

Definition unsupported_attachments : string :=
  "API does not support /task/{id}/attachments endpoint. " +:+
  "Files are included in task comments. Use getTask() instead.".

Definition unsupported_attachment : string :=
  "API does not support /attachments/{id} endpoint. " +:+
  "Files use UUIDs. Use downloadFile(uuid) instead.".

Section Client.

Context (host : Host).

(** ToString, for the values a JSON body holds.  An object is converted
    by its [toString] method, then by [valueOf]: a plain object inherits
    [Object.prototype.toString], which prints ["[object Object]"], unless
    it has a property of its own named [toString]; a property of a JSON
    value is never a function, and [Object.prototype.valueOf] returns the
    object, so the conversion then throws V8's TypeError.  An array is
    joined with commas ([Array.prototype.join]: [undefined] and [null]
    print as the empty string, the other elements are converted from left
    to right). *)
Fixpoint ToString (v : JsValue) : Thrown + string :=
  match v with
  | JUndefined => inr "undefined"
  | JNull => inr "null"
  | JBool true => inr "true"
  | JBool false => inr "false"
  | JNum x => inr (Number_toString host x)
  | JStr s => inr s
  | JArr xs =>
      match
        (fix elements (xs : list JsValue) : Thrown + list string :=
           match xs with
           | [] => inr []
           | x :: rest =>
               match (match x with
                      | JUndefined | JNull => inr ""
                      | _ => ToString x
                      end) with
               | inl e => inl e
               | inr s =>
                   match elements rest with
                   | inl e => inl e
                   | inr ss => inr (s :: ss)
                   end
               end
           end) xs
      with
      | inl e => inl e
      | inr ss => inr (String.concat "," ss)
      end
  | JObj fields =>
      match fields !! "toString" with
      | Some _ => inl (TypeError "Cannot convert object to primitive value")
      | None => inr "[object Object]"
      end
  end.

(** What [throw new Error(v)] throws for any value [v]: the new [Error],
    whose message is [ToString v] (empty for [undefined]), or what the
    conversion of [v] throws. *)
Definition new_Error_of (v : JsValue) : Thrown :=
  match v with
  | JUndefined => new_Error ""
  | _ => match ToString v with
         | inl e => e
         | inr message => new_Error message
         end
  end.

(** [await fetch(url, init)]: the call is logged, the host answers. *)
Definition do_fetch (call : FetchCall) : Async Response :=
  fun log => (log ++ [call], answer host call).

(** [`/task/${taskId}`] and [`/task/${taskId}/subtasks`] *)
Definition task_endpoint (taskId : float) : string :=
  "/task/" +:+ Number_toString host taskId.

Definition subtasks_endpoint (taskId : float) : string :=
  "/task/" +:+ Number_toString host taskId +:+ "/subtasks".

(** [`API request failed: ${response.status} ${response.statusText}`] *)
Definition status_line_message (r : Response) : string :=
  "API request failed: " +:+ pretty (status r) +:+ " " +:+ statusText r.

(** [errorData.message || errorData.error || errorMessage] *)
Definition pick_error_message (errorData errorMessage : JsValue) : Thrown + JsValue :=
  match get_prop errorData "message" with
  | inl e => inl e
  | inr m =>
      if truthy m then inr m
      else match get_prop errorData "error" with
           | inl e => inl e
           | inr e => inr (js_or e errorMessage)
           end
  end.

(** The value of [errorMessage] after the inner [try]: the status line
    unless the body is JSON and [pick_error_message] returns. *)
Definition chosen_message (r : Response) : JsValue :=
  match json r with
  | inl _ => JStr (status_line_message r)
  | inr errorData =>
      match pick_error_message errorData (JStr (status_line_message r)) with
      | inl _ => JStr (status_line_message r)
      | inr v => v
      end
  end.

(** The handler of the outer [catch] of [request]. *)
Definition wrap_error {A} (error : Thrown) : Async A :=
  match error with
  | ErrorObject _ message => throw (new_Error (api_error_prefix +:+ message))
  | ThrownValue _ => throw (new_Error "Unknown Freelo API error")
  end.

(** [private async request<T>(endpoint, options = {})] *)
Definition request (c : FreeloApiClient) (endpoint : string) (options : RequestInit)
  : Async JsValue :=
  try_catch
    (response ← do_fetch (request_call c endpoint options);
     if negb (ok response) then
       let errorMessage := JStr (status_line_message response) in
       errorMessage ←
         try_catch
           (errorData ← lift (json response);
            lift (pick_error_message errorData errorMessage))
           (fun _ => resolve errorMessage);
       throw (new_Error_of errorMessage)
     else
       data ← lift (json response);
       resolve data)
    wrap_error.

(** [async getTask(taskId)] *)
Definition getTask (c : FreeloApiClient) (taskId : float) : Async JsValue :=
  request c (task_endpoint taskId) empty_init.

(** [async listTaskSubtasks(taskId)] *)
Definition listTaskSubtasks (c : FreeloApiClient) (taskId : float) : Async JsValue :=
  response ← request c (subtasks_endpoint taskId) empty_init;
  data ← lift (get_prop response "data");
  lift (get_prop data "subtasks").

(** [async downloadFile(fileUuid)] *)
Definition downloadFile (c : FreeloApiClient) (fileUuid : string) : Async (list Byte.byte) :=
  response ← do_fetch (download_call c fileUuid);
  if negb (ok response) then
    throw (new_Error ("Failed to download file: " +:+ pretty (status response)
                        +:+ " " +:+ statusText response))
  else
    lift (arrayBuffer response).

(** [async listTaskAttachments(taskId)] *)
Definition listTaskAttachments (c : FreeloApiClient) (taskId : float) : Async JsValue :=
  throw (new_Error unsupported_attachments).

(** [async getAttachment(attachmentId)] *)
Definition getAttachment (c : FreeloApiClient) (attachmentId : float) : Async JsValue :=
  throw (new_Error unsupported_attachment).

(** [createFreeloClient()] *)
Definition createFreeloClient : Thrown + FreeloApiClient :=
  let email := process_env host !! "FREELO_EMAIL" in
  let apiKey := process_env host !! "FREELO_API_KEY" in
  if opt_falsy email then
    inl (new_Error ("FREELO_EMAIL environment variable is not set. " +:+
                    "Please configure it in your MCP server settings."))
  else if opt_falsy apiKey then
    inl (new_Error ("FREELO_API_KEY environment variable is not set. " +:+
                    "Please configure it in your MCP server settings."))
  else
    FreeloApiClient_new (default "" email) (default "" apiKey).

End Client.

(** Following the words of the specification: the message it prefers for a
    response with a non-success status, namely the [message] field of the
    JSON error body, else its [error] field, else the status line when the
    body is not JSON.  A field counts when its value is truthy, and the
    message is the string its value converts to. *)
Inductive preferred_message (host : Host) (r : Response) : string -> Prop :=
| from_message (errorData mv : JsValue) (m : string) :
    json r = inr errorData ->
    get_prop errorData "message" = inr mv -> truthy mv = true ->
    ToString host mv = inr m ->
    preferred_message host r m
| from_error (errorData mv ev : JsValue) (e : string) :
    json r = inr errorData ->
    get_prop errorData "message" = inr mv -> truthy mv = false ->
    get_prop errorData "error" = inr ev -> truthy ev = true ->
    ToString host ev = inr e ->
    preferred_message host r e
| from_status_line (t : Thrown) :
    json r = inl t ->
    preferred_message host r
      ("API request failed: " +:+ pretty (status r) +:+ " " +:+ statusText r).

(** ** Numbers of the statistics *)

(** [Number(n)] for an integer: the binary64 value nearest to [n] (exact
    below 2^53, so for every array length). *)
Definition float_of_Z (n : Z) : float :=
  SF2Prim (binary_normalize prec emax n 0 false).

(** The integer [floor (m * 2^e + 1/2)]. *)
Definition round_half_up (m e : Z) : Z :=
  if 0 <=? e then m * 2 ^ e else (m + 2 ^ (- e - 1)) / 2 ^ (- e).

(** The integer [Math.round] selects for a finite non-zero [x]: the one
    closest to [x], the larger one on a tie. *)
Definition Math_round_Z (x : float) : Z :=
  match Prim2SF x with
  | S754_finite s m e => round_half_up (if s then Z.neg m else Z.pos m) e
  | _ => 0
  end.

(** [Math.round(x)] (ECMAScript): NaN, the infinities and the zeros are
    returned as they are; a negative [x] that rounds to zero gives [-0]. *)
Definition Math_round (x : float) : float :=
  match Prim2SF x with
  | S754_finite s _ _ =>
      let n := Math_round_Z x in
      if (n =? 0) && s then neg_zero else float_of_Z n
  | _ => x
  end.

(** [totalCount > 0 ? Math.round((completedCount / totalCount) * 100) : 0] *)
Definition completion_percentage (completedCount totalCount : Z) : float :=
  if 0 <? totalCount then
    Math_round ((float_of_Z completedCount / float_of_Z totalCount) * 100)%float
  else 0%float.

(** Following the words of the specification: [round(100 * completed /
    total)] over the rationals, a tie rounded up, and 0 when [total] is 0. *)
Definition claimed_percentage (completed total : Z) : Z :=
  if 0 <? total then (200 * completed + total) / (2 * total) else 0.

(** *** Predicates on the specification of binary64 *)

(** Nothing was shifted out of a rounding record. *)
Definition exact_record (x : shr_record) : Prop := shr_r x = false /\ shr_s x = false.

(** [y] is [x] shifted right by [n] bits. *)
Definition shifted (n : Z) (x y : shr_record) : Prop :=
  0 <= shr_m y /\ shr_m y = shr_m x / 2 ^ n /\
  (exact_record x -> Z.divide (2 ^ n) (shr_m x) -> exact_record y).

(** The value [m * 2^e], with what [l] says lies beyond [m], does not
    exceed the integer [B]. *)
Definition below (B m e : Z) (l : location) : Prop :=
  0 <= m /\ e <= 0 /\ m <= B * 2 ^ (- e) /\ (m = B * 2 ^ (- e) -> l = loc_Exact).

(** [f] is [+0] or a positive number that does not exceed the integer [B]. *)
Definition SF_below (B : Z) (f : spec_float) : Prop :=
  match f with
  | S754_zero false => True
  | S754_finite false m e => e <= 0 /\ Z.pos m <= B * 2 ^ (- e)
  | _ => False
  end.

(** [f] is the positive integer [n], with a normalised mantissa. *)
Definition SF_int (n : Z) (f : spec_float) : Prop :=
  match f with
  | S754_finite false m e =>
      -52 <= e <= 0 /\ Z.pos m = n * 2 ^ (- e) /\ Zdigits2 (Z.pos m) = 53
  | _ => False
  end.

(** The literal [100]. *)
Definition SF_hundred : spec_float := S754_finite false 7036874417766400 (-46).

(** ** The list-subtasks tool ([FreeloListTaskSubtasks]) *)

(** [{ id, name }] *)
Record IdName := { ref_id : JsValue; ref_name : JsValue }.

Record FormattedSubtask := {
  st_id : JsValue;
  st_name : JsValue;
  st_state : JsValue;
  st_createdAt : JsValue;
  st_dueDate : JsValue;
  st_dueDateEnd : JsValue;
  st_commentsCount : JsValue;
  st_subtasksCount : JsValue;
  st_author : IdName;
  st_assignee : option IdName;
  st_project : IdName;
  st_taskList : IdName;
}.

Record Statistics := {
  total : Z;
  completed : Z;
  remaining : Z;
  completionPercentage : float;
}.

Inductive ToolResult :=
| ToolSuccess (taskId : float) (statistics : Statistics) (subtasks : list FormattedSubtask)
| ToolFailure (error : string).

(** [{ id: o.id, name: o[name_key] }] *)
Definition id_name (o : JsValue) (name_key : string) : Async IdName :=
  i ← lift (get_prop o "id");
  n ← lift (get_prop o name_key);
  resolve {| ref_id := i; ref_name := n |}.

(** The callback of [subtasks.map]. *)
Definition format_subtask (subtask : JsValue) : Async FormattedSubtask :=
  id ← lift (get_prop subtask "id");
  name ← lift (get_prop subtask "name");
  state_obj ← lift (get_prop subtask "state");
  state ← lift (get_prop state_obj "state");
  date_add ← lift (get_prop subtask "date_add");
  due_date ← lift (get_prop subtask "due_date");
  due_date_end ← lift (get_prop subtask "due_date_end");
  count_comments ← lift (get_prop subtask "count_comments");
  count_subtasks ← lift (get_prop subtask "count_subtasks");
  author_obj ← lift (get_prop subtask "author");
  author ← id_name author_obj "fullname";
  worker ← lift (get_prop subtask "worker");
  assignee ← (if truthy worker
              then w ← id_name worker "fullname"; resolve (Some w)
              else resolve None);
  project_obj ← lift (get_prop subtask "project");
  project ← id_name project_obj "name";
  tasklist_obj ← lift (get_prop subtask "tasklist");
  taskList ← id_name tasklist_obj "name";
  resolve {| st_id := id; st_name := name; st_state := state;
             st_createdAt := date_add;
             st_dueDate := js_or due_date JNull;
             st_dueDateEnd := js_or due_date_end JNull;
             st_commentsCount := count_comments;
             st_subtasksCount := count_subtasks;
             st_author := author; st_assignee := assignee;
             st_project := project; st_taskList := taskList |}.

Fixpoint map_async {A B} (f : A -> Async B) (xs : list A) : Async (list B) :=
  match xs with
  | [] => resolve []
  | x :: xs' => y ← f x; ys ← map_async f xs'; resolve (y :: ys)
  end.

(** [subtasks.map(f)]: only an array has [map]. *)
Definition array_map {B} (subtasks : JsValue) (f : JsValue -> Async B) : Async (list B) :=
  match subtasks with
  | JArr xs => map_async f xs
  | JUndefined => throw (TypeError "Cannot read properties of undefined (reading 'map')")
  | JNull => throw (TypeError "Cannot read properties of null (reading 'map')")
  | _ => throw (TypeError "subtasks.map is not a function")
  end.

(** [st => st.state === 'completed' || st.state === 'finished'] *)
Definition is_completed (st : FormattedSubtask) : bool :=
  strict_eq_string (st_state st) "completed" || strict_eq_string (st_state st) "finished".

(** The [statistics] object of the success result. *)
Definition statistics_of (formattedSubtasks : list FormattedSubtask) : Statistics :=
  let completedCount := Z.of_nat (length (List.filter is_completed formattedSubtasks)) in
  let totalCount := Z.of_nat (length formattedSubtasks) in
  {| total := totalCount;
     completed := completedCount;
     remaining := totalCount - completedCount;
     completionPercentage := completion_percentage completedCount totalCount |}.

Section Tool.

Context (host : Host).

(** [async execute(input)] of [FreeloListTaskSubtasks]. *)
Definition execute (input_taskId : float) : Async ToolResult :=
  try_catch
    (client ← lift (createFreeloClient host);
     subtasks ← listTaskSubtasks host client input_taskId;
     formattedSubtasks ← array_map subtasks format_subtask;
     resolve (ToolSuccess input_taskId (statistics_of formattedSubtasks) formattedSubtasks))
    (fun error =>
       match error with
       | ErrorObject _ message => resolve (ToolFailure message)
       | ThrownValue _ =>
           resolve (ToolFailure "Unknown error occurred while fetching task subtasks")
       end).

End Tool.


(** ** Sample hosts and responses *)

Module Samples.

Definition client : FreeloApiClient :=
  {| email := "dev@example.com"; apiKey := "s3cret";
     baseUrl := "https://api.freelo.io/v1" |}.

Definition env : gmap string string :=
  <["FREELO_EMAIL" := "dev@example.com"]> {["FREELO_API_KEY" := "s3cret"]}.

(** A host that gives every call the same answer and prints
    integer-valued numbers in decimal. *)
Definition host_answering (a : Thrown + Response) (e : gmap string string) : Host :=
  {| fetch := fun _ _ => a;
     Number_toString := fun x => pretty (Math_round_Z x);
     process_env := e |}.

(** The transport is down: [fetch] rejects with its TypeError. *)
Definition fetch_failed : Thrown := ErrorObject "TypeError" "fetch failed".

Definition offline : Host := host_answering (inl fetch_failed) env.

Definition syntax_error : Thrown :=
  ErrorObject "SyntaxError" "Unexpected token < in JSON at position 0".

(** 404 with body [{"error":"not_found","message":"Task not found"}] *)
Definition not_found : Response :=
  {| status := 404; statusText := "Not Found";
     json := inr (JObj (<["error" := JStr "not_found"]>
                          {["message" := JStr "Task not found"]}));
     arrayBuffer := inr [] |}.

(** 403 with body [{"error":"forbidden"}] *)
Definition forbidden : Response :=
  {| status := 403; statusText := "Forbidden";
     json := inr (JObj {["error" := JStr "forbidden"]});
     arrayBuffer := inr [] |}.

(** 422 with body [{"message":{"field":"name"},"error":"validation_failed"}] *)
Definition invalid : Response :=
  {| status := 422; statusText := "Unprocessable Entity";
     json := inr (JObj (<["message" := JObj {["field" := JStr "name"]}]>
                          {["error" := JStr "validation_failed"]}));
     arrayBuffer := inr [] |}.

(** 500 with an HTML body *)
Definition server_error : Response :=
  {| status := 500; statusText := "Internal Server Error";
     json := inl syntax_error;
     arrayBuffer := inr [] |}.

(** 200 with body [{"id": 42, "name": "X"}] *)
Definition task_body : JsValue :=
  JObj (<["id" := JNum 42]> {["name" := JStr "X"]}).

Definition task_found : Response :=
  {| status := 200; statusText := "OK"; json := inr task_body; arrayBuffer := inr [] |}.

(** 200 with an HTML body *)
Definition html_page : Response :=
  {| status := 200; statusText := "OK"; json := inl syntax_error; arrayBuffer := inr [] |}.

Definition user (i : float) (n : string) : JsValue :=
  JObj (<["id" := JNum i]> {["fullname" := JStr n]}).

Definition named (i : float) (n : string) : JsValue :=
  JObj (<["id" := JNum i]> {["name" := JStr n]}).

(** A subtask record in the given state. *)
Definition subtask (i : float) (n st : string) : JsValue :=
  JObj (<["id" := JNum i]>
       (<["task_id" := JNum 7]>
       (<["name" := JStr n]>
       (<["date_add" := JStr "2024-01-01T00:00:00+0000"]>
       (<["count_comments" := JNum 0]>
       (<["count_subtasks" := JNum 0]>
       (<["author" := user 1 "Ann"]>
       (<["state" := JObj (<["id" := JNum 1]> {["state" := JStr st]})]>
       (<["project" := named 3 "Site"]>
          {["tasklist" := named 4 "Backlog"]}))))))))).

Definition A : JsValue := subtask 11 "A" "active".
Definition B : JsValue := subtask 12 "B" "finished".

(** [{total:5, count:2, page:1, per_page:2, data:{subtasks:[A,B]}}] *)
Definition envelope (xs : JsValue) : JsValue :=
  JObj (<["total" := JNum 5]>
       (<["count" := JNum 2]>
       (<["page" := JNum 1]>
       (<["per_page" := JNum 2]>
          {["data" := JObj {["subtasks" := xs]}]})))).

Definition page_one (xs : JsValue) : Response :=
  {| status := 200; statusText := "OK"; json := inr (envelope xs); arrayBuffer := inr [] |}.

Definition file_bytes : list Byte.byte := [Byte.x89; Byte.x50; Byte.x4e; Byte.x47; Byte.x00; Byte.xff].

Definition file_found : Response :=
  {| status := 200; statusText := "OK"; json := inl syntax_error;
     arrayBuffer := inr file_bytes |}.

(** [headers: { Authorization: "Bearer forged" }] *)
Definition forged_options : RequestInit :=
  {| method := None; headers := Some {["Authorization" := "Bearer forged"]};
     body := None |}.

(** [{ method: "POST", body: "{}", headers: { Accept: "text/plain" } }] *)
Definition post_options : RequestInit :=
  {| method := Some "POST"; headers := Some {["Accept" := "text/plain"]};
     body := Some "{}" |}.

(** 40 subtasks, 23 of them finished. *)
Definition forty : list JsValue :=
  repeat (subtask 1 "done" "finished") 23 ++ repeat (subtask 2 "open" "active") 17.

(** The host that answers with one page holding those 40 subtasks. *)
Definition forty_host : Host :=
  host_answering (inr (page_one (JArr forty))) env.

(** A host whose environment names no credentials. *)
Definition unconfigured : Host := host_answering (inr task_found) ∅.

Definition uuid : string := "550e8400-e29b-41d4-a716-446655440000".

End Samples.

(** ** The download tool ([FreeloDownloadFile]): file names *)

(** The class [[a-zA-Z0-9._-]] of [sanitizeFilename]. *)
Definition safe_char (c : ascii) : bool :=
  let n := N_of_ascii c in
  ((97 <=? n) && (n <=? 122) || (65 <=? n) && (n <=? 90) || (48 <=? n) && (n <=? 57)
   || (n =? 46) || (n =? 95) || (n =? 45))%N.

Definition is_underscore (c : ascii) : bool := Ascii.eqb c "_".

(** [.replace(/[^a-zA-Z0-9._-]/g, "_")] *)
Fixpoint replace_unsafe (s : string) : string :=
  match s with
  | EmptyString => EmptyString
  | String c s' => String (if safe_char c then c else "_"%char) (replace_unsafe s')
  end.

(** [.replace(/_{2,}/g, "_")]: every run of underscores becomes one
    underscore; [after_underscore] tells that the character before [s] was
    one. *)
Fixpoint collapse_underscores (after_underscore : bool) (s : string) : string :=
  match s with
  | EmptyString => EmptyString
  | String c s' =>
      if is_underscore c then
        if after_underscore then collapse_underscores true s'
        else String c (collapse_underscores true s')
      else String c (collapse_underscores false s')
  end.

(** [private sanitizeFilename(filename)]. A character outside ASCII is one
    or two UTF-16 units in JavaScript and two to four bytes here, none of
    them in the class: both give a run of underscores, which the second
    replacement makes one, so the result is the same string. *)
Definition sanitizeFilename (filename : string) : string :=
  String.substring 0 200 (collapse_underscores false (replace_unsafe filename)).

(** Every character of [s] satisfies [P]. *)
Fixpoint all_chars (P : ascii -> bool) (s : string) : bool :=
  match s with
  | EmptyString => true
  | String c s' => P c && all_chars P s'
  end.

Definition starts_with_underscore (s : string) : bool :=
  match s with
  | String c _ => is_underscore c
  | EmptyString => false
  end.

(** No two underscores of [s] are adjacent. *)
Fixpoint no_double_underscore (s : string) : bool :=
  match s with
  | EmptyString => true
  | String c s' =>
      negb (is_underscore c && starts_with_underscore s') && no_double_underscore s'
  end.

(** ** The download tool: file sizes *)

(** The integer [floor (m * 2^e)] of a finite number. *)
Definition Math_floor_Z (x : float) : Z :=
  match Prim2SF x with
  | S754_finite s m e =>
      let n := if s then Z.neg m else Z.pos m in
      if 0 <=? e then n * 2 ^ e else n / 2 ^ (- e)
  | _ => 0
  end.

(** [Math.floor(x)]: NaN, the infinities, the zeros and the integers are
    returned as they are. *)
Definition Math_floor (x : float) : float :=
  match Prim2SF x with
  | S754_finite _ _ e => if 0 <=? e then x else float_of_Z (Math_floor_Z x)
  | _ => x
  end.

(** What the tools need of Node.js besides [fetch]: the temporary
    directory, [path.join], the clock, the three file-system calls with
    their outcome, and the library functions of [formatFileSize]. *)
Record Runtime := {
  os_tmpdir : string;
  path_join : string -> string -> string;
  Date_now : float;
  fs_mkdir : string -> Thrown + unit;
  fs_writeFile : string -> list Byte.byte -> Thrown + unit;
  fs_stat_size : string -> Thrown + float;
  Math_log : float -> float;
  Math_pow : float -> float -> float;
  toFixed : float -> nat -> string;
  parseFloat : string -> float;
  StringToNumber : string -> float;
}.

(** [" " + sizes[i]] for [sizes = ["Bytes", "KB", "MB", "GB"]]: an index
    that is not 0, 1, 2 or 3 reads [undefined]. *)
Definition sizes_at (i : float) : string :=
  if (i =? 0)%float then "Bytes"
  else if (i =? 1)%float then "KB"
  else if (i =? 2)%float then "MB"
  else if (i =? 3)%float then "GB"
  else "undefined".

(** [private formatFileSize(bytes)] *)
Definition formatFileSize (host : Host) (rt : Runtime) (bytes : float) : string :=
  if (bytes =? 0)%float then "0 Bytes"
  else
    let k := 1024%float in
    let i := Math_floor (Math_log rt bytes / Math_log rt k)%float in
    Number_toString host (parseFloat rt (toFixed rt (bytes / Math_pow rt k i)%float 2))
      +:+ " " +:+ sizes_at i.

(** ** The download tool: effects *)

Inductive Effect :=
| Fetched (call : FetchCall)
| MadeDir (path : string)
| Wrote (path : string) (data : list Byte.byte)
| Statted (path : string).

(** A computation of the download tool: it extends the trace of effects
    and returns or throws. *)
Definition Io (A : Type) : Type := list Effect -> list Effect * (Thrown + A).

Definition io_ret {A} (x : A) : Io A := fun trace => (trace, inr x).

Definition io_bind {A B} (m : Io A) (k : A -> Io B) : Io B :=
  fun trace =>
    match m trace with
    | (trace', inr x) => k x trace'
    | (trace', inl e) => (trace', inl e)
    end.

Definition io_try_catch {A} (m : Io A) (h : Thrown -> Io A) : Io A :=
  fun trace =>
    match m trace with
    | (trace', inr x) => (trace', inr x)
    | (trace', inl e) => h e trace'
    end.

(** A step without effect. *)
Definition io_lift {A} (r : Thrown + A) : Io A := fun trace => (trace, r).

(** One file-system call: the effect is recorded, the runtime answers. *)
Definition io_effect {A} (e : Effect) (r : Thrown + A) : Io A :=
  fun trace => (trace ++ [e], r).

(** An operation of the client: its calls are recorded as effects. *)
Definition io_of_async {A} (m : Async A) : Io A :=
  fun trace => (trace ++ List.map Fetched (calls m), outcome m).

#[global] Instance Io_ret : MRet Io := @io_ret.
#[global] Instance Io_bind : MBind Io := fun A B k m => io_bind m k.

Definition effects {A} (m : Io A) : list Effect := fst (m []).
Definition result {A} (m : Io A) : Thrown + A := snd (m []).

(** ** The download tool ([FreeloDownloadFile]) *)

Record FreeloDownloadFileInput := {
  input_fileUuid : string;
  input_filename : option string;
}.

(** The [file] object of the success result. *)
Record DownloadedFile := {
  file_uuid : string;
  file_filename : string;
  file_filePath : string;
  file_size : float;
  file_sizeFormatted : string;
}.

Inductive DownloadResult :=
| DownloadSuccess (file : DownloadedFile) (message : string)
| DownloadFailure (error : string).

(** [path.join(os.tmpdir(), "freelo-files")] *)
Definition temp_dir (rt : Runtime) : string := path_join rt (os_tmpdir rt) "freelo-files".

(** [input.filename ? this.sanitizeFilename(input.filename) : `${input.fileUuid}`] *)
Definition chosen_filename (input : FreeloDownloadFileInput) : string :=
  match input_filename input with
  | Some name => if str_falsy name then input_fileUuid input else sanitizeFilename name
  | None => input_fileUuid input
  end.

(** [path.join(tempDir, `${timestamp}-${filename}`)] *)
Definition file_path (host : Host) (rt : Runtime) (input : FreeloDownloadFileInput) : string :=
  path_join rt (temp_dir rt)
    (Number_toString host (Date_now rt) +:+ "-" +:+ chosen_filename input).

(** [async execute(input)] of [FreeloDownloadFile]. *)
Definition download_execute (host : Host) (rt : Runtime) (input : FreeloDownloadFileInput)
  : Io DownloadResult :=
  io_try_catch
    (client ← io_lift (createFreeloClient host);
     let tempDir := temp_dir rt in
     _ ← io_effect (MadeDir tempDir) (fs_mkdir rt tempDir);
     let filename := chosen_filename input in
     let filePath := file_path host rt input in
     fileBuffer ← io_of_async (downloadFile host client (input_fileUuid input));
     _ ← io_effect (Wrote filePath fileBuffer) (fs_writeFile rt filePath fileBuffer);
     size ← io_effect (Statted filePath) (fs_stat_size rt filePath);
     mret (DownloadSuccess
             {| file_uuid := input_fileUuid input;
                file_filename := filename;
                file_filePath := filePath;
                file_size := size;
                file_sizeFormatted := formatFileSize host rt size |}
             ("File successfully downloaded to: " +:+ filePath)))
    (fun error =>
       match error with
       | ErrorObject _ message => mret (DownloadFailure message)
       | ThrownValue _ =>
           mret (DownloadFailure "Unknown error occurred while downloading file")
       end).

(** What the [catch] block of the download tool returns for a thrown value. *)
Definition download_failure (error : Thrown) : DownloadResult :=
  match error with
  | ErrorObject _ message => DownloadFailure message
  | ThrownValue _ => DownloadFailure "Unknown error occurred while downloading file"
  end.

(** The success result for a file of the given size. *)
Definition download_success (host : Host) (rt : Runtime) (input : FreeloDownloadFileInput)
    (size : float) : DownloadResult :=
  DownloadSuccess
    {| file_uuid := input_fileUuid input;
       file_filename := chosen_filename input;
       file_filePath := file_path host rt input;
       file_size := size;
       file_sizeFormatted := formatFileSize host rt size |}
    ("File successfully downloaded to: " +:+ file_path host rt input).

(** ** The get-task tool ([FreeloGetTask]) *)

(** The properties every object inherits from [Object.prototype]. *)
Definition object_prototype_keys : list string :=
  ["constructor"; "hasOwnProperty"; "isPrototypeOf"; "propertyIsEnumerable";
   "toLocaleString"; "toString"; "valueOf"; "__proto__";
   "__defineGetter__"; "__defineSetter__"; "__lookupGetter__"; "__lookupSetter__"].

(** What [formatPriority] returns: a value of the task or of the table,
    or what the table inherits under the given key (a function, or the
    prototype itself). *)
Inductive PriorityLabel :=
| Label (v : JsValue)
| Inherited (key : string).

(** [private formatPriority(priority)]:
    [priorities[priority] || priority] for the table [{l, m, h}]; the
    property key is [priority] converted with ToString, which can throw. *)
Definition formatPriority (host : Host) (priority : JsValue) : Thrown + PriorityLabel :=
  match ToString host priority with
  | inl e => inl e
  | inr key =>
      inr (if String.eqb key "l" then Label (JStr "Low")
           else if String.eqb key "m" then Label (JStr "Medium")
           else if String.eqb key "h" then Label (JStr "High")
           else if existsb (String.eqb key) object_prototype_keys then Inherited key
           else Label priority)
  end.

(** ToNumber, with the parsing of strings left to the runtime; an object
    or an array is first converted to a string, which can throw. *)
Definition ToNumber (host : Host) (rt : Runtime) (v : JsValue) : Thrown + float :=
  match v with
  | JUndefined => inr nan
  | JNull => inr 0%float
  | JBool b => inr (if b then 1%float else 0%float)
  | JNum x => inr x
  | JStr s => inr (StringToNumber rt s)
  | JArr _ | JObj _ =>
      match ToString host v with
      | inl e => inl e
      | inr s => inr (StringToNumber rt s)
      end
  end.

(** [formatFileSize(file.size)] for a value of any type: [bytes === 0]
    holds for the number zero only, and the arithmetic converts [bytes]
    with ToNumber. *)
Definition formatFileSize_value (host : Host) (rt : Runtime) (bytes : JsValue)
  : Thrown + string :=
  match bytes with
  | JNum x => inr (formatFileSize host rt x)
  | _ =>
      match ToNumber host rt bytes with
      | inl e => inl e
      | inr b =>
          let k := 1024%float in
          let i := Math_floor (Math_log rt b / Math_log rt k)%float in
          inr (Number_toString host (parseFloat rt (toFixed rt (b / Math_pow rt k i)%float 2))
                 +:+ " " +:+ sizes_at i)
      end
  end.

(** [{ id, name, email }] of a user. *)
Record Contact := {
  contact_id : JsValue;
  contact_name : JsValue;
  contact_email : JsValue;
}.

(** [{ id, name, state }] of a project or a task list. *)
Record Container := {
  container_id : JsValue;
  container_name : JsValue;
  container_state : JsValue;
}.

Record FormattedFile := {
  ff_uuid : JsValue;
  ff_filename : JsValue;
  ff_size : JsValue;
  ff_sizeFormatted : string;
  ff_caption : JsValue;
  ff_description : JsValue;
  ff_uploadedAt : JsValue;
}.

Record FormattedComment := {
  fc_id : JsValue;
  fc_content : JsValue;
  fc_isDescription : JsValue;
  fc_createdAt : JsValue;
  fc_author : Contact;
  fc_files : list FormattedFile;
}.

Record FormattedTask := {
  ft_id : JsValue;
  ft_name : JsValue;
  ft_description : JsValue;
  ft_priority : PriorityLabel;
  ft_state : JsValue;
  ft_completed : JsValue;
  ft_created : JsValue;
  ft_dueDate : JsValue;
  ft_dueDateEnd : JsValue;
  ft_completedDate : JsValue;
  ft_author : Contact;
  ft_assignee : option Contact;
  ft_project : Container;
  ft_taskList : Container;
  ft_tags : JsValue;
  ft_timeEstimate : JsValue;
  ft_comments : list FormattedComment;
  ft_totalComments : Z;
}.

(** [{ id: o.id, name: o.fullname, email: o.email }] *)
Definition contact_of (o : JsValue) : Async Contact :=
  i ← lift (get_prop o "id");
  n ← lift (get_prop o "fullname");
  e ← lift (get_prop o "email");
  resolve {| contact_id := i; contact_name := n; contact_email := e |}.

(** [o?.state] *)
Definition optional_state (o : JsValue) : Thrown + JsValue :=
  match o with
  | JUndefined | JNull => inr JUndefined
  | _ => get_prop o "state"
  end.

(** [{ id: o.id, name: o.name, state: o.state?.state || null }] *)
Definition container_of (o : JsValue) : Async Container :=
  i ← lift (get_prop o "id");
  n ← lift (get_prop o "name");
  so ← lift (get_prop o "state");
  s ← lift (optional_state so);
  resolve {| container_id := i; container_name := n; container_state := js_or s JNull |}.

(** [(v || []).map(f)], where [what] is the text of the expression. *)
Definition map_or_empty {B} (v : JsValue) (what : string) (f : JsValue -> Async B)
  : Async (list B) :=
  match js_or v (JArr []) with
  | JArr xs => map_async f xs
  | _ => throw (TypeError (what +:+ ".map is not a function"))
  end.

(** The callback of [(comment.files || []).map]. *)
Definition format_file (host : Host) (rt : Runtime) (file : JsValue) : Async FormattedFile :=
  uuid ← lift (get_prop file "uuid");
  filename ← lift (get_prop file "filename");
  size ← lift (get_prop file "size");
  sizeFormatted ← lift (formatFileSize_value host rt size);
  caption ← lift (get_prop file "caption");
  description ← lift (get_prop file "description");
  date_add ← lift (get_prop file "date_add");
  resolve {| ff_uuid := uuid; ff_filename := filename; ff_size := size;
             ff_sizeFormatted := sizeFormatted;
             ff_caption := caption; ff_description := description;
             ff_uploadedAt := date_add |}.

(** The callback of [(task.comments || []).map]. *)
Definition format_comment (host : Host) (rt : Runtime) (comment : JsValue)
  : Async FormattedComment :=
  id ← lift (get_prop comment "id");
  content ← lift (get_prop comment "content");
  is_description ← lift (get_prop comment "is_description");
  date_add ← lift (get_prop comment "date_add");
  author_obj ← lift (get_prop comment "author");
  author ← contact_of author_obj;
  files_value ← lift (get_prop comment "files");
  files ← map_or_empty files_value "(comment.files || [])" (format_file host rt);
  resolve {| fc_id := id; fc_content := content;
             fc_isDescription := js_or is_description (JBool false);
             fc_createdAt := date_add; fc_author := author; fc_files := files |}.

(** The [task] object of the result of [execute]. *)
Definition format_task (host : Host) (rt : Runtime) (task : JsValue) : Async FormattedTask :=
  id ← lift (get_prop task "id");
  name ← lift (get_prop task "name");
  description ← lift (get_prop task "description");
  priority_enum ← lift (get_prop task "priority_enum");
  priority ← lift (formatPriority host priority_enum);
  state_obj ← lift (get_prop task "state");
  state ← lift (optional_state state_obj);
  completed ← lift (get_prop task "completed");
  date_add ← lift (get_prop task "date_add");
  due_date ← lift (get_prop task "due_date");
  due_date_end ← lift (get_prop task "due_date_end");
  date_complete ← lift (get_prop task "date_complete");
  author_obj ← lift (get_prop task "author");
  author ← contact_of author_obj;
  worker ← lift (get_prop task "worker");
  assignee ← (if truthy worker
              then w ← contact_of worker; resolve (Some w)
              else resolve None);
  project_obj ← lift (get_prop task "project");
  project ← container_of project_obj;
  tasklist_obj ← lift (get_prop task "tasklist");
  taskList ← container_of tasklist_obj;
  tags ← lift (get_prop task "tags");
  time_estimate ← lift (get_prop task "time_estimate");
  comments_value ← lift (get_prop task "comments");
  comments ← map_or_empty comments_value "(task.comments || [])" (format_comment host rt);
  resolve {| ft_id := id; ft_name := name;
             ft_description := js_or description (JStr "(no description)");
             ft_priority := priority;
             ft_state := js_or state (JStr "unknown");
             ft_completed := js_or completed (JBool false);
             ft_created := date_add;
             ft_dueDate := js_or due_date JNull;
             ft_dueDateEnd := js_or due_date_end JNull;
             ft_completedDate := js_or date_complete JNull;
             ft_author := author; ft_assignee := assignee;
             ft_project := project; ft_taskList := taskList;
             ft_tags := js_or tags (JArr []);
             ft_timeEstimate := js_or time_estimate JNull;
             ft_comments := comments;
             ft_totalComments := Z.of_nat (length comments) |}.

(** What the [catch] block of the get-task tool throws. *)
Definition rethrow_task_error (error : Thrown) : Thrown :=
  match error with
  | ErrorObject _ message => new_Error ("Failed to fetch task: " +:+ message)
  | ThrownValue _ => new_Error "Unknown error occurred while fetching task"
  end.

(** [async execute(input)] of [FreeloGetTask]; the value returned is the
    [task] of [{ success: true, task }]. *)
Definition getTask_execute (host : Host) (rt : Runtime) (input_taskId : float)
  : Async FormattedTask :=
  try_catch
    (client ← lift (createFreeloClient host);
     task ← getTask host client input_taskId;
     format_task host rt task)
    (fun error => throw (rethrow_task_error error)).

(** [t] is the formatted form of the task record [task]. *)
Definition task_view (host : Host) (rt : Runtime) (task : JsValue) (t : FormattedTask)
  : Prop :=
  get_prop task "id" = inr (ft_id t) /\
  get_prop task "name" = inr (ft_name t) /\
  (exists d, get_prop task "description" = inr d /\
             ft_description t = js_or d (JStr "(no description)")) /\
  (exists p, get_prop task "priority_enum" = inr p /\
             formatPriority host p = inr (ft_priority t)) /\
  (exists so s, get_prop task "state" = inr so /\ optional_state so = inr s /\
                ft_state t = js_or s (JStr "unknown")) /\
  (exists v, get_prop task "completed" = inr v /\
             ft_completed t = js_or v (JBool false)) /\
  (exists v, get_prop task "tags" = inr v /\ ft_tags t = js_or v (JArr [])) /\
  (exists v, get_prop task "time_estimate" = inr v /\
             ft_timeEstimate t = js_or v JNull) /\
  (exists v xs, get_prop task "comments" = inr v /\ js_or v (JArr []) = JArr xs /\
                Forall2 (fun x c => outcome (format_comment host rt x) = inr c)
                  xs (ft_comments t)) /\
  ft_totalComments t = Z.of_nat (length (ft_comments t)).

(** ** Predicates on the list-subtasks tool *)

(** An asynchronous computation that dispatches nothing and does not look
    at the log. *)
Definition log_free {A} (m : Async A) : Prop :=
  forall log, m log = (log, outcome m).

(** What the [catch] block of [execute] returns for a thrown value. *)
Definition report_failure (error : Thrown) : ToolResult :=
  match error with
  | ErrorObject _ message => ToolFailure message
  | ThrownValue _ => ToolFailure "Unknown error occurred while fetching task subtasks"
  end.

(** [r] is [{ id: o.id, name: o[name_key] }]. *)
Definition refers_to (o : JsValue) (name_key : string) (r : IdName) : Prop :=
  get_prop o "id" = inr (ref_id r) /\ get_prop o name_key = inr (ref_name r).

(** [f] is the formatted form of the subtask record [x]. *)
Definition formats_to (x : JsValue) (f : FormattedSubtask) : Prop :=
  get_prop x "id" = inr (st_id f) /\
  get_prop x "name" = inr (st_name f) /\
  (exists o, get_prop x "state" = inr o /\ get_prop o "state" = inr (st_state f)) /\
  get_prop x "date_add" = inr (st_createdAt f) /\
  (exists d, get_prop x "due_date" = inr d /\ st_dueDate f = js_or d JNull) /\
  (exists d, get_prop x "due_date_end" = inr d /\ st_dueDateEnd f = js_or d JNull) /\
  get_prop x "count_comments" = inr (st_commentsCount f) /\
  get_prop x "count_subtasks" = inr (st_subtasksCount f) /\
  (exists o, get_prop x "author" = inr o /\ refers_to o "fullname" (st_author f)) /\
  (exists w, get_prop x "worker" = inr w /\
             match st_assignee f with
             | None => truthy w = false
             | Some a => truthy w = true /\ refers_to w "fullname" a
             end) /\
  (exists o, get_prop x "project" = inr o /\ refers_to o "name" (st_project f)) /\
  (exists o, get_prop x "tasklist" = inr o /\ refers_to o "name" (st_taskList f)).

(** ** More sample hosts *)

Module Fixtures.

(** A subtask record without [state]. *)
Definition stateless : JsValue :=
  JObj (<["id" := JNum 13]> {["name" := JStr "C"]}).

(** A subtask with a due date and a worker. *)
Definition assigned : JsValue :=
  JObj (<["id" := JNum 14]>
       (<["name" := JStr "D"]>
       (<["date_add" := JStr "2024-01-01T00:00:00+0000"]>
       (<["due_date" := JStr "2024-02-01"]>
       (<["author" := Samples.user 1 "Ann"]>
       (<["worker" := Samples.user 2 "Bob"]>
       (<["state" := JObj {["state" := JStr "completed"]}]>
       (<["project" := Samples.named 3 "Site"]>
          {["tasklist" := Samples.named 4 "Backlog"]})))))))).

Definition listing (xs : list JsValue) : Host :=
  Samples.host_answering (inr (Samples.page_one (JArr xs))) Samples.env.

(** 200 with body [null], and with body [{"data": {}}]. *)
Definition null_body : Response :=
  {| status := 200; statusText := "OK"; json := inr JNull; arrayBuffer := inr [] |}.

Definition empty_data : Response :=
  {| status := 200; statusText := "OK";
     json := inr (JObj {["data" := JObj ∅]}); arrayBuffer := inr [] |}.

(** 422 with body [{"message": {"field": "name"}}], and with body [{}]. *)
Definition object_message : Response :=
  {| status := 422; statusText := "Unprocessable Entity";
     json := inr (JObj {["message" := JObj {["field" := JStr "name"]}]});
     arrayBuffer := inr [] |}.

Definition empty_error : Response :=
  {| status := 502; statusText := "Bad Gateway"; json := inr (JObj ∅);
     arrayBuffer := inr [] |}.

(** 422 with body [{"message": {"toString": 1}}], and with body
    [{"error": ["name", {"toString": null}]}]. *)
Definition unprintable_message : Response :=
  {| status := 422; statusText := "Unprocessable Entity";
     json := inr (JObj {["message" := JObj {["toString" := JNum 1]}]});
     arrayBuffer := inr [] |}.

Definition unprintable_error : Response :=
  {| status := 422; statusText := "Unprocessable Entity";
     json := inr (JObj {["error" := JArr [JStr "name"; JObj {["toString" := JNull]}]]});
     arrayBuffer := inr [] |}.

(** A runtime with the given file-system answers: the temporary directory
    is [/tmp], paths are joined with a slash, the clock shows 1700000000000.
    The library functions of [formatFileSize] are given at the values a file
    of six bytes needs. *)
Definition runtime_with (mkdir : Thrown + unit) (write : Thrown + unit)
    (stat : Thrown + float) : Runtime :=
  {| os_tmpdir := "/tmp";
     path_join := fun a b => a +:+ "/" +:+ b;
     Date_now := 1700000000000%float;
     fs_mkdir := fun _ => mkdir;
     fs_writeFile := fun _ _ => write;
     fs_stat_size := fun _ => stat;
     Math_log := fun x => if (x =? 6)%float then 0x1.cab0bfa2a2002p+0%float
                          else if (x =? 1024)%float then 0x1.bb9d3beb8c86bp+2%float
                          else nan;
     Math_pow := fun _ i => if (i =? 0)%float then 1%float else nan;
     toFixed := fun x _ => if (x =? 6)%float then "6.00" else "NaN";
     parseFloat := fun s => if String.eqb s "6.00" then 6%float else nan;
     StringToNumber := fun _ => nan |}.

(** A file system that accepts everything and holds a file of six bytes. *)
Definition runtime : Runtime := runtime_with (inr tt) (inr tt) (inr 6%float).

(** A temporary directory that cannot be made, and a file that cannot be
    inspected after it was written. *)
Definition read_only : Runtime :=
  runtime_with (inl (ErrorObject "Error" "EROFS: read-only file system, mkdir"))
    (inr tt) (inr 6%float).

Definition vanished : Runtime :=
  runtime_with (inr tt) (inr tt)
    (inl (ErrorObject "Error" "ENOENT: no such file or directory, stat")).

Definition named_input : FreeloDownloadFileInput :=
  {| input_fileUuid := Samples.uuid; input_filename := Some "../Q3 report (final).pdf" |}.

Definition bare_input : FreeloDownloadFileInput :=
  {| input_fileUuid := Samples.uuid; input_filename := None |}.

Definition file_host : Host := Samples.host_answering (inr Samples.file_found) Samples.env.

Definition missing_file_host : Host :=
  Samples.host_answering (inr Samples.not_found) Samples.env.

(** A formatted subtask in the given state. *)
Definition item (st : string) : FormattedSubtask :=
  {| st_id := JNum 1; st_name := JStr "item"; st_state := JStr st;
     st_createdAt := JStr "2024-01-01T00:00:00+0000";
     st_dueDate := JNull; st_dueDateEnd := JNull;
     st_commentsCount := JNum 0; st_subtasksCount := JNum 0;
     st_author := {| ref_id := JNum 1; ref_name := JStr "Ann" |};
     st_assignee := None;
     st_project := {| ref_id := JNum 3; ref_name := JStr "Site" |};
     st_taskList := {| ref_id := JNum 4; ref_name := JStr "Backlog" |} |}.

(** A task with an empty description, an estimate of 0, no state and one
    comment that has one file of six bytes. *)
Definition task_record : JsValue :=
  JObj (<["id" := JNum 42]>
       (<["name" := JStr "X"]>
       (<["description" := JStr ""]>
       (<["priority_enum" := JStr "h"]>
       (<["date_add" := JStr "2024-01-01T00:00:00+0000"]>
       (<["time_estimate" := JNum 0]>
       (<["author" := Samples.user 1 "Ann"]>
       (<["project" := Samples.named 3 "Site"]>
       (<["tasklist" := Samples.named 4 "Backlog"]>
          {["comments" :=
              JArr [JObj (<["id" := JNum 5]>
                         (<["content" := JStr "see file"]>
                         (<["author" := Samples.user 1 "Ann"]>
                            {["files" :=
                                JArr [JObj (<["uuid" := JStr Samples.uuid]>
                                           (<["filename" := JStr "a.png"]>
                                              {["size" := JNum 6]}))]]})))]]}))))))))).

Definition task_host : Host :=
  Samples.host_answering
    (inr {| status := 200; statusText := "OK"; json := inr task_record;
            arrayBuffer := inr [] |})
    Samples.env.

End Fixtures.

(** * Properties *)

(** ** Strings *)

Lemma prefix_app (s t : string) : String.prefix s (s +:+ t) = true.
Proof.
  induction s as [|a s IH]; simpl.
  - by destruct t.
  - destruct (ascii_dec a a); [exact IH | congruence].
Qed.

Lemma includes_here (s t : string) : includes (s +:+ t) s = true.
Proof.
  destruct s as [|a s]; destruct t as [|b t]; simpl; try done;
    rewrite ?prefix_app; destruct (ascii_dec a a); try congruence; simpl;
    by rewrite ?prefix_app.
Qed.

Lemma includes_app_r (p s sub : string) :
  includes s sub = true -> includes (p +:+ s) sub = true.
Proof.
  intros H. induction p as [|a p IH]; simpl; [done|].
  rewrite IH. apply orb_true_r.
Qed.

Lemma includes_middle (p s t : string) : includes (p +:+ s +:+ t) s = true.
Proof. apply includes_app_r, includes_here. Qed.

Lemma str_falsy_true (s : string) : str_falsy s = true <-> s = "".
Proof. unfold str_falsy. apply String.eqb_eq. Qed.

Lemma str_falsy_false (s : string) : str_falsy s = false <-> s ≠ "".
Proof. unfold str_falsy. apply String.eqb_neq. Qed.

(** ** The library functions of the model, on known values *)

(** The test vectors of RFC 4648, section 10. *)
Example base64_rfc4648 :
  List.map Base64.encode ["f"; "fo"; "foo"; "foob"; "fooba"; "foobar"]
    = ["Zg=="; "Zm8="; "Zm9v"; "Zm9vYg=="; "Zm9vYmE="; "Zm9vYmFy"].
Proof. reflexivity. Qed.

Example base64_credentials :
  Base64.encode "dev@example.com:s3cret" = "ZGV2QGV4YW1wbGUuY29tOnMzY3JldA==".
Proof. reflexivity. Qed.

(** [Math.round] rounds a tie towards positive infinity and keeps the sign
    of a negative number that rounds to zero. *)
Example Math_round_samples :
  List.map Math_round [57.5; 2.5; 0.5; 0.25; -0.5; -2.5; -2.75; 12; infinity]%float
    = [58; 3; 1; 0; -0; -2; -3; 12; infinity]%float.
Proof. vm_compute. reflexivity. Qed.

Example float_of_Z_samples :
  List.map float_of_Z [0; 1; 40; 100; -3; 9007199254740993]
    = [0; 1; 40; 100; -3; 9007199254740992]%float.
Proof. vm_compute. reflexivity. Qed.

(** The percentage the code computes, next to the one of
    [claimed_percentage], on a few counts. *)
Example completion_percentage_samples :
  List.map (fun '(c, t) => (completion_percentage c t, claimed_percentage c t))
    [(0, 0); (0, 5); (1, 3); (2, 3); (1, 8); (5, 5); (23, 40)]
    = [(0%float, 0); (0%float, 0); (33%float, 33); (67%float, 67);
       (13%float, 13); (100%float, 100); (57%float, 58)].
Proof. vm_compute. reflexivity. Qed.

Example truthy_samples :
  List.map truthy [JUndefined; JNull; JStr ""; JStr "0"; JNum 0; JNum (-0); JNum nan;
                   JNum 1; JBool false; JArr []; JObj ∅]
    = [false; false; false; true; false; false; false; true; false; true; true].
Proof. vm_compute. reflexivity. Qed.

(** ** Running the operations of the client *)

Section ClientFacts.

Context (host : Host).

(** What [request] throws when the host's answer is not a success: the
    wrapped form of a thrown value. *)
Lemma request_rejected c endpoint options e :
  answer host (request_call c endpoint options) = inl e ->
  run (request host c endpoint options) =
    ([request_call c endpoint options],
     inl (new_Error match e with
                    | ErrorObject _ m => api_error_prefix +:+ m
                    | ThrownValue _ => "Unknown Freelo API error"
                    end)).
Proof.
  intros H. unfold run, request, try_catch, mbind, Async_bind, await, do_fetch.
  rewrite H. by destruct e.
Qed.

Lemma request_success_status c endpoint options r :
  answer host (request_call c endpoint options) = inr r ->
  ok r = true ->
  run (request host c endpoint options) =
    ([request_call c endpoint options],
     match json r with
     | inr v => inr v
     | inl (ErrorObject _ m) => inl (new_Error (api_error_prefix +:+ m))
     | inl (ThrownValue _) => inl (new_Error "Unknown Freelo API error")
     end).
Proof.
  intros H Hok. unfold run, request, try_catch, mbind, Async_bind, await, do_fetch.
  rewrite H, Hok. simpl. unfold lift.
  destruct (json r) as [[]|]; reflexivity.
Qed.

Lemma request_failure_status c endpoint options r :
  answer host (request_call c endpoint options) = inr r ->
  ok r = false ->
  run (request host c endpoint options) =
    ([request_call c endpoint options],
     match new_Error_of host (chosen_message r) with
     | ErrorObject _ m => inl (new_Error (api_error_prefix +:+ m))
     | ThrownValue _ => inl (new_Error "Unknown Freelo API error")
     end).
Proof.
  intros H Hok. unfold run, request, try_catch, mbind, Async_bind, await, do_fetch.
  rewrite H, Hok. simpl. unfold lift, chosen_message.
  destruct (json r) as [e|d]; simpl.
  - reflexivity.
  - destruct (pick_error_message d _) as [e|v]; simpl.
    + reflexivity.
    + unfold throw. by destruct (new_Error_of host v).
Qed.

(** Whatever the host answers, [request] dispatches exactly one call. *)
Lemma request_calls c endpoint options :
  calls (request host c endpoint options) = [request_call c endpoint options].
Proof.
  unfold calls.
  destruct (answer host (request_call c endpoint options)) as [e|r] eqn:H.
  - by rewrite (request_rejected _ _ _ _ H).
  - destruct (ok r) eqn:Hok.
    + by rewrite (request_success_status _ _ _ _ H Hok).
    + by rewrite (request_failure_status _ _ _ _ H Hok).
Qed.

Lemma getTask_run c taskId :
  run (getTask host c taskId) = run (request host c (task_endpoint host taskId) empty_init).
Proof. reflexivity. Qed.

(** [listTaskSubtasks] propagates what [request] throws. *)
Lemma listTaskSubtasks_throws c taskId e :
  outcome (request host c (subtasks_endpoint host taskId) empty_init) = inl e ->
  outcome (listTaskSubtasks host c taskId) = inl e.
Proof.
  unfold outcome, run, listTaskSubtasks, mbind, Async_bind, await.
  destruct (request host c _ empty_init []) as [log [x|v]]; simpl; congruence.
Qed.

Lemma listTaskSubtasks_calls c taskId :
  calls (listTaskSubtasks host c taskId) =
    [request_call c (subtasks_endpoint host taskId) empty_init].
Proof.
  pose proof (request_calls c (subtasks_endpoint host taskId) empty_init) as H.
  unfold calls, run, listTaskSubtasks, mbind, Async_bind, await, lift in *.
  destruct (request host c _ empty_init []) as [log [x|v]]; simpl in *; [done|].
  destruct (get_prop v "data"); simpl; done.
Qed.

Lemma listTaskSubtasks_returns c taskId v :
  outcome (request host c (subtasks_endpoint host taskId) empty_init) = inr v ->
  outcome (listTaskSubtasks host c taskId) =
    match get_prop v "data" with
    | inl e => inl e
    | inr d => get_prop d "subtasks"
    end.
Proof.
  unfold outcome, run, listTaskSubtasks, mbind, Async_bind, await, lift.
  destruct (request host c _ empty_init []) as [log [x|w]]; simpl; [congruence|].
  intros [= ->]. by destruct (get_prop v "data").
Qed.

Lemma downloadFile_run c fileUuid :
  run (downloadFile host c fileUuid) =
    ([download_call c fileUuid],
     match answer host (download_call c fileUuid) with
     | inl e => inl e
     | inr r =>
         if ok r then arrayBuffer r
         else inl (new_Error ("Failed to download file: " +:+ pretty (status r)
                                +:+ " " +:+ statusText r))
     end).
Proof.
  unfold run, downloadFile, mbind, Async_bind, await, do_fetch, lift, throw.
  destruct (answer host (download_call c fileUuid)) as [e|r]; simpl; [done|].
  by destruct (ok r).
Qed.

End ClientFacts.

(** ** Authentication headers (C1) *)

Lemma default_headers_authorization c :
  default_headers c !! "Authorization" = Some (authorization c).
Proof. unfold default_headers. by rewrite lookup_insert_eq. Qed.

Lemma default_headers_user_agent c :
  default_headers c !! "User-Agent" = Some (user_agent c).
Proof.
  unfold default_headers.
  rewrite lookup_insert_ne by done. by rewrite lookup_insert_eq.
Qed.

(** An entry of [options.headers] wins over the header written first. *)
Lemma request_headers_override c options (k v : string) :
  default ∅ (headers options) !! k = Some v ->
  request_headers c options !! k = Some v.
Proof. intros H. unfold request_headers. by apply lookup_union_Some_l. Qed.

Lemma request_headers_default c options (k : string) :
  default ∅ (headers options) !! k = None ->
  request_headers c options !! k = default_headers c !! k.
Proof. intros H. unfold request_headers. by apply lookup_union_r. Qed.

(** The public accessors pass no options, so their calls carry the
    credentials. *)
Lemma accessor_authorization host c taskId :
  forall call,
    call ∈ calls (getTask host c taskId) ++ calls (listTaskSubtasks host c taskId)
           ++ calls (downloadFile host c "u") ->
    headers (call_init call) ≫= (.!! "Authorization") = Some (authorization c).
Proof.
  intros call. unfold getTask. rewrite request_calls, listTaskSubtasks_calls.
  unfold calls. rewrite downloadFile_run. simpl.
  rewrite !elem_of_cons, elem_of_nil.
  intros [->|[->|[->|[]]]]; simpl.
  - rewrite request_headers_default by done. apply default_headers_authorization.
  - rewrite request_headers_default by done. apply default_headers_authorization.
  - unfold download_headers. by rewrite lookup_insert_eq.
Qed.

(** C1, as the code has it: whatever [options] is, [request] dispatches
    one call, to the base address followed by the endpoint, with the method
    and body of [options].  When [options.headers] has no [Authorization]
    entry, the header sent is ["Basic "] followed by the base64 encoding of
    [email:apiKey], whatever the endpoint, method and body are, and
    likewise for [User-Agent]; this is so for every call of [getTask] and
    [listTaskSubtasks], which pass no options.  An entry of
    [options.headers] replaces the header of the same name, [Authorization]
    and [User-Agent] included. *)
Theorem request_authorization_header host c endpoint options :
  exists call,
    calls (request host c endpoint options) = [call] /\
    call_url call = baseUrl c +:+ endpoint /\
    method (call_init call) = method options /\
    body (call_init call) = body options /\
    (default ∅ (headers options) !! "Authorization" = None ->
     headers (call_init call) ≫= (.!! "Authorization")
       = Some ("Basic " +:+ Base64.encode (email c +:+ ":" +:+ apiKey c))) /\
    (default ∅ (headers options) !! "User-Agent" = None ->
     headers (call_init call) ≫= (.!! "User-Agent")
       = Some ("freelo-mcp (" +:+ email c +:+ ")")) /\
    (forall k v, default ∅ (headers options) !! k = Some v ->
                 headers (call_init call) ≫= (.!! k) = Some v) /\
    (forall taskId call',
       call' ∈ calls (getTask host c taskId) ++ calls (listTaskSubtasks host c taskId) ->
       headers (call_init call') ≫= (.!! "Authorization")
         = Some ("Basic " +:+ Base64.encode (email c +:+ ":" +:+ apiKey c))).
Proof.
  exists (request_call c endpoint options).
  split; [apply request_calls|]. simpl.
  split; [done|]. split; [done|]. split; [done|].
  split; [|split; [|split]].
  - intros Hauth. rewrite request_headers_default by done.
    apply default_headers_authorization.
  - intros Hua. rewrite request_headers_default by done.
    apply default_headers_user_agent.
  - intros k v. apply request_headers_override.
  - intros taskId call' Hin. apply (accessor_authorization host c taskId).
    rewrite app_assoc. apply elem_of_app. by left.
Qed.

(** ** Construction (C5) *)

Lemma createFreeloClient_fails host :
  opt_falsy (process_env host !! "FREELO_EMAIL") = true \/
  opt_falsy (process_env host !! "FREELO_API_KEY") = true ->
  exists message, createFreeloClient host = inl (new_Error message).
Proof.
  unfold createFreeloClient. intros [H|H].
  - rewrite H. eauto.
  - rewrite H. destruct (opt_falsy (_ !! "FREELO_EMAIL")); eauto.
Qed.

Lemma execute_without_client host taskId message :
  createFreeloClient host = inl (new_Error message) ->
  run (execute host taskId) = ([], inr (ToolFailure message)).
Proof.
  intros H. unfold run, execute, try_catch, mbind, Async_bind, await, lift.
  by rewrite H.
Qed.

(** C5: the constructor returns a client for every pair of non-empty
    strings and throws when either is empty; [createFreeloClient] returns a
    client when both environment variables are set and non-empty, and
    throws when either is unset or empty; in that case the tool built on it
    reports the failure without dispatching any call. *)
Theorem construction_contract host (e k : string) taskId :
  (e ≠ "" -> k ≠ "" ->
   FreeloApiClient_new e k
     = inr {| email := e; apiKey := k; baseUrl := "https://api.freelo.io/v1" |}) /\
  (e = "" \/ k = "" -> exists message, FreeloApiClient_new e k = inl (new_Error message)) /\
  (process_env host !! "FREELO_EMAIL" = Some e ->
   process_env host !! "FREELO_API_KEY" = Some k ->
   e ≠ "" -> k ≠ "" ->
   createFreeloClient host
     = inr {| email := e; apiKey := k; baseUrl := "https://api.freelo.io/v1" |}) /\
  (opt_falsy (process_env host !! "FREELO_EMAIL") = true \/
   opt_falsy (process_env host !! "FREELO_API_KEY") = true ->
   exists message,
     createFreeloClient host = inl (new_Error message) /\
     calls (execute host taskId) = [] /\
     outcome (execute host taskId) = inr (ToolFailure message)).
Proof.
  repeat split.
  - intros He Hk. apply str_falsy_false in He, Hk.
    unfold FreeloApiClient_new. rewrite He, Hk. reflexivity.
  - intros [->| ->]; unfold FreeloApiClient_new; simpl; [eauto|].
    destruct (str_falsy e); eauto.
  - intros Henv Hkey He Hk. apply str_falsy_false in He, Hk.
    unfold createFreeloClient, FreeloApiClient_new.
    rewrite Henv, Hkey. simpl. rewrite He, Hk. reflexivity.
  - intros H. destruct (createFreeloClient_fails host H) as [message Hm].
    exists message. unfold calls, outcome.
    by rewrite (execute_without_client _ _ _ Hm).
Qed.

(** ** Unsupported operations (C6) *)

(** C6: [listTaskAttachments] and [getAttachment] throw their fixed error
    for every client and argument, from every log, and leave the log of
    dispatched calls as it was; each message names the unsupported endpoint
    and the accessor to use instead. *)
Theorem unsupported_operations c (taskId attachmentId : float) (log : list FetchCall) :
  listTaskAttachments c taskId log = (log, inl (new_Error unsupported_attachments)) /\
  getAttachment c attachmentId log = (log, inl (new_Error unsupported_attachment)) /\
  calls (listTaskAttachments c taskId) = [] /\
  calls (getAttachment c attachmentId) = [] /\
  includes unsupported_attachments "API does not support /task/{id}/attachments" = true /\
  includes unsupported_attachments "Use getTask() instead" = true /\
  includes unsupported_attachment "API does not support /attachments/{id}" = true /\
  includes unsupported_attachment "Use downloadFile(uuid) instead" = true.
Proof. repeat split; vm_compute; reflexivity. Qed.

(** ** Transport faults (C2) *)

(** C2, as the code has it: when [fetch] rejects with an [Error] instance,
    [request], and so [getTask] and [listTaskSubtasks], throw a fresh
    [Error] whose message is the prefix ["Freelo API error: "] followed by
    the message of the fault; [downloadFile] calls [fetch] outside any
    [try], so there the fault reaches the caller as it was thrown. *)
Theorem transport_fault_wrapping host c taskId fileUuid (name message : string) :
  (forall endpoint options,
     answer host (request_call c endpoint options) = inl (ErrorObject name message) ->
     outcome (request host c endpoint options)
       = inl (new_Error ("Freelo API error: " +:+ message))) /\
  (answer host (request_call c (task_endpoint host taskId) empty_init)
     = inl (ErrorObject name message) ->
   outcome (getTask host c taskId)
     = inl (new_Error ("Freelo API error: " +:+ message))) /\
  (answer host (request_call c (subtasks_endpoint host taskId) empty_init)
     = inl (ErrorObject name message) ->
   outcome (listTaskSubtasks host c taskId)
     = inl (new_Error ("Freelo API error: " +:+ message))) /\
  (answer host (download_call c fileUuid) = inl (ErrorObject name message) ->
   outcome (downloadFile host c fileUuid) = inl (ErrorObject name message)).
Proof.
  assert (Hreq : forall endpoint options,
            answer host (request_call c endpoint options)
              = inl (ErrorObject name message) ->
            outcome (request host c endpoint options)
              = inl (new_Error ("Freelo API error: " +:+ message))).
  { intros endpoint options H. unfold outcome.
    by rewrite (request_rejected _ _ _ _ _ H). }
  split; [exact Hreq|]. split; [|split].
  - intros H. exact (Hreq _ _ H).
  - intros H. apply listTaskSubtasks_throws. exact (Hreq _ _ H).
  - intros H. unfold outcome. by rewrite downloadFile_run, H.
Qed.

(** ** Remote errors (C3) *)

Lemma new_Error_of_truthy host (v : JsValue) :
  truthy v = true ->
  new_Error_of host v = match ToString host v with
                        | inl e => e
                        | inr message => new_Error message
                        end.
Proof. by destruct v. Qed.

(** The conversion to a string throws nothing but the TypeError of an
    object that has no usable [toString]. *)
Lemma ToString_throws host :
  forall (v : JsValue) (e : Thrown),
    ToString host v = inl e -> e = TypeError "Cannot convert object to primitive value".
Proof.
  fix IH 1. intros v.
  destruct v as [| |[|]| | |xs|fields]; intros e; simpl; try discriminate.
  - generalize e. clear e.
    induction xs as [|x rest IHrest]; intros e.
    + discriminate.
    + pose proof (IH x) as IHx.
      destruct x as [| |[|]| | |ys|fs]; simpl in *.
      all: try (destruct ((fix elements (xs : list JsValue) : Thrown + list string := _)
                            rest) as [t|ss];
                [intros [= <-]; exact (IHrest _ eq_refl)|discriminate]).
      * destruct ((fix elements (xs : list JsValue) : Thrown + list string := _) ys)
          as [t|ss].
        -- intros [= <-]. exact (IHx _ eq_refl).
        -- destruct ((fix elements (xs : list JsValue) : Thrown + list string := _) rest)
             as [t|ss']; [intros [= <-]; exact (IHrest _ eq_refl)|discriminate].
      * destruct (fs !! "toString").
        -- by intros [= <-].
        -- destruct ((fix elements (xs : list JsValue) : Thrown + list string := _) rest)
             as [t|ss']; [intros [= <-]; exact (IHrest _ eq_refl)|discriminate].
  - destruct (fields !! "toString"); [|discriminate]. by intros [= <-].
Qed.

(** [throw new Error(v)] always throws an instance of [Error]. *)
Lemma new_Error_of_error host (v : JsValue) :
  exists name message, new_Error_of host v = ErrorObject name message.
Proof.
  assert (H : forall w, exists name message,
                match ToString host w with
                | inl e => e
                | inr message => new_Error message
                end = ErrorObject name message).
  { intros w. destruct (ToString host w) as [e|s] eqn:H.
    - apply ToString_throws in H as ->. by eexists _, _.
    - by eexists _, _. }
  destruct v; first (by eexists _, _); apply H.
Qed.

Lemma chosen_message_field (r : Response) (errorData mv : JsValue) :
  json r = inr errorData ->
  get_prop errorData "message" = inr mv -> truthy mv = true ->
  chosen_message r = mv.
Proof.
  intros Hj Hm Ht. unfold chosen_message, pick_error_message.
  by rewrite Hj, Hm, Ht.
Qed.

Lemma chosen_error_field (r : Response) (errorData mv ev : JsValue) :
  json r = inr errorData ->
  get_prop errorData "message" = inr mv -> truthy mv = false ->
  get_prop errorData "error" = inr ev -> truthy ev = true ->
  chosen_message r = ev.
Proof.
  intros Hj Hm Hf He Ht. unfold chosen_message, pick_error_message, js_or.
  by rewrite Hj, Hm, Hf, He, Ht.
Qed.

Lemma chosen_status_line (r : Response) (t : Thrown) :
  json r = inl t -> chosen_message r = JStr (status_line_message r).
Proof. intros Hj. unfold chosen_message. by rewrite Hj. Qed.

Lemma request_raises_chosen host c endpoint options r (m : string) :
  answer host (request_call c endpoint options) = inr r ->
  ok r = false ->
  new_Error_of host (chosen_message r) = new_Error m ->
  outcome (request host c endpoint options) = inl (new_Error (api_error_prefix +:+ m)).
Proof.
  intros H Hok Hm. unfold outcome.
  rewrite (request_failure_status _ _ _ _ _ H Hok), Hm. done.
Qed.

(** On a non-success status [request] throws an [Error] with the prefix,
    whatever the body is. *)
Lemma request_failure_prefixed host c endpoint options r :
  answer host (request_call c endpoint options) = inr r ->
  ok r = false ->
  exists text,
    outcome (request host c endpoint options)
      = inl (new_Error (api_error_prefix +:+ text)).
Proof.
  intros H Hok. unfold outcome. rewrite (request_failure_status _ _ _ _ _ H Hok).
  destruct (new_Error_of_error host (chosen_message r)) as (n & m & ->). by exists m.
Qed.

Lemma chosen_preferred host (r : Response) (m : string) :
  preferred_message host r m -> new_Error_of host (chosen_message r) = new_Error m.
Proof.
  intros [d mv m' Hj Hm Ht Hs|d mv ev e Hj Hm Hf He Ht Hs|t Hj].
  - rewrite (chosen_message_field r d mv Hj Hm Ht).
    by rewrite (new_Error_of_truthy _ _ Ht), Hs.
  - rewrite (chosen_error_field r d mv ev Hj Hm Hf He Ht).
    by rewrite (new_Error_of_truthy _ _ Ht), Hs.
  - by rewrite (chosen_status_line r t Hj).
Qed.

Lemma preferred_status_line host (r : Response) (m : string) (t : Thrown) :
  json r = inl t -> preferred_message host r m ->
  m = "API request failed: " +:+ pretty (status r) +:+ " " +:+ statusText r.
Proof. intros Hj [d mv m' Hd|d mv ev e Hd|t' _]; congruence. Qed.

(** C3, as the code has it: on a response with a non-success status,
    [getTask] and [listTaskSubtasks] throw an [Error] whose message starts
    with the prefix ["Freelo API error: "], whatever the body is.  The text
    after the prefix is the preferred message: the [message] field of the
    JSON body when its value is truthy, else (that field missing or falsy)
    its [error] field when truthy, each converted to a string as
    [new Error] does, and the status line (which contains the status code)
    when the body is not JSON.  [downloadFile] does not read the body: it
    throws ["Failed to download file: "] followed by the status line,
    without the prefix. *)
Theorem remote_error_message host c taskId fileUuid (r : Response) :
  ok r = false ->
  (answer host (request_call c (task_endpoint host taskId) empty_init) = inr r ->
   (exists text,
      outcome (getTask host c taskId) = inl (new_Error ("Freelo API error: " +:+ text))) /\
   (forall m, preferred_message host r m ->
      outcome (getTask host c taskId) = inl (new_Error ("Freelo API error: " +:+ m)))) /\
  (answer host (request_call c (subtasks_endpoint host taskId) empty_init) = inr r ->
   (exists text,
      outcome (listTaskSubtasks host c taskId)
        = inl (new_Error ("Freelo API error: " +:+ text))) /\
   (forall m, preferred_message host r m ->
      outcome (listTaskSubtasks host c taskId)
        = inl (new_Error ("Freelo API error: " +:+ m)))) /\
  (forall m t, preferred_message host r m -> json r = inl t ->
     includes ("Freelo API error: " +:+ m) (pretty (status r)) = true) /\
  (answer host (download_call c fileUuid) = inr r ->
   outcome (downloadFile host c fileUuid)
     = inl (new_Error ("Failed to download file: " +:+ pretty (status r)
                         +:+ " " +:+ statusText r))) /\
  includes ("Failed to download file: " +:+ pretty (status r) +:+ " " +:+ statusText r)
           (pretty (status r)) = true.
Proof.
  intros Hok.
  split; [|split; [|split; [|split]]].
  - intros H. split.
    + exact (request_failure_prefixed _ _ _ _ _ H Hok).
    + intros m Hpref.
      exact (request_raises_chosen _ _ _ _ _ _ H Hok (chosen_preferred _ _ _ Hpref)).
  - intros H. split.
    + destruct (request_failure_prefixed _ _ _ _ _ H Hok) as (text & Ht).
      exists text. by apply listTaskSubtasks_throws.
    + intros m Hpref. apply listTaskSubtasks_throws.
      exact (request_raises_chosen _ _ _ _ _ _ H Hok (chosen_preferred _ _ _ Hpref)).
  - intros m t Hpref Hj. rewrite (preferred_status_line _ r m t Hj Hpref).
    apply (includes_app_r "Freelo API error: "), includes_middle.
  - intros H. unfold outcome. by rewrite downloadFile_run, H, Hok.
  - apply includes_middle.
Qed.

(** ** The paginated collection (C4) *)

(** C4: when the host answers the subtasks call with a success status and
    a JSON object whose [data] field is an object with a [subtasks] field
    [xs], [listTaskSubtasks] returns [xs] itself, whatever the other fields
    of the envelope are, and that call is the only one dispatched. *)
Theorem listTaskSubtasks_unwraps host c taskId (r : Response)
    (envelope inner : gmap string JsValue) (xs : JsValue) :
  answer host (request_call c (subtasks_endpoint host taskId) empty_init) = inr r ->
  ok r = true ->
  json r = inr (JObj envelope) ->
  envelope !! "data" = Some (JObj inner) ->
  inner !! "subtasks" = Some xs ->
  outcome (listTaskSubtasks host c taskId) = inr xs /\
  calls (listTaskSubtasks host c taskId)
    = [request_call c (subtasks_endpoint host taskId) empty_init] /\
  call_url (request_call c (subtasks_endpoint host taskId) empty_init)
    = baseUrl c +:+ "/task/" +:+ Number_toString host taskId +:+ "/subtasks" /\
  dispatched_method (call_init (request_call c (subtasks_endpoint host taskId) empty_init))
    = "GET".
Proof.
  intros H Hok Hj Hd Hs. repeat split.
  - rewrite (listTaskSubtasks_returns _ _ _ (JObj envelope)).
    + simpl. rewrite Hd. simpl. by rewrite Hs.
    + unfold outcome. rewrite (request_success_status _ _ _ _ _ H Hok), Hj. done.
  - apply listTaskSubtasks_calls.
Qed.

(** ** The binary payload (C7) *)

(** C7: [downloadFile] dispatches one call, a GET to the base address
    followed by [/file/] and the UUID, whose headers are [Authorization] and
    [User-Agent] and no other ([Content-Type] is not sent); on a success
    status it returns the bytes the response delivers, as they are. *)
Theorem downloadFile_contract host c fileUuid (r : Response) (bytes : list Byte.byte) :
  answer host (download_call c fileUuid) = inr r ->
  ok r = true ->
  arrayBuffer r = inr bytes ->
  outcome (downloadFile host c fileUuid) = inr bytes /\
  calls (downloadFile host c fileUuid) = [download_call c fileUuid] /\
  call_url (download_call c fileUuid) = baseUrl c +:+ "/file/" +:+ fileUuid /\
  dispatched_method (call_init (download_call c fileUuid)) = "GET" /\
  body (call_init (download_call c fileUuid)) = None /\
  exists h,
    headers (call_init (download_call c fileUuid)) = Some h /\
    h !! "Authorization" = Some ("Basic " +:+ Base64.encode (email c +:+ ":" +:+ apiKey c)) /\
    h !! "User-Agent" = Some ("freelo-mcp (" +:+ email c +:+ ")") /\
    h !! "Content-Type" = None /\
    dom h = ({["Authorization"; "User-Agent"]} : gset string).
Proof.
  intros H Hok Hb. unfold outcome, calls. rewrite downloadFile_run, H, Hok. simpl.
  split; [done|]. do 4 (split; [reflexivity|]).
  exists (download_headers c). unfold download_headers.
  split; [reflexivity|]. split; [by rewrite lookup_insert_eq|].
  split; [rewrite lookup_insert_ne by done; by rewrite lookup_singleton_eq|].
  split; [rewrite lookup_insert_ne by done; by rewrite lookup_singleton_ne|].
  rewrite dom_insert_L, dom_singleton_L. set_solver.
Qed.

(** ** The single resource (C8) *)

(** C8: when the host answers the task call with a success status and a
    body that parses to [v], [getTask] returns [v] itself, whatever [v] is;
    so every field of a JSON object reads as it was sent, and a field that
    is absent reads as [undefined] without any error. *)
Theorem getTask_returns_parsed host c taskId (r : Response) (v : JsValue) :
  answer host (request_call c (task_endpoint host taskId) empty_init) = inr r ->
  ok r = true ->
  json r = inr v ->
  outcome (getTask host c taskId) = inr v /\
  (forall fields k, v = JObj fields ->
     (forall x, fields !! k = Some x -> get_prop v k = inr x) /\
     (fields !! k = None -> get_prop v k = inr JUndefined)).
Proof.
  intros H Hok Hj. split.
  - unfold outcome. rewrite getTask_run, (request_success_status _ _ _ _ _ H Hok), Hj. done.
  - intros fields k ->. split.
    + intros x Hx. simpl. by rewrite Hx.
    + intros Hx. simpl. by rewrite Hx.
Qed.

(** ** Success status with a body that is not JSON (C9) *)

(** C9: when the status is in the success range and reading the body as
    JSON throws an [Error] (the parser's SyntaxError), [request] throws an
    [Error] whose message is the prefix ["Freelo API error: "] followed by
    the parser's message; and whenever [request] returns a value, the
    status was in the success range and the value is the parsed body. *)
Theorem request_unparseable_success host c endpoint options :
  (forall r name message,
     answer host (request_call c endpoint options) = inr r ->
     ok r = true ->
     json r = inl (ErrorObject name message) ->
     outcome (request host c endpoint options)
       = inl (new_Error ("Freelo API error: " +:+ message))) /\
  (forall v,
     outcome (request host c endpoint options) = inr v ->
     exists r, answer host (request_call c endpoint options) = inr r /\
               ok r = true /\ json r = inr v).
Proof.
  split.
  - intros r name message H Hok Hj. unfold outcome.
    rewrite (request_success_status _ _ _ _ _ H Hok), Hj. done.
  - intros v. unfold outcome.
    destruct (answer host (request_call c endpoint options)) as [e|r] eqn:H.
    + rewrite (request_rejected _ _ _ _ _ H). done.
    + destruct (ok r) eqn:Hok.
      * rewrite (request_success_status _ _ _ _ _ H Hok). simpl.
        destruct (json r) as [[]|w] eqn:Hj; try done.
        intros [= ->]. eauto.
      * rewrite (request_failure_status _ _ _ _ _ H Hok). simpl.
        by destruct (new_Error_of host (chosen_message r)).
Qed.

(** ** Binary64 arithmetic of the completion percentage *)

Lemma digits2_pos_size p : digits2_pos p = Pos.size p.
Proof. induction p; simpl; congruence. Qed.

Lemma Zdigits2_upper m : 0 <= m -> m < 2 ^ Zdigits2 m.
Proof.
  intros Hm. destruct m as [|p|p]; simpl; [lia| |lia].
  rewrite digits2_pos_size.
  pose proof (Pos.size_gt p) as H.
  apply Pos2Z.pos_lt_pos in H. rewrite Pos2Z.inj_pow in H. exact H.
Qed.

Lemma Zdigits2_lower m : 0 < m -> 2 ^ (Zdigits2 m - 1) <= m.
Proof.
  intros Hm. destruct m as [|p|p]; [lia| |lia]. unfold Zdigits2.
  rewrite digits2_pos_size.
  pose proof (Pos.size_le p) as H.
  apply Pos2Z.pos_le_pos in H. rewrite Pos2Z.inj_pow in H.
  change (Z.pos p~0) with (2 * Z.pos p) in H.
  replace (Z.pos (Pos.size p)) with (Z.succ (Z.pos (Pos.size p) - 1)) in H by lia.
  rewrite Z.pow_succ_r in H by lia. lia.
Qed.

Lemma Zdigits2_nonneg m : 0 <= Zdigits2 m.
Proof. destruct m; simpl; lia. Qed.

(** [m < 2^d] bounds the number of digits. *)
Lemma Zdigits2_le m d : 0 <= m -> 0 <= d -> m < 2 ^ d -> Zdigits2 m <= d.
Proof.
  intros Hm Hd Hlt.
  destruct (Z.eq_dec m 0) as [->|Hne]; [simpl; lia|].
  pose proof (Zdigits2_lower m ltac:(lia)) as Hl.
  pose proof (Zdigits2_nonneg m).
  destruct (Z.le_gt_cases (Zdigits2 m) d) as [|Hgt]; [assumption|].
  assert (2 ^ d <= 2 ^ (Zdigits2 m - 1)) by (apply Z.pow_le_mono_r; lia).
  lia.
Qed.

Lemma shr_1_shifted x : 0 <= shr_m x -> shifted 1 x (shr_1 x).
Proof.
  destruct x as [m r s]. unfold shifted, exact_record. simpl shr_m. intros Hm.
  change (2 ^ 1) with 2.
  destruct m as [|[p|p|]|]; cbn [shr_1 shr_m shr_r shr_s]; try lia.
  - split; [lia|]. split; [reflexivity|].
    intros [-> ->] _. auto.
  - split; [lia|]. split.
    + rewrite Pos2Z.inj_xI. apply Z.div_unique with (r := 1); lia.
    + intros _ [k Hk]. lia.
  - split; [lia|]. split.
    + rewrite Pos2Z.inj_xO. apply Z.div_unique with (r := 0); lia.
    + intros [-> ->] _. auto.
  - split; [lia|]. split; [reflexivity|].
    intros _ [k Hk]. lia.
Qed.

Lemma shifted_trans a b x y z :
  0 <= a -> 0 <= b -> shifted a x y -> shifted b y z -> shifted (a + b) x z.
Proof.
  intros Ha Hb (Hy & Hxy & Hex) (Hz & Hyz & Hey).
  assert (0 < 2 ^ a) by (apply Z.pow_pos_nonneg; lia).
  assert (0 < 2 ^ b) by (apply Z.pow_pos_nonneg; lia).
  split; [exact Hz|]. split.
  - rewrite Hyz, Hxy, Z.pow_add_r by lia. apply Z.div_div; lia.
  - intros Hx [k Hk]. rewrite Z.pow_add_r in Hk by lia.
    apply Hey.
    + apply Hex; [exact Hx|]. exists (k * 2 ^ b). lia.
    + exists k. rewrite Hxy, Hk.
      replace (k * (2 ^ a * 2 ^ b)) with (k * 2 ^ b * 2 ^ a) by lia.
      apply Z.div_mul. lia.
Qed.

Lemma iter_pos_shifted p : forall x,
  0 <= shr_m x -> shifted (Z.pos p) x (SpecFloat.iter_pos shr_1 p x).
Proof.
  induction p as [p IH|p IH|]; intros x Hx; cbn [SpecFloat.iter_pos].
  - pose proof (shr_1_shifted x Hx) as H1.
    pose proof (IH _ (proj1 H1)) as H2.
    pose proof (IH _ (proj1 H2)) as H3.
    replace (Z.pos p~1) with (1 + Z.pos p + Z.pos p) by lia.
    eapply shifted_trans; [lia|lia| |exact H3].
    eapply shifted_trans; [lia|lia|exact H1|exact H2].
  - pose proof (IH _ Hx) as H1.
    pose proof (IH _ (proj1 H1)) as H2.
    replace (Z.pos p~0) with (Z.pos p + Z.pos p) by lia.
    eapply shifted_trans; [lia|lia|exact H1|exact H2].
  - apply shr_1_shifted, Hx.
Qed.

Lemma loc_of_shr_record_of_loc m l :
  loc_of_shr_record (shr_record_of_loc m l) = l.
Proof. destruct l as [|[]]; reflexivity. Qed.

Lemma shr_m_record_of_loc m l : shr_m (shr_record_of_loc m l) = m.
Proof. destruct l as [|[]]; reflexivity. Qed.

Lemma exact_record_loc x : exact_record x -> loc_of_shr_record x = loc_Exact.
Proof. destruct x as [m r s]. intros [H1 H2]. simpl in *. subst. reflexivity. Qed.

Lemma below_digits B m e l :
  0 < B < 2 ^ 53 -> below B m e l -> Zdigits2 m + e - 53 <= 0.
Proof.
  intros HB (Hm & He & Hle & _).
  assert (0 < 2 ^ (- e)) by (apply Z.pow_pos_nonneg; lia).
  assert (m < 2 ^ (53 - e)).
  { replace (53 - e) with (53 + - e) by lia. rewrite Z.pow_add_r by lia. nia. }
  pose proof (Zdigits2_le m (53 - e) Hm ltac:(lia) ltac:(assumption)). lia.
Qed.

Lemma shr_fexp_below B m e l :
  0 < B < 2 ^ 53 -> below B m e l ->
  below B (shr_m (fst (shr_fexp prec emax m e l))) (snd (shr_fexp prec emax m e l))
    (loc_of_shr_record (fst (shr_fexp prec emax m e l))).
Proof.
  intros HB Hbel. pose proof (below_digits B m e l HB Hbel) as Hd.
  destruct Hbel as (Hm & He & Hle & Hex).
  unfold shr_fexp, shr.
  destruct (fexp prec emax (Zdigits2 m + e) - e) as [|k|k] eqn:Hk; cbn [fst snd].
  - rewrite shr_m_record_of_loc, loc_of_shr_record_of_loc. repeat split; assumption.
  - unfold fexp, emin, prec, emax in Hk.
    assert (Hx : 0 <= shr_m (shr_record_of_loc m l)) by (rewrite shr_m_record_of_loc; lia).
    destruct (iter_pos_shifted k _ Hx) as (H0 & Hdiv & Hexact).
    rewrite shr_m_record_of_loc in Hdiv, Hexact.
    set (e' := e + Z.pos k) in *.
    assert (He' : e' <= 0) by lia.
    assert (0 < 2 ^ Z.pos k) by (apply Z.pow_pos_nonneg; lia).
    assert (0 < 2 ^ (- e')) by (apply Z.pow_pos_nonneg; lia).
    assert (Hpow : 2 ^ (- e) = 2 ^ (- e') * 2 ^ Z.pos k).
    { rewrite <- Z.pow_add_r by lia. f_equal. lia. }
    rewrite Hpow in Hle, Hex.
    assert (Hq : shr_m (SpecFloat.iter_pos shr_1 k (shr_record_of_loc m l)) <= B * 2 ^ (- e')).
    { rewrite Hdiv. apply Z.div_le_upper_bound; lia. }
    repeat split; try assumption.
    intros Heq. apply exact_record_loc.
    assert (Hmeq : m = B * (2 ^ (- e') * 2 ^ Z.pos k)).
    { rewrite Hdiv in Heq.
      pose proof (Z.mul_div_le m (2 ^ Z.pos k) ltac:(lia)). nia. }
    apply Hexact.
    + rewrite (Hex Hmeq). split; reflexivity.
    + exists (B * 2 ^ (- e')). lia.
  - rewrite shr_m_record_of_loc, loc_of_shr_record_of_loc. repeat split; assumption.
Qed.

Lemma round_nearest_even_below B m e l :
  below B m e l -> below B (round_nearest_even m l) e loc_Exact.
Proof.
  intros (Hm & He & Hle & Hex).
  assert (Hup : l <> loc_Exact -> m + 1 <= B * 2 ^ (- e)).
  { intros Hl. destruct (Z.eq_dec m (B * 2 ^ (- e))) as [Heq|]; [|lia].
    exfalso. apply Hl. auto. }
  unfold below. split; [|split; [exact He|split; [|reflexivity]]].
  - destruct l as [|[]]; simpl; try lia. destruct (Z.even m); lia.
  - destruct l as [|[]]; simpl; try lia.
    + destruct (Z.even m); [lia|]. apply Hup. discriminate.
    + apply Hup. discriminate.
Qed.

Lemma binary_round_aux_below B m e l :
  0 < B < 2 ^ 53 -> below B m e l ->
  SF_below B (binary_round_aux prec emax false m e l).
Proof.
  intros HB Hbel. unfold binary_round_aux.
  pose proof (shr_fexp_below B m e l HB Hbel) as H1.
  destruct (shr_fexp prec emax m e l) as [mrs' e']. cbn [fst snd] in H1.
  apply round_nearest_even_below in H1.
  pose proof (shr_fexp_below B _ _ _ HB H1) as H2.
  destruct (shr_fexp prec emax _ e' loc_Exact) as [mrs'' e'']. cbn [fst snd] in H2.
  destruct H2 as (Hm & He & Hle & _).
  destruct (shr_m mrs'') as [|p|p]; [exact I| |lia].
  assert (Hleb : (e'' <=? emax - prec) = true)
    by (apply Z.leb_le; unfold emax, prec; lia).
  rewrite Hleb. split; assumption.
Qed.

Lemma Zdigits2_eq m k : 2 ^ (k - 1) <= m < 2 ^ k -> 0 < k -> Zdigits2 m = k.
Proof.
  intros [Hl Hu] Hk.
  assert (0 < 2 ^ (k - 1)) by (apply Z.pow_pos_nonneg; lia).
  pose proof (Zdigits2_le m k ltac:(lia) ltac:(lia) Hu).
  pose proof (Zdigits2_upper m ltac:(lia)) as Hup.
  pose proof (Zdigits2_nonneg m).
  destruct (Z.eq_dec (Zdigits2 m) k) as [|Hne]; [assumption|].
  assert (2 ^ Zdigits2 m <= 2 ^ (k - 1)) by (apply Z.pow_le_mono_r; lia).
  lia.
Qed.

Lemma iter_xO_value p k : Z.pos (Pos.iter xO p k) = Z.pos p * 2 ^ Z.pos k.
Proof.
  induction k as [|k IH] using Pos.peano_ind.
  - simpl. lia.
  - rewrite Pos.iter_succ, Pos2Z.inj_xO, IH, Pos2Z.inj_succ, Z.pow_succ_r by lia. lia.
Qed.

(** A normalised mantissa is left as it is by the rounding. *)
Lemma binary_round_aux_canonical s m e :
  Zdigits2 (Z.pos m) = 53 -> -1074 <= e <= 971 ->
  binary_round_aux prec emax s (Z.pos m) e loc_Exact = S754_finite s m e.
Proof.
  intros Hd He. unfold binary_round_aux, shr_fexp. rewrite Hd.
  replace (fexp prec emax (53 + e) - e) with 0
    by (unfold fexp, emin, prec, emax; lia).
  cbn [shr shr_record_of_loc shr_m loc_of_shr_record round_nearest_even].
  rewrite Hd.
  replace (fexp prec emax (53 + e) - e) with 0
    by (unfold fexp, emin, prec, emax; lia).
  cbn [shr shr_record_of_loc shr_m].
  replace (e <=? emax - prec) with true; [reflexivity|].
  symmetry. apply Z.leb_le. unfold emax, prec. lia.
Qed.

(** The binary64 value of an integer below 2^53 is that integer. *)
Lemma binary_normalize_int n :
  0 < n < 2 ^ 53 ->
  exists m e,
    binary_normalize prec emax n 0 false = S754_finite false m e /\
    -52 <= e <= 0 /\ Z.pos m = n * 2 ^ (- e) /\ Zdigits2 (Z.pos m) = 53.
Proof.
  intros Hn. destruct n as [|p|p]; [lia| |lia].
  pose proof (Zdigits2_upper (Z.pos p) ltac:(lia)) as Hu.
  pose proof (Zdigits2_lower (Z.pos p) ltac:(lia)) as Hl.
  pose proof (Zdigits2_le (Z.pos p) 53 ltac:(lia) ltac:(lia) (proj2 Hn)) as Hd.
  assert (H1 : 1 <= Zdigits2 (Z.pos p)) by (simpl; lia).
  set (d := Zdigits2 (Z.pos p)) in *.
  unfold binary_normalize, binary_round.
  change (Z.pos (digits2_pos p)) with d.
  replace (fexp prec emax (d + 0)) with (d - 53)
    by (unfold fexp, emin, prec, emax; lia).
  unfold shl_align.
  destruct (d - 53 - 0) as [|k|k] eqn:Hk; [|lia|].
  - exists p, 0. rewrite binary_round_aux_canonical by (fold d; lia).
    repeat split; try lia; fold d; lia.
  - assert (Hpow : 0 < 2 ^ Z.pos k) by (apply Z.pow_pos_nonneg; lia).
    assert (Hdig : Zdigits2 (Z.pos (Pos.iter xO p k)) = 53).
    { apply Zdigits2_eq; [|lia]. rewrite iter_xO_value.
      replace 53 with (d + Z.pos k) by lia.
      replace (d + Z.pos k - 1) with (d - 1 + Z.pos k) by lia.
      rewrite !Z.pow_add_r by lia. nia. }
    exists (Pos.iter xO p k), (d - 53).
    rewrite binary_round_aux_canonical by (try exact Hdig; lia).
    split; [reflexivity|]. split; [lia|]. split; [|exact Hdig].
    rewrite iter_xO_value. f_equal. f_equal. lia.
Qed.

Lemma new_location_zero n : new_location n 0 = loc_Exact.
Proof.
  unfold new_location, new_location_even, new_location_odd.
  destruct (Z.even n); reflexivity.
Qed.

Lemma SFdiv_core_normal m1 e1 m2 e2 :
  Zdigits2 (Z.pos m1) = 53 -> Zdigits2 (Z.pos m2) = 53 ->
  -52 <= e1 <= 0 -> -52 <= e2 <= 0 ->
  SFdiv_core_binary prec emax (Z.pos m1) e1 (Z.pos m2) e2 =
    (Z.pos m1 * 2 ^ 53 / Z.pos m2, e1 - e2 - 53,
     new_location (Z.pos m2) ((Z.pos m1 * 2 ^ 53) mod Z.pos m2)).
Proof.
  intros Hd1 Hd2 He1 He2. unfold SFdiv_core_binary. rewrite Hd1, Hd2.
  replace (Z.min (fexp prec emax (53 + e1 - (53 + e2))) (e1 - e2)) with (e1 - e2 - 53)
    by (unfold fexp, emin, prec, emax; lia).
  replace (e1 - e2 - (e1 - e2 - 53)) with 53 by lia.
  cbv beta iota zeta.
  rewrite Z.shiftl_mul_pow2 by lia.
  unfold Z.div, Z.modulo.
  destruct (Z.div_eucl (Z.pos m1 * 2 ^ 53) (Z.pos m2)) as [q r]. reflexivity.
Qed.

(** The quotient of two integers [c <= t] does not exceed one. *)
Lemma SFdiv_below c t fc ft :
  0 < c <= t -> SF_int c fc -> SF_int t ft ->
  SF_below 1 (SFdiv prec emax fc ft).
Proof.
  intros Hct Hc Ht.
  destruct fc as [| | |[] m1 e1]; try contradiction.
  destruct ft as [| | |[] m2 e2]; try contradiction.
  destruct Hc as (He1 & Hm1 & Hd1), Ht as (He2 & Hm2 & Hd2).
  assert (0 < 2 ^ (- e1)) by (apply Z.pow_pos_nonneg; lia).
  assert (0 < 2 ^ (- e2)) by (apply Z.pow_pos_nonneg; lia).
  unfold SFdiv. rewrite SFdiv_core_normal by assumption.
  apply binary_round_aux_below; [lia|].
  set (N := Z.pos m1 * 2 ^ 53). set (D := Z.pos m2).
  assert (Hpow : 2 ^ (- (e1 - e2 - 53)) * 2 ^ (- e2) = 2 ^ 53 * 2 ^ (- e1)).
  { rewrite <- !Z.pow_add_r by lia. f_equal. lia. }
  assert (0 < 2 ^ (- (e1 - e2 - 53))) by (apply Z.pow_pos_nonneg; lia).
  assert (HND : N <= D * 2 ^ (- (e1 - e2 - 53))).
  { unfold N, D. rewrite Hm1, Hm2. nia. }
  assert (0 < D) by (unfold D; lia).
  assert (0 <= N) by (unfold N; lia).
  pose proof (Z.div_mod N D ltac:(lia)) as Hdm.
  pose proof (Z.mod_pos_bound N D ltac:(lia)) as Hmod.
  unfold below. split; [apply Z.div_pos; lia|]. split; [lia|]. split.
  - rewrite Z.mul_1_l. apply Z.div_le_upper_bound; lia.
  - rewrite Z.mul_1_l. intros Heq.
    assert (N mod D = 0) by nia.
    replace (N mod D) with 0 by lia. apply new_location_zero.
Qed.

Lemma Prim2SF_hundred : Prim2SF 100%float = SF_hundred.
Proof. vm_compute. reflexivity. Qed.

Lemma SFmul_below q :
  SF_below 1 q -> SF_below 100 (SFmul prec emax q SF_hundred).
Proof.
  destruct q as [[]| | |[] m e]; unfold SF_below at 1; try contradiction.
  - intros _. exact I.
  - intros [He Hm]. unfold SFmul, SF_hundred. cbn [xorb].
    assert (0 < 2 ^ (- e)) by (apply Z.pow_pos_nonneg; lia).
    apply binary_round_aux_below; [lia|].
    unfold below. split; [lia|]. split; [lia|]. split; [|reflexivity].
    replace (- (e + -46)) with (46 + - e) by lia.
    rewrite Z.pow_add_r, Pos2Z.inj_mul by lia.
    change (Z.pos 7036874417766400) with (100 * 2 ^ 46). nia.
Qed.

Lemma Prim2SF_float_of_Z n :
  0 < n < 2 ^ 53 -> SF_int n (Prim2SF (float_of_Z n)).
Proof.
  intros Hn. destruct (binary_normalize_int n Hn) as (m & e & Heq & He & Hm & Hd).
  unfold float_of_Z. rewrite Heq, Prim2SF_SF2Prim.
  - repeat split; assumption || lia.
  - unfold valid_binary, bounded, canonical_mantissa.
    change (Z.pos (digits2_pos m)) with (Zdigits2 (Z.pos m)). rewrite Hd.
    apply andb_true_intro. split.
    + apply Z.eqb_eq. unfold fexp, emin, prec, emax. lia.
    + apply Z.leb_le. unfold prec, emax. lia.
Qed.

Lemma float_of_Z_zero : Prim2SF (float_of_Z 0) = S754_zero false.
Proof. reflexivity. Qed.

Lemma round_half_up_below m e :
  e <= 0 -> 0 < m <= 100 * 2 ^ (- e) -> 0 <= round_half_up m e <= 100.
Proof.
  intros He Hm. unfold round_half_up.
  destruct (Z.leb_spec 0 e) as [H0|H0].
  - replace e with 0 in * by lia. change (2 ^ (- 0)) with 1 in Hm.
    change (2 ^ 0) with 1. lia.
  - assert (Hh : 0 < 2 ^ (- e - 1)) by (apply Z.pow_pos_nonneg; lia).
    assert (Hp : 2 ^ (- e) = 2 * 2 ^ (- e - 1)).
    { rewrite <- Z.pow_succ_r by lia. f_equal. lia. }
    rewrite Hp in *. split.
    + apply Z.div_pos; lia.
    + apply Z.lt_succ_r. apply Z.div_lt_upper_bound; lia.
Qed.

Lemma Math_round_below p :
  SF_below 100 (Prim2SF p) ->
  exists n, 0 <= n <= 100 /\ Math_round p = float_of_Z n.
Proof.
  intros H. unfold Math_round, Math_round_Z.
  destruct (Prim2SF p) as [[]| | |[] m e] eqn:Hp; try contradiction.
  - exists 0. split; [lia|].
    rewrite <- (SF2Prim_Prim2SF p), Hp. reflexivity.
  - destruct H as [He Hm]. exists (round_half_up (Z.pos m) e).
    split; [apply round_half_up_below; lia|].
    cbv zeta. rewrite andb_false_r. reflexivity.
Qed.

Lemma completion_percentage_range c t :
  0 <= c <= t -> t < 2 ^ 53 ->
  exists n, 0 <= n <= 100 /\ completion_percentage c t = float_of_Z n.
Proof.
  intros Hct Ht. unfold completion_percentage.
  destruct (Z.ltb_spec 0 t) as [Hpos|Hzero]; [|exists 0; split; [lia|reflexivity]].
  apply Math_round_below.
  rewrite FloatAxioms.mul_spec, FloatAxioms.div_spec, Prim2SF_hundred. apply SFmul_below.
  pose proof (Prim2SF_float_of_Z t ltac:(lia)) as HT.
  destruct (Z.eq_dec c 0) as [->|Hc].
  - rewrite float_of_Z_zero.
    destruct (Prim2SF (float_of_Z t)) as [| | |[] m e]; try contradiction.
    exact I.
  - apply (SFdiv_below c t); [lia| |exact HT].
    apply Prim2SF_float_of_Z. lia.
Qed.

(** ** Statistics of the list-subtasks tool (C10) *)

Lemma map_async_length {A B} (f : A -> Async B) (xs : list A) :
  forall log log' ys, map_async f xs log = (log', inr ys) -> length ys = length xs.
Proof.
  induction xs as [|x xs IH]; intros log log' ys; simpl.
  - unfold mret, Async_ret, resolve. intros [= _ <-]. reflexivity.
  - unfold mbind, Async_bind, await, mret, Async_ret, resolve.
    destruct (f x log) as [log1 [e|y]]; [discriminate|].
    destruct (map_async f xs log1) as [log2 [e|ys']] eqn:Hxs; [discriminate|].
    intros [= _ <-]. simpl. f_equal. exact (IH _ _ _ Hxs).
Qed.

Lemma filter_length_bound {A} (f : A -> bool) (l : list A) :
  (length (List.filter f l) <= length l)%nat.
Proof. induction l as [|x l IH]; simpl; [lia|]. destruct (f x); simpl; lia. Qed.

Lemma is_completed_spec (s : FormattedSubtask) :
  is_completed s = true <-> st_state s = JStr "completed" \/ st_state s = JStr "finished".
Proof.
  unfold is_completed, strict_eq_string. rewrite orb_true_iff.
  destruct (st_state s) as [| | | |t| |]; try (split; [intros [|]; discriminate|intros [|]; discriminate]).
  rewrite !String.eqb_eq. split; intros [H|H]; try (injection H as H); subst; auto.
Qed.

(** What a success result of [execute] holds. *)
Lemma execute_success host taskId id st fs :
  outcome (execute host taskId) = inr (ToolSuccess id st fs) ->
  id = taskId /\ st = statistics_of fs /\
  exists c xs, createFreeloClient host = inr c /\
               outcome (listTaskSubtasks host c taskId) = inr (JArr xs) /\
               length fs = length xs.
Proof.
  unfold outcome, run, execute, try_catch, mbind, Async_bind, await, lift,
    mret, Async_ret, resolve.
  destruct (createFreeloClient host) as [e|c]; [destruct e; discriminate|].
  destruct (listTaskSubtasks host c taskId []) as [log [e|v]] eqn:Hl;
    [destruct e; discriminate|].
  destruct (array_map v format_subtask log) as [log' [e|l]] eqn:Hm;
    [destruct e; discriminate|].
  simpl. intros [= <- <- <-]. split; [reflexivity|]. split; [reflexivity|].
  exists c. destruct v as [| | | | |xs|]; simpl in Hm; try discriminate.
  exists xs. split; [reflexivity|]. split; [by rewrite Hl|].
  exact (map_async_length _ _ _ _ _ Hm).
Qed.

(** C10, as the code has it: in a success result of the tool, [total] is
    the number of subtasks, [completed] the number of those whose state is
    ["completed"] or ["finished"], so 0 <= completed <= total, [remaining]
    is their difference, and [completionPercentage] is 0 when [total] is 0
    and otherwise [Math.round] of the binary64 product
    [(completed / total) * 100]; it is an integer between 0 and 100. (The
    product is rounded before [Math.round] sees it, so on a tie of the exact
    quotient the result can be the integer below.) *)
Theorem subtask_statistics host taskId id st fs :
  outcome (execute host taskId) = inr (ToolSuccess id st fs) ->
  total st = Z.of_nat (length fs) /\
  completed st = Z.of_nat (length (List.filter is_completed fs)) /\
  (forall s, is_completed s = true <->
             st_state s = JStr "completed" \/ st_state s = JStr "finished") /\
  0 <= completed st <= total st /\
  remaining st = total st - completed st /\
  (total st = 0 -> completionPercentage st = 0%float) /\
  (0 < total st ->
   completionPercentage st
     = Math_round (float_of_Z (completed st) / float_of_Z (total st) * 100)%float) /\
  (total st < 2 ^ 53 ->
   exists n, 0 <= n <= 100 /\ completionPercentage st = float_of_Z n) /\
  (exists c xs, createFreeloClient host = inr c /\
                outcome (listTaskSubtasks host c taskId) = inr (JArr xs) /\
                length fs = length xs).
Proof.
  intros H. destruct (execute_success _ _ _ _ _ H) as (_ & -> & Hxs).
  pose proof (filter_length_bound is_completed fs) as Hle.
  unfold statistics_of. cbn [total completed remaining completionPercentage].
  split; [reflexivity|]. split; [reflexivity|]. split; [exact is_completed_spec|].
  split; [lia|]. split; [reflexivity|]. split; [|split; [|split]].
  - intros H0. unfold completion_percentage. rewrite H0. reflexivity.
  - intros Hpos. unfold completion_percentage.
    apply Z.ltb_lt in Hpos. rewrite Hpos. reflexivity.
  - intros Hlt. apply completion_percentage_range; lia.
  - exact Hxs.
Qed.

(** * The properties at the sample hosts *)

(** C1 at a POST with a body and an [Accept] header: the credentials are
    sent, the caller's header too; and at options that carry an
    [Authorization] entry, which is sent in place of the credentials. *)
Lemma request_authorization_header_witness :
  (default ∅ (headers Samples.post_options) !! "Authorization" = None /\
   exists call,
     calls (request Samples.offline Samples.client "/task/7" Samples.post_options) = [call] /\
     call_url call = "https://api.freelo.io/v1/task/7" /\
     method (call_init call) = Some "POST" /\
     headers (call_init call) ≫= (.!! "Authorization")
       = Some "Basic ZGV2QGV4YW1wbGUuY29tOnMzY3JldA==" /\
     headers (call_init call) ≫= (.!! "User-Agent") = Some "freelo-mcp (dev@example.com)" /\
     headers (call_init call) ≫= (.!! "Accept") = Some "text/plain") /\
  (default ∅ (headers Samples.forged_options) !! "Authorization" = Some "Bearer forged" /\
   exists call,
     calls (request Samples.offline Samples.client "/task/7" Samples.forged_options) = [call] /\
     headers (call_init call) ≫= (.!! "Authorization") = Some "Bearer forged").
Proof.
  split.
  - split; [reflexivity|].
    destruct (request_authorization_header Samples.offline Samples.client "/task/7"
                Samples.post_options) as (call & Hc & Hu & Hm & _ & Ha & Hua & Hk & _).
    exists call. split; [exact Hc|]. split; [exact Hu|]. split; [exact Hm|].
    split; [exact (Ha eq_refl)|]. split; [exact (Hua eq_refl)|].
    exact (Hk "Accept" "text/plain" eq_refl).
  - split; [reflexivity|].
    destruct (request_authorization_header Samples.offline Samples.client "/task/7"
                Samples.forged_options) as (call & Hc & _ & _ & _ & _ & _ & Hk & _).
    exists call. split; [exact Hc|].
    exact (Hk "Authorization" "Bearer forged" eq_refl).
Defined.

(** C1 fails as stated: an [Authorization] entry of [options.headers]
    replaces the credentials in the call that is dispatched. *)
Lemma authorization_header_overridden :
  calls (request Samples.offline Samples.client "/task/7" Samples.forged_options)
    = [request_call Samples.client "/task/7" Samples.forged_options] /\
  headers (call_init (request_call Samples.client "/task/7" Samples.forged_options))
    ≫= (.!! "Authorization") = Some "Bearer forged" /\
  authorization Samples.client = "Basic ZGV2QGV4YW1wbGUuY29tOnMzY3JldA==" /\
  headers (call_init (request_call Samples.client "/task/7" Samples.forged_options))
    ≫= (.!! "Authorization") ≠ Some (authorization Samples.client).
Proof.
  split; [apply request_calls|]. split; [reflexivity|]. split; [reflexivity|].
  intros H. vm_compute in H. discriminate H.
Qed.

(** C2 at a host whose transport is down. *)
Lemma transport_fault_wrapping_witness :
  (forall call, answer Samples.offline call = inl (ErrorObject "TypeError" "fetch failed")) /\
  outcome (getTask Samples.offline Samples.client 7)
    = inl (ErrorObject "Error" "Freelo API error: fetch failed") /\
  outcome (listTaskSubtasks Samples.offline Samples.client 7)
    = inl (ErrorObject "Error" "Freelo API error: fetch failed") /\
  outcome (downloadFile Samples.offline Samples.client Samples.uuid)
    = inl (ErrorObject "TypeError" "fetch failed").
Proof.
  split; [intros call; reflexivity|].
  destruct (transport_fault_wrapping Samples.offline Samples.client 7 Samples.uuid
              "TypeError" "fetch failed") as (_ & Hg & Hl & Hd).
  split; [exact (Hg eq_refl)|]. split; [exact (Hl eq_refl)|exact (Hd eq_refl)].
Defined.

(** C2 fails as stated: [downloadFile] lets the transport's own exception
    through, without the prefix. *)
Lemma downloadFile_fault_unwrapped :
  outcome (downloadFile Samples.offline Samples.client Samples.uuid)
    = inl (ErrorObject "TypeError" "fetch failed") /\
  String.prefix "Freelo API error: " "fetch failed" = false.
Proof. split; reflexivity. Qed.

(** C3 at the two responses of the specification, 404 with a JSON error
    body and 500 with a body that is not JSON, at a body that has only an
    [error] field, and at a body whose [message] is an object. *)
Lemma remote_error_message_witness :
  (ok Samples.not_found = false /\
   outcome (getTask (Samples.host_answering (inr Samples.not_found) Samples.env)
              Samples.client 7)
     = inl (new_Error "Freelo API error: Task not found") /\
   includes "Freelo API error: Task not found" "Task not found" = true) /\
  (outcome (getTask (Samples.host_answering (inr Samples.forbidden) Samples.env)
              Samples.client 7)
     = inl (new_Error "Freelo API error: forbidden")) /\
  (outcome (listTaskSubtasks (Samples.host_answering (inr Samples.invalid) Samples.env)
              Samples.client 7)
     = inl (new_Error "Freelo API error: [object Object]")) /\
  (outcome (getTask (Samples.host_answering (inr Samples.server_error) Samples.env)
              Samples.client 7)
     = inl (new_Error "Freelo API error: API request failed: 500 Internal Server Error") /\
   includes "Freelo API error: API request failed: 500 Internal Server Error" "500" = true /\
   outcome (downloadFile (Samples.host_answering (inr Samples.server_error) Samples.env)
              Samples.client Samples.uuid)
     = inl (new_Error "Failed to download file: 500 Internal Server Error")).
Proof.
  split; [|split; [|split]].
  - split; [reflexivity|]. split; [|reflexivity].
    refine (proj2 (proj1 (remote_error_message
                     (Samples.host_answering (inr Samples.not_found) Samples.env)
                     Samples.client 7 Samples.uuid Samples.not_found eq_refl)
                   eq_refl) _ _).
    eapply from_message; reflexivity.
  - refine (proj2 (proj1 (remote_error_message
                     (Samples.host_answering (inr Samples.forbidden) Samples.env)
                     Samples.client 7 Samples.uuid Samples.forbidden eq_refl)
                   eq_refl) _ _).
    eapply (from_error _ _ _ JUndefined); reflexivity.
  - refine (proj2 (proj1 (proj2 (remote_error_message
                     (Samples.host_answering (inr Samples.invalid) Samples.env)
                     Samples.client 7 Samples.uuid Samples.invalid eq_refl))
                   eq_refl) _ _).
    eapply from_message; reflexivity.
  - destruct (remote_error_message
                (Samples.host_answering (inr Samples.server_error) Samples.env)
                Samples.client 7 Samples.uuid Samples.server_error eq_refl)
      as (Hg & _ & Hi & Hd & _).
    pose proof (from_status_line
                  (Samples.host_answering (inr Samples.server_error) Samples.env)
                  Samples.server_error _ eq_refl) as Hse.
    split; [exact (proj2 (Hg eq_refl) _ Hse)|].
    split; [exact (Hi _ _ Hse eq_refl)|exact (Hd eq_refl)].
Defined.

(** C3 fails as stated for the third accessor: on the 404 response
    [downloadFile] reports the status line, not the [message] field of the
    body, and without the prefix. *)
Lemma downloadFile_error_unprefixed :
  ok Samples.not_found = false /\
  (exists d, json Samples.not_found = inr d /\
             get_prop d "message" = inr (JStr "Task not found")) /\
  outcome (downloadFile (Samples.host_answering (inr Samples.not_found) Samples.env)
             Samples.client Samples.uuid)
    = inl (new_Error "Failed to download file: 404 Not Found") /\
  includes "Failed to download file: 404 Not Found" "Task not found" = false /\
  String.prefix "Freelo API error: " "Failed to download file: 404 Not Found" = false.
Proof.
  split; [reflexivity|]. split; [eexists; split; reflexivity|].
  repeat split; reflexivity.
Qed.

(** C4 at the envelope of the specification:
    [{total:5, count:2, page:1, per_page:2, data:{subtasks:[A,B]}}]. *)
Lemma listTaskSubtasks_unwraps_witness :
  ok (Samples.page_one (JArr [Samples.A; Samples.B])) = true /\
  outcome (listTaskSubtasks
             (Samples.host_answering (inr (Samples.page_one (JArr [Samples.A; Samples.B])))
                Samples.env)
             Samples.client 7)
    = inr (JArr [Samples.A; Samples.B]) /\
  calls (listTaskSubtasks
           (Samples.host_answering (inr (Samples.page_one (JArr [Samples.A; Samples.B])))
              Samples.env)
           Samples.client 7)
    = [{| call_url := "https://api.freelo.io/v1/task/7/subtasks";
          call_init := with_headers empty_init (default_headers Samples.client) |}].
Proof.
  split; [reflexivity|].
  destruct (listTaskSubtasks_unwraps
              (Samples.host_answering (inr (Samples.page_one (JArr [Samples.A; Samples.B])))
                 Samples.env)
              Samples.client 7 (Samples.page_one (JArr [Samples.A; Samples.B]))
              _ _ (JArr [Samples.A; Samples.B])
              eq_refl eq_refl eq_refl eq_refl eq_refl) as (Ho & Hc & _).
  split; [exact Ho|]. rewrite Hc. reflexivity.
Defined.

(** C5 at the sample credentials, at an empty secret, and at a host whose
    environment names no credentials. *)
Lemma construction_contract_witness :
  FreeloApiClient_new "dev@example.com" "s3cret" = inr Samples.client /\
  (exists message, FreeloApiClient_new "dev@example.com" "" = inl (new_Error message)) /\
  createFreeloClient Samples.offline = inr Samples.client /\
  (exists message,
     createFreeloClient Samples.unconfigured = inl (new_Error message) /\
     calls (execute Samples.unconfigured 7) = [] /\
     outcome (execute Samples.unconfigured 7) = inr (ToolFailure message)).
Proof.
  destruct (construction_contract Samples.offline "dev@example.com" "s3cret" 7)
    as (Hnew & _ & Henv & _).
  destruct (construction_contract Samples.unconfigured "dev@example.com" "" 7)
    as (_ & Hempty & _ & Hfail).
  split; [|split; [|split]].
  - exact (Hnew ltac:(discriminate) ltac:(discriminate)).
  - apply Hempty. right. reflexivity.
  - exact (Henv eq_refl eq_refl ltac:(discriminate) ltac:(discriminate)).
  - apply Hfail. left. reflexivity.
Defined.

(** C7 at a response that delivers six bytes. *)
Lemma downloadFile_contract_witness :
  answer (Samples.host_answering (inr Samples.file_found) Samples.env)
    (download_call Samples.client Samples.uuid) = inr Samples.file_found /\
  outcome (downloadFile (Samples.host_answering (inr Samples.file_found) Samples.env)
             Samples.client Samples.uuid)
    = inr [Byte.x89; Byte.x50; Byte.x4e; Byte.x47; Byte.x00; Byte.xff] /\
  call_url (download_call Samples.client Samples.uuid)
    = "https://api.freelo.io/v1/file/550e8400-e29b-41d4-a716-446655440000".
Proof.
  split; [reflexivity|].
  destruct (downloadFile_contract
              (Samples.host_answering (inr Samples.file_found) Samples.env)
              Samples.client Samples.uuid Samples.file_found Samples.file_bytes
              eq_refl eq_refl eq_refl) as (Ho & _ & Hu & _).
  split; [exact Ho|exact Hu].
Defined.

(** C8 at the response of the specification: the body [{"id": 42, "name":
    "X"}] comes back with [id] 42 and [name] ["X"], and its missing
    [description] reads as [undefined]. *)
Lemma getTask_returns_parsed_witness :
  ok Samples.task_found = true /\
  exists task,
    outcome (getTask (Samples.host_answering (inr Samples.task_found) Samples.env)
               Samples.client 7) = inr task /\
    get_prop task "id" = inr (JNum 42) /\
    get_prop task "name" = inr (JStr "X") /\
    get_prop task "description" = inr JUndefined.
Proof.
  split; [reflexivity|].
  destruct (getTask_returns_parsed
              (Samples.host_answering (inr Samples.task_found) Samples.env)
              Samples.client 7 Samples.task_found Samples.task_body
              eq_refl eq_refl eq_refl) as (Ho & Hf).
  exists Samples.task_body. split; [exact Ho|].
  split; [|split].
  - exact (proj1 (Hf _ "id" eq_refl) _ eq_refl).
  - exact (proj1 (Hf _ "name" eq_refl) _ eq_refl).
  - exact (proj2 (Hf _ "description" eq_refl) eq_refl).
Defined.

(** C9 at a 200 response whose body is an HTML page. *)
Lemma request_unparseable_success_witness :
  ok Samples.html_page = true /\
  json Samples.html_page
    = inl (ErrorObject "SyntaxError" "Unexpected token < in JSON at position 0") /\
  outcome (request (Samples.host_answering (inr Samples.html_page) Samples.env)
             Samples.client "/task/7" empty_init)
    = inl (new_Error "Freelo API error: Unexpected token < in JSON at position 0").
Proof.
  split; [reflexivity|]. split; [reflexivity|].
  exact (proj1 (request_unparseable_success
                  (Samples.host_answering (inr Samples.html_page) Samples.env)
                  Samples.client "/task/7" empty_init)
               Samples.html_page _ _ eq_refl eq_refl eq_refl).
Defined.

(** C10 at a task with 40 subtasks, 23 of them finished. *)
Lemma subtask_statistics_witness :
  exists st fs,
    outcome (execute Samples.forty_host 7) = inr (ToolSuccess 7 st fs) /\
    total st = 40 /\ completed st = 23 /\ remaining st = 17 /\
    exists n, 0 <= n <= 100 /\ completionPercentage st = float_of_Z n.
Proof.
  destruct (outcome (execute Samples.forty_host 7)) as [e|[id st fs|e]] eqn:H;
    [vm_compute in H; discriminate H| |vm_compute in H; discriminate H].
  assert (Hid : id = 7%float) by (vm_compute in H; congruence).
  subst id. exists st, fs. split; [reflexivity|].
  destruct (subtask_statistics _ _ _ _ _ H) as (Ht & Hc & _ & _ & Hr & _ & _ & Hn & _).
  assert (Hst : st = statistics_of fs /\ length fs = 40%nat
                /\ length (List.filter is_completed fs) = 23%nat).
  { vm_compute in H. injection H as <- <-. repeat split; reflexivity. }
  destruct Hst as (_ & Hlen & Hfil).
  rewrite Hlen in Ht. rewrite Hfil in Hc.
  split; [exact Ht|]. split; [exact Hc|]. split; [rewrite Hr, Ht, Hc; reflexivity|].
  apply Hn. rewrite Ht. reflexivity.
Defined.

(** C10 fails as stated: with 23 of 40 subtasks finished the exact
    quotient is 57.5, which rounds to 58, but the binary64 product
    [(23 / 40) * 100] is 57.49999999999999 and the tool reports 57. *)
Lemma percentage_rounds_below :
  exists st fs,
    outcome (execute Samples.forty_host 7) = inr (ToolSuccess 7 st fs) /\
    total st = 40 /\ completed st = 23 /\
    claimed_percentage (completed st) (total st) = 58 /\
    (float_of_Z 23 / float_of_Z 40 * 100 <? 57.5)%float = true /\
    completionPercentage st = 57%float /\
    completionPercentage st ≠ float_of_Z (claimed_percentage (completed st) (total st)).
Proof.
  eexists _, _. split; [vm_compute; reflexivity|].
  repeat split; try (vm_compute; reflexivity).
  intros H. apply (f_equal Prim2SF) in H. vm_compute in H. discriminate H.
Qed.

(** * Further properties of the client and of the tools *)

(** ** File names of the download tool *)

Lemma all_chars_substring (P : ascii -> bool) (n : nat) : forall s,
  all_chars P s = true -> all_chars P (String.substring 0 n s) = true.
Proof.
  induction n as [|n IH]; intros [|c s]; simpl; try done.
  intros [Hc Hs]%andb_true_iff. rewrite Hc. simpl. by apply IH.
Qed.

Lemma no_double_underscore_substring (n : nat) : forall s,
  no_double_underscore s = true -> no_double_underscore (String.substring 0 n s) = true.
Proof.
  induction n as [|n IH]; intros [|c s]; simpl; try done.
  intros [Hc Hs]%andb_true_iff. rewrite (IH _ Hs), andb_true_r.
  destruct (is_underscore c); [|done]. simpl in *.
  destruct s as [|d s]; [by destruct n|]. destruct n; [done|]. exact Hc.
Qed.

Lemma length_substring_le (n : nat) : forall s,
  (String.length (String.substring 0 n s) <= n)%nat /\
  (String.length (String.substring 0 n s) <= String.length s)%nat.
Proof. induction n as [|n IH]; intros [|c s]; simpl; try lia. specialize (IH s). lia. Qed.

Lemma substring_all (n : nat) : forall s,
  (String.length s <= n)%nat -> String.substring 0 n s = s.
Proof.
  induction n as [|n IH]; intros [|c s]; simpl; try done; try lia.
  intros H. f_equal. apply IH. lia.
Qed.

Lemma substring_nonempty (n : nat) (s : string) :
  (0 < n)%nat -> s ≠ "" -> String.substring 0 n s ≠ "".
Proof. destruct n; [lia|]. by destruct s. Qed.

Lemma safe_char_underscore : safe_char "_" = true.
Proof. reflexivity. Qed.

Lemma all_chars_replace_unsafe s : all_chars safe_char (replace_unsafe s) = true.
Proof.
  induction s as [|c s IH]; simpl; [done|]. rewrite IH, andb_true_r.
  destruct (safe_char c) eqn:Hc; [exact Hc|reflexivity].
Qed.

Lemma all_chars_collapse (P : ascii -> bool) : forall s b,
  all_chars P s = true -> all_chars P (collapse_underscores b s) = true.
Proof.
  induction s as [|c s IH]; intros b; simpl; [done|].
  intros [Hc Hs]%andb_true_iff.
  destruct (is_underscore c), b; simpl; rewrite ?Hc; simpl; by apply IH.
Qed.

Lemma collapse_no_double : forall s b,
  no_double_underscore (collapse_underscores b s) = true /\
  (b = true -> starts_with_underscore (collapse_underscores b s) = false).
Proof.
  induction s as [|c s IH]; intros b; simpl; [done|].
  destruct (is_underscore c) eqn:Hc.
  - destruct (IH true) as [Hn Hs]. destruct b; simpl.
    + split; [exact Hn|]. intros _. by apply Hs.
    + rewrite Hc, (Hs eq_refl), Hn. done.
  - destruct (IH false) as [Hn _]. simpl. rewrite Hc, Hn. done.
Qed.

Lemma length_replace_unsafe s : String.length (replace_unsafe s) = String.length s.
Proof. induction s as [|c s IH]; simpl; congruence. Qed.

Lemma length_collapse : forall s b,
  (String.length (collapse_underscores b s) <= String.length s)%nat.
Proof.
  induction s as [|c s IH]; intros b; simpl; [lia|].
  pose proof (IH true). pose proof (IH false).
  destruct (is_underscore c), b; simpl; lia.
Qed.

Lemma collapse_nonempty s : s ≠ "" -> collapse_underscores false s ≠ "".
Proof. destruct s as [|c s]; [done|]. simpl. by destruct (is_underscore c). Qed.

Lemma replace_unsafe_id s : all_chars safe_char s = true -> replace_unsafe s = s.
Proof.
  induction s as [|c s IH]; simpl; [done|].
  intros [Hc Hs]%andb_true_iff. by rewrite Hc, IH.
Qed.

Lemma collapse_id : forall s b,
  no_double_underscore s = true ->
  (b = true -> starts_with_underscore s = false) ->
  collapse_underscores b s = s.
Proof.
  induction s as [|c s IH]; intros b; simpl; [done|].
  intros [Hc Hs]%andb_true_iff Hb.
  destruct (is_underscore c) eqn:Hu.
  - destruct b; [by specialize (Hb eq_refl)|]. f_equal. apply IH; [exact Hs|].
    intros _. simpl in Hc. by destruct (starts_with_underscore s).
  - f_equal. apply IH; [exact Hs|]. done.
Qed.

Lemma sanitizeFilename_invariants (name : string) :
  all_chars safe_char (sanitizeFilename name) = true /\
  no_double_underscore (sanitizeFilename name) = true /\
  (String.length (sanitizeFilename name) <= 200)%nat.
Proof.
  unfold sanitizeFilename. split; [|split].
  - apply all_chars_substring, all_chars_collapse, all_chars_replace_unsafe.
  - apply no_double_underscore_substring, collapse_no_double.
  - apply length_substring_le.
Qed.

(** X1: whatever the name it is given, [sanitizeFilename] returns at most
    200 characters, all of them letters, digits, dots, underscores or
    hyphens (so no path separator), with no two underscores in a row; the
    result is never longer than the input and is empty only for the empty
    input. *)
Theorem sanitizeFilename_safe (name : string) :
  all_chars safe_char (sanitizeFilename name) = true /\
  no_double_underscore (sanitizeFilename name) = true /\
  (String.length (sanitizeFilename name) <= 200)%nat /\
  (String.length (sanitizeFilename name) <= String.length name)%nat /\
  (forall c, In c (list_ascii_of_string (sanitizeFilename name)) ->
             c ≠ "/"%char /\ c ≠ "\"%char /\ c ≠ " "%char /\ c ≠ Ascii.zero) /\
  (name ≠ "" -> sanitizeFilename name ≠ "").
Proof.
  destruct (sanitizeFilename_invariants name) as (Hsafe & Hnd & Hlen).
  split; [exact Hsafe|]. split; [exact Hnd|]. split; [exact Hlen|].
  split; [|split].
  - unfold sanitizeFilename.
    etransitivity; [apply length_substring_le|].
    etransitivity; [apply length_collapse|]. by rewrite length_replace_unsafe.
  - revert Hsafe. generalize (sanitizeFilename name).
    intros s. induction s as [|a s IH]; simpl; [done|].
    intros [Ha Hs]%andb_true_iff c [<-|Hin]; [|by apply IH].
    repeat split; intros ->; discriminate Ha.
  - intros Hne. unfold sanitizeFilename.
    apply substring_nonempty; [lia|]. apply collapse_nonempty.
    by destruct name.
Qed.

(** X2: a name that is already safe (only characters of the class, no two
    underscores in a row, at most 200 characters) is returned unchanged;
    hence sanitizing twice is the same as sanitizing once. *)
Theorem sanitizeFilename_fixed_point (name : string) :
  (all_chars safe_char name = true ->
   no_double_underscore name = true ->
   (String.length name <= 200)%nat ->
   sanitizeFilename name = name) /\
  sanitizeFilename (sanitizeFilename name) = sanitizeFilename name.
Proof.
  assert (Hfix : forall s, all_chars safe_char s = true ->
            no_double_underscore s = true -> (String.length s <= 200)%nat ->
            sanitizeFilename s = s).
  { intros s Hs Hn Hl. unfold sanitizeFilename.
    rewrite (replace_unsafe_id s Hs), (collapse_id s false Hn) by done.
    by apply substring_all. }
  split; [apply Hfix|].
  destruct (sanitizeFilename_invariants name) as (Hs & Hn & Hl).
  by apply Hfix.
Qed.

(** ** Further behaviour of [request] and of the accessors *)

(** X3: on a non-success status whose JSON body gives no usable text (the
    body is [null], or both its [message] and its [error] are missing or
    falsy), [request] falls back to the status line, with the prefix. *)
Theorem request_status_line_fallback host c endpoint options (r : Response) (d : JsValue) :
  answer host (request_call c endpoint options) = inr r ->
  ok r = false ->
  json r = inr d ->
  (d = JNull ->
   outcome (request host c endpoint options)
     = inl (new_Error ("Freelo API error: API request failed: " +:+ pretty (status r)
                         +:+ " " +:+ statusText r))) /\
  (forall mv ev,
     get_prop d "message" = inr mv -> truthy mv = false ->
     get_prop d "error" = inr ev -> truthy ev = false ->
     outcome (request host c endpoint options)
       = inl (new_Error ("Freelo API error: API request failed: " +:+ pretty (status r)
                           +:+ " " +:+ statusText r))).
Proof.
  intros H Hok Hj. split.
  - intros ->. apply (request_raises_chosen _ _ _ _ _ _ H Hok).
    unfold chosen_message. by rewrite Hj.
  - intros mv ev Hm Hmf He Hef. apply (request_raises_chosen _ _ _ _ _ _ H Hok).
    unfold chosen_message, pick_error_message, js_or. by rewrite Hj, Hm, Hmf, He, Hef.
Qed.

(** X4: the text taken from the error body need not be a string: the
    truthy [message] (else the truthy [error]) is converted with ToString
    and follows the prefix.  A plain object prints as ["[object Object]"];
    a value that cannot be converted, such as an object with a [toString]
    entry of its own, makes [new Error] throw inside the [try], and
    [request] reports the engine's conversion error after the prefix. *)
Theorem request_message_to_string host c endpoint options (r : Response) (d v : JsValue) :
  answer host (request_call c endpoint options) = inr r ->
  ok r = false ->
  json r = inr d ->
  (get_prop d "message" = inr v /\ truthy v = true) \/
  (exists mv, get_prop d "message" = inr mv /\ truthy mv = false /\
              get_prop d "error" = inr v /\ truthy v = true) ->
  (forall s, ToString host v = inr s ->
     outcome (request host c endpoint options)
       = inl (new_Error ("Freelo API error: " +:+ s))) /\
  (forall e, ToString host v = inl e ->
     outcome (request host c endpoint options)
       = inl (new_Error "Freelo API error: Cannot convert object to primitive value")) /\
  (forall fields, v = JObj fields ->
     outcome (request host c endpoint options)
       = inl (new_Error (if decide (is_Some (fields !! "toString"))
                         then "Freelo API error: Cannot convert object to primitive value"
                         else "Freelo API error: [object Object]"))).
Proof.
  intros H Hok Hj Hv.
  assert (Hc : chosen_message r = v /\ truthy v = true).
  { destruct Hv as [[Hm Ht]|(mv & Hm & Hf & He & Ht)].
    - split; [exact (chosen_message_field r d v Hj Hm Ht)|exact Ht].
    - split; [exact (chosen_error_field r d mv v Hj Hm Hf He Ht)|exact Ht]. }
  destruct Hc as [Hc Ht].
  assert (Hr : outcome (request host c endpoint options)
               = match ToString host v with
                 | inl (ErrorObject _ m) => inl (new_Error (api_error_prefix +:+ m))
                 | inl (ThrownValue _) => inl (new_Error "Unknown Freelo API error")
                 | inr s => inl (new_Error (api_error_prefix +:+ s))
                 end).
  { unfold outcome. rewrite (request_failure_status _ _ _ _ _ H Hok), Hc.
    rewrite (new_Error_of_truthy _ _ Ht). simpl.
    by destruct (ToString host v) as [[]|]. }
  split; [|split].
  - intros s Hs. by rewrite Hr, Hs.
  - intros e He. rewrite Hr, He. by rewrite (ToString_throws _ _ _ He).
  - intros fields ->. rewrite Hr. simpl.
    destruct (fields !! "toString") as [own|] eqn:Hown.
    + rewrite decide_True by eauto. done.
    + rewrite decide_False by (intros [? [=]]). done.
Qed.

(** X5: [listTaskSubtasks] reads [response.data.subtasks] outside the
    [try] of [request]: when the success body is [null] or has no [data]
    field, the engine's TypeError reaches the caller as it is, without the
    prefix; when [data] is an object without [subtasks], the accessor
    returns [undefined] and throws nothing. *)
Theorem listTaskSubtasks_malformed_body host c taskId (r : Response) (v : JsValue) :
  answer host (request_call c (subtasks_endpoint host taskId) empty_init) = inr r ->
  ok r = true ->
  json r = inr v ->
  (v = JNull ->
   outcome (listTaskSubtasks host c taskId)
     = inl (ErrorObject "TypeError" "Cannot read properties of null (reading 'data')")) /\
  (forall fields, v = JObj fields -> fields !! "data" = None ->
   outcome (listTaskSubtasks host c taskId)
     = inl (ErrorObject "TypeError"
              "Cannot read properties of undefined (reading 'subtasks')")) /\
  (forall fields inner, v = JObj fields -> fields !! "data" = Some (JObj inner) ->
   inner !! "subtasks" = None ->
   outcome (listTaskSubtasks host c taskId) = inr JUndefined).
Proof.
  intros H Hok Hj.
  assert (Hr : outcome (request host c (subtasks_endpoint host taskId) empty_init) = inr v).
  { unfold outcome. by rewrite (request_success_status _ _ _ _ _ H Hok), Hj. }
  rewrite (listTaskSubtasks_returns _ _ _ _ Hr). split; [|split].
  - by intros ->.
  - intros fields -> Hd. simpl. by rewrite Hd.
  - intros fields inner -> Hd Hs. simpl. rewrite Hd. simpl. by rewrite Hs.
Qed.

(** X6: whatever the host does, a value thrown by [request] is a fresh
    [Error] whose message either starts with ["Freelo API error: "] or is
    ["Unknown Freelo API error"]; nothing else leaves [request]. *)
Theorem request_throws_only_errors host c endpoint options (e : Thrown) :
  outcome (request host c endpoint options) = inl e ->
  exists m, e = ErrorObject "Error" m /\
            (String.prefix "Freelo API error: " m = true \/
             m = "Unknown Freelo API error").
Proof.
  unfold outcome.
  destruct (answer host (request_call c endpoint options)) as [t|r] eqn:H.
  - rewrite (request_rejected _ _ _ _ _ H). simpl. intros [= <-].
    destruct t as [n m|w]; eexists; (split; [reflexivity|]).
    + left. apply prefix_app.
    + by right.
  - destruct (ok r) eqn:Hok.
    + rewrite (request_success_status _ _ _ _ _ H Hok). simpl.
      destruct (json r) as [[n m|w]|w]; intros [= <-];
        eexists; (split; [reflexivity|]).
      * left. apply prefix_app.
      * by right.
    + rewrite (request_failure_status _ _ _ _ _ H Hok). simpl.
      destruct (new_Error_of host (chosen_message r)) as [n m|w]; intros [= <-];
        eexists; (split; [reflexivity|]).
      * left. apply prefix_app.
      * by right.
Qed.

(** X7: each of [getTask], [listTaskSubtasks] and [downloadFile]
    dispatches exactly one call whatever the host answers, so a failed call
    is never tried again; the call is a GET without a body to an address
    that starts with the client's base address. *)
Theorem accessors_single_get host c taskId fileUuid :
  length (calls (getTask host c taskId)) = 1%nat /\
  length (calls (listTaskSubtasks host c taskId)) = 1%nat /\
  length (calls (downloadFile host c fileUuid)) = 1%nat /\
  forall call,
    call ∈ calls (getTask host c taskId) ++ calls (listTaskSubtasks host c taskId)
           ++ calls (downloadFile host c fileUuid) ->
    dispatched_method (call_init call) = "GET" /\
    body (call_init call) = None /\
    String.prefix (baseUrl c) (call_url call) = true.
Proof.
  unfold getTask. rewrite request_calls, listTaskSubtasks_calls.
  unfold calls at 1 2. rewrite downloadFile_run. simpl.
  split; [done|]. split; [done|]. split; [done|].
  intros call. rewrite !elem_of_cons, elem_of_nil.
  intros [->|[->|[->|[]]]]; simpl; (split; [done|]; split; [done|]; apply prefix_app).
Qed.

(** ** Further behaviour of the list-subtasks tool *)

Lemma log_free_lift {A} (r : Thrown + A) : log_free (lift r).
Proof. intros log. reflexivity. Qed.

Lemma log_free_resolve {A} (x : A) : log_free (mret x : Async A).
Proof. intros log. reflexivity. Qed.

Lemma log_free_throw {A} (e : Thrown) : log_free (throw e : Async A).
Proof. intros log. reflexivity. Qed.

Lemma log_free_bind {A B} (m : Async A) (k : A -> Async B) :
  log_free m -> (forall x, log_free (k x)) -> log_free (m ≫= k).
Proof.
  intros Hm Hk log. unfold outcome, run, mbind, Async_bind, await.
  rewrite (Hm log), (Hm []). destruct (outcome m) as [e|x]; [done|].
  rewrite (Hk x log), (Hk x []). done.
Qed.

Lemma outcome_bind {A B} (m : Async A) (k : A -> Async B) :
  log_free m ->
  outcome (m ≫= k) = match outcome m with
                     | inl e => inl e
                     | inr x => outcome (k x)
                     end.
Proof.
  intros Hm. unfold outcome at 1, run, mbind, Async_bind, await.
  rewrite (Hm []). by destruct (outcome m).
Qed.

Lemma log_free_id_name o k : log_free (id_name o k).
Proof.
  unfold id_name. repeat (apply log_free_bind; [apply log_free_lift|intros ?]).
  apply log_free_resolve.
Qed.

Lemma log_free_format_subtask x : log_free (format_subtask x).
Proof.
  unfold format_subtask.
  repeat (apply log_free_bind;
          [first [apply log_free_lift|apply log_free_id_name|idtac]|intros ?]);
    try apply log_free_resolve.
  destruct (truthy _); [|apply log_free_resolve].
  apply log_free_bind; [apply log_free_id_name|intros ?; apply log_free_resolve].
Qed.

Lemma outcome_lift {A} (r : Thrown + A) : outcome (lift r) = r.
Proof. reflexivity. Qed.

Lemma id_name_sound o k r : outcome (id_name o k) = inr r -> refers_to o k r.
Proof.
  unfold id_name. rewrite outcome_bind, outcome_lift by apply log_free_lift.
  destruct (get_prop o "id") as [e|i] eqn:Hi; [done|].
  rewrite outcome_bind, outcome_lift by apply log_free_lift.
  destruct (get_prop o k) as [e|n] eqn:Hn; [done|].
  intros [= <-]. split; assumption.
Qed.

Ltac read_prop H :=
  rewrite outcome_bind, outcome_lift by apply log_free_lift;
  match goal with
  | |- match ?g with _ => _ end = _ -> _ => destruct g as [?|?] eqn:H; [done|]
  end.

Ltac read_ref H :=
  rewrite outcome_bind by apply log_free_id_name;
  match goal with
  | |- match ?g with _ => _ end = _ -> _ =>
      destruct g as [?|?] eqn:H; [done|apply id_name_sound in H]
  end.

Lemma format_subtask_sound x f : outcome (format_subtask x) = inr f -> formats_to x f.
Proof.
  unfold format_subtask.
  read_prop Hid. read_prop Hname. read_prop Hso. read_prop Hstate.
  read_prop Hadd. read_prop Hdue. read_prop Hend. read_prop Hcc. read_prop Hcs.
  read_prop Hao. read_ref Hauthor. read_prop Hw.
  rewrite outcome_bind.
  2:{ destruct (truthy _); [|apply log_free_resolve].
      apply log_free_bind; [apply log_free_id_name|intros ?; apply log_free_resolve]. }
  destruct (truthy _) eqn:Hwt.
  - rewrite outcome_bind by apply log_free_id_name.
    destruct (outcome (id_name _ "fullname")) as [?|a] eqn:Ha at 1; [done|].
    apply id_name_sound in Ha.
    change (outcome (resolve (Some a))) with (@inr Thrown (option IdName) (Some a)).
    cbv iota beta.
    read_prop Hpo. read_ref Hproject. read_prop Hto. read_ref Htl.
    intros [= <-]. unfold formats_to. simpl.
    repeat split; eauto 10.
  - change (outcome (resolve None)) with (@inr Thrown (option IdName) None).
    cbv iota beta.
    read_prop Hpo. read_ref Hproject. read_prop Hto. read_ref Htl.
    intros [= <-]. unfold formats_to. simpl.
    repeat split; eauto 10.
Qed.

Lemma log_free_map_async {A B} (f : A -> Async B) (xs : list A) :
  (forall x, log_free (f x)) -> log_free (map_async f xs).
Proof.
  intros Hf. induction xs as [|x xs IH]; simpl; [apply log_free_resolve|].
  apply log_free_bind; [apply Hf|intros y].
  apply log_free_bind; [exact IH|intros ys]. apply log_free_resolve.
Qed.

Lemma map_async_cons {A B} (f : A -> Async B) (x : A) (xs : list A) :
  (forall x, log_free (f x)) ->
  outcome (map_async f (x :: xs)) =
    match outcome (f x) with
    | inl e => inl e
    | inr y => match outcome (map_async f xs) with
               | inl e => inl e
               | inr ys => inr (y :: ys)
               end
    end.
Proof.
  intros Hf. simpl. rewrite outcome_bind by apply Hf.
  destruct (outcome (f x)) as [e|y]; [done|].
  rewrite outcome_bind by (by apply log_free_map_async).
  by destruct (outcome (map_async f xs)).
Qed.

Lemma map_async_success {A B} (f : A -> Async B) (xs : list A) :
  (forall x, log_free (f x)) ->
  forall ys, outcome (map_async f xs) = inr ys ->
             Forall2 (fun x y => outcome (f x) = inr y) xs ys.
Proof.
  intros Hf. induction xs as [|x xs IH]; intros ys.
  - intros [= <-]. constructor.
  - rewrite (map_async_cons f x xs Hf).
    destruct (outcome (f x)) as [e|y] eqn:Hx; [done|].
    destruct (outcome (map_async f xs)) as [e|ys'] eqn:Hxs; [done|].
    intros [= <-]. constructor; [exact Hx|by apply IH].
Qed.

Lemma map_async_first_failure {A B} (f : A -> Async B) (good rest : list A) (x : A) e :
  (forall x, log_free (f x)) ->
  Forall (fun g => exists y, outcome (f g) = inr y) good ->
  outcome (f x) = inl e ->
  outcome (map_async f (good ++ x :: rest)) = inl e.
Proof.
  intros Hf Hgood Hx. induction Hgood as [|g good [y Hg] _ IH]; simpl app.
  - by rewrite (map_async_cons f x rest Hf), Hx.
  - by rewrite (map_async_cons f g _ Hf), Hg, IH.
Qed.

Lemma log_free_array_map v : log_free (array_map v format_subtask).
Proof.
  destruct v; simpl; try apply log_free_throw.
  apply log_free_map_async, log_free_format_subtask.
Qed.

(** The result of [execute], from the results of its three steps. *)
Lemma execute_outcome host taskId :
  outcome (execute host taskId) =
    inr match createFreeloClient host with
        | inl e => report_failure e
        | inr c =>
            match outcome (listTaskSubtasks host c taskId) with
            | inl e => report_failure e
            | inr v =>
                match outcome (array_map v format_subtask) with
                | inl e => report_failure e
                | inr fs => ToolSuccess taskId (statistics_of fs) fs
                end
            end
        end.
Proof.
  unfold outcome at 1, run, execute, try_catch, mbind, Async_bind, await, lift.
  destruct (createFreeloClient host) as [e|c]; [by destruct e|].
  unfold outcome at 1, run.
  destruct (listTaskSubtasks host c taskId []) as [log [e|v]]; simpl; [by destruct e|].
  rewrite (log_free_array_map v log).
  destruct (outcome (array_map v format_subtask)) as [e|fs]; [by destruct e|done].
Qed.

Lemma execute_calls host taskId :
  calls (execute host taskId) =
    match createFreeloClient host with
    | inl _ => []
    | inr c => calls (listTaskSubtasks host c taskId)
    end.
Proof.
  unfold calls at 1, run, execute, try_catch, mbind, Async_bind, await, lift.
  destruct (createFreeloClient host) as [e|c]; [by destruct e|].
  unfold calls, run.
  destruct (listTaskSubtasks host c taskId []) as [log [e|v]]; simpl; [by destruct e|].
  rewrite (log_free_array_map v log).
  destruct (outcome (array_map v format_subtask)) as [e|fs]; [by destruct e|done].
Qed.

(** X8: [execute] of the list-subtasks tool never rejects: whatever the
    host does (missing credentials, transport fault, remote error, malformed
    body) it returns a result object; and it dispatches at most one call. *)
Theorem execute_never_rejects host taskId :
  (exists result, outcome (execute host taskId) = inr result) /\
  (length (calls (execute host taskId)) <= 1)%nat.
Proof.
  split.
  - rewrite execute_outcome. eauto.
  - rewrite execute_calls. destruct (createFreeloClient host) as [e|c]; simpl; [lia|].
    by rewrite listTaskSubtasks_calls.
Qed.

(** X9: the [error] text of a failure result is the message of what was
    thrown, unchanged: for a transport fault and for a remote error the
    message of [request], prefix included; for a success body without
    [data.subtasks] the engine's own TypeError text. *)
Theorem execute_reports_message host c taskId :
  createFreeloClient host = inr c ->
  (forall name message,
     answer host (request_call c (subtasks_endpoint host taskId) empty_init)
       = inl (ErrorObject name message) ->
     outcome (execute host taskId) = inr (ToolFailure ("Freelo API error: " +:+ message))) /\
  (forall r m,
     answer host (request_call c (subtasks_endpoint host taskId) empty_init) = inr r ->
     ok r = false -> preferred_message host r m ->
     outcome (execute host taskId) = inr (ToolFailure ("Freelo API error: " +:+ m))) /\
  (forall r fields inner,
     answer host (request_call c (subtasks_endpoint host taskId) empty_init) = inr r ->
     ok r = true -> json r = inr (JObj fields) ->
     fields !! "data" = Some (JObj inner) -> inner !! "subtasks" = None ->
     outcome (execute host taskId)
       = inr (ToolFailure "Cannot read properties of undefined (reading 'map')")).
Proof.
  intros Hc. rewrite execute_outcome, Hc. split; [|split].
  - intros name message H.
    rewrite (listTaskSubtasks_throws host c taskId (new_Error (api_error_prefix +:+ message))).
    + done.
    + unfold outcome. by rewrite (request_rejected _ _ _ _ _ H).
  - intros r m H Hok Hm.
    rewrite (listTaskSubtasks_throws host c taskId (new_Error (api_error_prefix +:+ m))).
    + done.
    + exact (request_raises_chosen _ _ _ _ _ _ H Hok (chosen_preferred _ r m Hm)).
  - intros r fields inner H Hok Hj Hd Hs.
    rewrite (listTaskSubtasks_returns host c taskId (JObj fields)).
    + simpl. rewrite Hd. simpl. by rewrite Hs.
    + unfold outcome. by rewrite (request_success_status _ _ _ _ _ H Hok), Hj.
Qed.

(** X10: in a success result the formatted subtasks are the subtasks of
    the response, one for one and in the same order, each with the fields
    of its record; [dueDate] and [dueDateEnd] are [null] or a truthy value
    (never [undefined] or the empty string). *)
Theorem execute_formats_in_order host taskId id st fs :
  outcome (execute host taskId) = inr (ToolSuccess id st fs) ->
  (exists c xs,
     createFreeloClient host = inr c /\
     outcome (listTaskSubtasks host c taskId) = inr (JArr xs) /\
     Forall2 formats_to xs fs) /\
  Forall (fun f =>
            (st_dueDate f = JNull \/ truthy (st_dueDate f) = true) /\
            (st_dueDateEnd f = JNull \/ truthy (st_dueDateEnd f) = true)) fs.
Proof.
  rewrite execute_outcome.
  destruct (createFreeloClient host) as [e|c]; [by destruct e|].
  destruct (outcome (listTaskSubtasks host c taskId)) as [e|v] eqn:Hl; [by destruct e|].
  destruct (outcome (array_map v format_subtask)) as [e|l] eqn:Hm; [by destruct e|].
  intros [= <- <- <-].
  destruct v as [| | | | |xs|]; simpl in Hm; try discriminate Hm.
  apply (map_async_success _ _ log_free_format_subtask) in Hm.
  assert (HF : Forall2 formats_to xs l).
  { eapply Forall2_impl; [exact Hm|]. intros x f. apply format_subtask_sound. }
  split; [by exists c, xs|].
  clear Hm Hl. induction HF as [|x f xs l Hxf _ IH]; [constructor|].
  constructor; [|exact IH].
  destruct Hxf as (_ & _ & _ & _ & (d & _ & ->) & (d' & _ & ->) & _).
  unfold js_or. split.
  - destruct (truthy d) eqn:Hd; [by right|by left].
  - destruct (truthy d') eqn:Hd; [by right|by left].
Qed.

(** A value that has one property read without error has them all. *)
Lemma get_prop_defined x k v :
  get_prop x k = inr v -> forall k', exists v', get_prop x k' = inr v'.
Proof. destruct x; simpl; try discriminate; eauto. Qed.

Lemma format_subtask_without_state x :
  get_prop x "state" = inr JUndefined ->
  outcome (format_subtask x)
    = inl (TypeError "Cannot read properties of undefined (reading 'state')").
Proof.
  intros H.
  destruct (get_prop_defined x "state" _ H "id") as [i Hi].
  destruct (get_prop_defined x "state" _ H "name") as [n Hn].
  unfold format_subtask.
  rewrite outcome_bind, outcome_lift, Hi by apply log_free_lift.
  rewrite outcome_bind, outcome_lift, Hn by apply log_free_lift.
  rewrite outcome_bind, outcome_lift, H by apply log_free_lift.
  by rewrite outcome_bind, outcome_lift by apply log_free_lift.
Qed.

(** X11: one malformed record fails the whole listing: when a subtask of
    the response has no [state] object and the subtasks before it format
    without error, [execute] returns the failure result with the engine's
    TypeError text, and no formatted subtask at all. *)
Theorem execute_all_or_nothing host c taskId (good rest : list JsValue) (x : JsValue) :
  createFreeloClient host = inr c ->
  outcome (listTaskSubtasks host c taskId) = inr (JArr (good ++ x :: rest)) ->
  Forall (fun g => exists f, outcome (format_subtask g) = inr f) good ->
  get_prop x "state" = inr JUndefined ->
  outcome (execute host taskId)
    = inr (ToolFailure "Cannot read properties of undefined (reading 'state')").
Proof.
  intros Hc Hl Hgood Hx. rewrite execute_outcome, Hc, Hl. simpl array_map.
  by rewrite (map_async_first_failure format_subtask good rest x _
                log_free_format_subtask Hgood (format_subtask_without_state x Hx)).
Qed.

(** ** The statistics at their extremes *)

Lemma Prim2SF_inj (x y : float) : Prim2SF x = Prim2SF y -> x = y.
Proof. intros H. by rewrite <- (SF2Prim_Prim2SF x), <- (SF2Prim_Prim2SF y), H. Qed.

(** A positive integer divided by itself is exactly one. *)
Lemma float_div_self t : 0 < t < 2 ^ 53 -> (float_of_Z t / float_of_Z t)%float = 1%float.
Proof.
  intros Ht. apply Prim2SF_inj. rewrite FloatAxioms.div_spec.
  pose proof (Prim2SF_float_of_Z t Ht) as Hint.
  destruct (Prim2SF (float_of_Z t)) as [| | |[] m e]; try contradiction.
  destruct Hint as (He & Hm & Hd).
  unfold SF64div, SFdiv. rewrite SFdiv_core_normal by assumption.
  rewrite (Z.mul_comm (Z.pos m)), Z.div_mul, Z.mod_mul by lia.
  replace (e - e - 53) with (-53) by lia.
  rewrite new_location_zero. vm_compute. reflexivity.
Qed.

Lemma float_div_zero t : 0 < t < 2 ^ 53 -> (float_of_Z 0 / float_of_Z t)%float = 0%float.
Proof.
  intros Ht. apply Prim2SF_inj. rewrite FloatAxioms.div_spec, float_of_Z_zero.
  pose proof (Prim2SF_float_of_Z t Ht) as Hint.
  destruct (Prim2SF (float_of_Z t)) as [| | |[] m e]; try contradiction.
  reflexivity.
Qed.

Lemma filter_all {A} (f : A -> bool) (l : list A) :
  Forall (fun x => f x = true) l -> List.filter f l = l.
Proof. induction 1 as [|x l Hx _ IH]; simpl; [done|]. by rewrite Hx, IH. Qed.

Lemma filter_none {A} (f : A -> bool) (l : list A) :
  Forall (fun x => f x = false) l -> List.filter f l = [].
Proof. induction 1 as [|x l Hx _ IH]; simpl; [done|]. by rewrite Hx. Qed.

(** X12: for a non-empty list of subtasks (shorter than 2^53), the
    statistics report 100 percent and nothing remaining when every subtask
    is completed or finished, and 0 percent with everything remaining when
    none is; for the empty list every figure is 0. *)
Theorem statistics_extremes (fs : list FormattedSubtask) :
  (fs = [] ->
   statistics_of fs
     = {| total := 0; completed := 0; remaining := 0; completionPercentage := 0 |}) /\
  (fs ≠ [] -> Z.of_nat (length fs) < 2 ^ 53 ->
   Forall (fun f => is_completed f = true) fs ->
   completionPercentage (statistics_of fs) = 100%float /\
   remaining (statistics_of fs) = 0 /\
   completed (statistics_of fs) = total (statistics_of fs)) /\
  (fs ≠ [] -> Z.of_nat (length fs) < 2 ^ 53 ->
   Forall (fun f => is_completed f = false) fs ->
   completionPercentage (statistics_of fs) = 0%float /\
   remaining (statistics_of fs) = total (statistics_of fs) /\
   completed (statistics_of fs) = 0).
Proof.
  split; [by intros ->|]. split.
  - intros Hne Hlen Hall. unfold statistics_of. simpl.
    rewrite (filter_all _ _ Hall).
    assert (Hpos : 0 < Z.of_nat (length fs)) by (destruct fs; [done|simpl; lia]).
    split; [|split; [lia|done]].
    unfold completion_percentage. rewrite (proj2 (Z.ltb_lt _ _) Hpos).
    rewrite float_div_self by lia. vm_compute. reflexivity.
  - intros Hne Hlen Hnone. unfold statistics_of. simpl.
    rewrite (filter_none _ _ Hnone). simpl length.
    assert (Hpos : 0 < Z.of_nat (length fs)) by (destruct fs; [done|simpl; lia]).
    split; [|split; [lia|done]].
    unfold completion_percentage. rewrite (proj2 (Z.ltb_lt _ _) Hpos).
    change (Z.of_nat 0) with 0.
    rewrite float_div_zero by lia. vm_compute. reflexivity.
Qed.

(** ** The download tool *)

(** The run of [download_execute], step by step. *)
Lemma download_execute_run host rt input :
  download_execute host rt input [] =
    match createFreeloClient host with
    | inl e => ([], inr (download_failure e))
    | inr c =>
        let dir := temp_dir rt in
        let path := file_path host rt input in
        let call := download_call c (input_fileUuid input) in
        match fs_mkdir rt dir with
        | inl e => ([MadeDir dir], inr (download_failure e))
        | inr _ =>
            match outcome (downloadFile host c (input_fileUuid input)) with
            | inl e => ([MadeDir dir; Fetched call], inr (download_failure e))
            | inr data =>
                match fs_writeFile rt path data with
                | inl e =>
                    ([MadeDir dir; Fetched call; Wrote path data], inr (download_failure e))
                | inr _ =>
                    match fs_stat_size rt path with
                    | inl e =>
                        ([MadeDir dir; Fetched call; Wrote path data; Statted path],
                         inr (download_failure e))
                    | inr size =>
                        ([MadeDir dir; Fetched call; Wrote path data; Statted path],
                         inr (download_success host rt input size))
                    end
                end
            end
        end
    end.
Proof.
  unfold download_execute, io_try_catch, mbind, Io_bind, io_bind, io_lift, io_effect,
    io_of_async, mret, Io_ret, io_ret.
  destruct (createFreeloClient host) as [e|c]; [by destruct e|].
  replace (calls (downloadFile host c (input_fileUuid input)))
    with [download_call c (input_fileUuid input)]
    by (unfold calls; by rewrite downloadFile_run).
  simpl.
  destruct (fs_mkdir rt (temp_dir rt)) as [e|[]]; [by destruct e|].
  destruct (outcome (downloadFile host c (input_fileUuid input))) as [e|data];
    [by destruct e|].
  destruct (fs_writeFile rt _ data) as [e|[]]; [by destruct e|].
  destruct (fs_stat_size rt _) as [e|size]; [by destruct e|reflexivity].
Qed.

(** X13: [execute] of the download tool never rejects, and its effects
    come in one order, each at most once: the directory is made, then the
    file is fetched, then written, then inspected. *)
Theorem download_never_rejects host rt input :
  (exists r, result (download_execute host rt input) = inr r) /\
  (exists call data,
     effects (download_execute host rt input)
       `prefix_of` [MadeDir (temp_dir rt); Fetched call;
                    Wrote (file_path host rt input) data;
                    Statted (file_path host rt input)]).
Proof.
  unfold result, effects. rewrite download_execute_run.
  destruct (createFreeloClient host) as [e|c]; simpl.
  { split; [eauto|]. exists (download_call Samples.client ""), []. apply prefix_nil. }
  destruct (fs_mkdir rt (temp_dir rt)) as [e|[]]; simpl.
  { split; [eauto|]. exists (download_call c ""), []. by eexists. }
  destruct (outcome (downloadFile host c (input_fileUuid input))) as [e|data]; simpl.
  { split; [eauto|]. exists (download_call c (input_fileUuid input)), []. by eexists. }
  destruct (fs_writeFile rt _ data) as [e|[]]; simpl.
  { split; [eauto|]. exists (download_call c (input_fileUuid input)), data. by eexists. }
  destruct (fs_stat_size rt _) as [e|size]; simpl;
    (split; [eauto|]; exists (download_call c (input_fileUuid input)), data; done).
Qed.

(** X14: nothing is fetched before the tool is ready: without credentials
    the download tool has no effect at all, and when the temporary
    directory cannot be made no call is dispatched; both end in a failure
    result that carries the message of the error. *)
Theorem download_not_ready host rt input :
  (forall message,
     createFreeloClient host = inl (new_Error message) ->
     effects (download_execute host rt input) = [] /\
     result (download_execute host rt input) = inr (DownloadFailure message)) /\
  (forall c name message,
     createFreeloClient host = inr c ->
     fs_mkdir rt (temp_dir rt) = inl (ErrorObject name message) ->
     effects (download_execute host rt input) = [MadeDir (temp_dir rt)] /\
     result (download_execute host rt input) = inr (DownloadFailure message)).
Proof.
  unfold result, effects. rewrite download_execute_run. split.
  - intros message ->. done.
  - intros c name message -> Hm. simpl. by rewrite Hm.
Qed.

(** X15: a failed download writes nothing: when the transport fails or the
    status is not a success, the effects are the directory and the one
    call, and the failure result carries the message of [downloadFile]
    (for a transport fault the transport's own text, for a status the line
    ["Failed to download file: ..."]), in both cases without the prefix
    ["Freelo API error: "]. *)
Theorem download_failure_writes_nothing host rt input c :
  createFreeloClient host = inr c ->
  (exists u, fs_mkdir rt (temp_dir rt) = inr u) ->
  (forall name message,
     answer host (download_call c (input_fileUuid input)) = inl (ErrorObject name message) ->
     effects (download_execute host rt input)
       = [MadeDir (temp_dir rt); Fetched (download_call c (input_fileUuid input))] /\
     result (download_execute host rt input) = inr (DownloadFailure message)) /\
  (forall r,
     answer host (download_call c (input_fileUuid input)) = inr r -> ok r = false ->
     effects (download_execute host rt input)
       = [MadeDir (temp_dir rt); Fetched (download_call c (input_fileUuid input))] /\
     result (download_execute host rt input)
       = inr (DownloadFailure ("Failed to download file: " +:+ pretty (status r)
                                 +:+ " " +:+ statusText r))).
Proof.
  intros Hc [u Hu]. unfold result, effects.
  rewrite download_execute_run, Hc. simpl. rewrite Hu.
  unfold outcome. rewrite downloadFile_run. simpl. split.
  - intros name message ->. done.
  - intros r -> ->. done.
Qed.

(** X16: when every step succeeds, the bytes written are the bytes of the
    response, to the path [join(join(tmpdir, "freelo-files"),
    timestamp-filename)]; the result reports that path, the UUID, the size
    the file system gives and the file name, which is the sanitized form of
    the name that was asked for (so only safe characters) and the UUID as it
    is when no name, or an empty one, was given. *)
Theorem download_success_result host rt input c (r : Response)
    (data : list Byte.byte) (size : float) :
  createFreeloClient host = inr c ->
  (exists u, fs_mkdir rt (temp_dir rt) = inr u) ->
  answer host (download_call c (input_fileUuid input)) = inr r ->
  ok r = true ->
  arrayBuffer r = inr data ->
  (exists u, fs_writeFile rt (file_path host rt input) data = inr u) ->
  fs_stat_size rt (file_path host rt input) = inr size ->
  exists file,
    result (download_execute host rt input)
      = inr (DownloadSuccess file
               ("File successfully downloaded to: " +:+ file_filePath file)) /\
    effects (download_execute host rt input)
      = [MadeDir (path_join rt (os_tmpdir rt) "freelo-files");
         Fetched (download_call c (input_fileUuid input));
         Wrote (file_filePath file) data;
         Statted (file_filePath file)] /\
    file_uuid file = input_fileUuid input /\
    file_size file = size /\
    file_filePath file
      = path_join rt (path_join rt (os_tmpdir rt) "freelo-files")
          (Number_toString host (Date_now rt) +:+ "-" +:+ file_filename file) /\
    (forall name, input_filename input = Some name -> name ≠ "" ->
       file_filename file = sanitizeFilename name /\
       all_chars safe_char (file_filename file) = true) /\
    (input_filename input = None \/ input_filename input = Some "" ->
     file_filename file = input_fileUuid input).
Proof.
  intros Hc [u Hu] Ha Hok Hd [w Hw] Hs.
  exists {| file_uuid := input_fileUuid input;
            file_filename := chosen_filename input;
            file_filePath := file_path host rt input;
            file_size := size;
            file_sizeFormatted := formatFileSize host rt size |}.
  unfold result, effects. rewrite download_execute_run, Hc. simpl. rewrite Hu.
  unfold outcome. rewrite downloadFile_run. simpl. rewrite Ha, Hok, Hd, Hw, Hs. simpl.
  split; [done|]. split; [done|]. split; [done|]. split; [done|]. split; [done|].
  unfold chosen_filename. split.
  - intros name -> Hne. apply str_falsy_false in Hne. rewrite Hne.
    split; [done|]. apply sanitizeFilename_invariants.
  - by intros [-> | ->].
Qed.

(** X17: the download tool does not clean up: when the file was written
    but cannot be inspected afterwards, the result is a failure although the
    write took place. *)
Theorem download_stat_failure_keeps_file host rt input c (r : Response)
    (data : list Byte.byte) (name message : string) :
  createFreeloClient host = inr c ->
  (exists u, fs_mkdir rt (temp_dir rt) = inr u) ->
  answer host (download_call c (input_fileUuid input)) = inr r ->
  ok r = true ->
  arrayBuffer r = inr data ->
  (exists u, fs_writeFile rt (file_path host rt input) data = inr u) ->
  fs_stat_size rt (file_path host rt input) = inl (ErrorObject name message) ->
  result (download_execute host rt input) = inr (DownloadFailure message) /\
  Wrote (file_path host rt input) data ∈ effects (download_execute host rt input).
Proof.
  intros Hc [u Hu] Ha Hok Hd [w Hw] Hs.
  unfold result, effects. rewrite download_execute_run, Hc. simpl. rewrite Hu.
  unfold outcome. rewrite downloadFile_run. simpl. rewrite Ha, Hok, Hd, Hw, Hs. simpl.
  split; [done|]. set_solver.
Qed.

(** ** The get-task tool *)

Lemma log_free_contact_of o : log_free (contact_of o).
Proof.
  unfold contact_of. repeat (apply log_free_bind; [apply log_free_lift|intros ?]).
  apply log_free_resolve.
Qed.

Lemma log_free_container_of o : log_free (container_of o).
Proof.
  unfold container_of. repeat (apply log_free_bind; [apply log_free_lift|intros ?]).
  apply log_free_resolve.
Qed.

Lemma log_free_map_or_empty {B} v what (f : JsValue -> Async B) :
  (forall x, log_free (f x)) -> log_free (map_or_empty v what f).
Proof.
  intros Hf. unfold map_or_empty.
  destruct (js_or v (JArr [])); try apply log_free_throw.
  by apply log_free_map_async.
Qed.

Lemma log_free_format_file host rt file : log_free (format_file host rt file).
Proof.
  unfold format_file. repeat (apply log_free_bind; [apply log_free_lift|intros ?]).
  apply log_free_resolve.
Qed.

Lemma log_free_format_comment host rt comment : log_free (format_comment host rt comment).
Proof.
  unfold format_comment.
  repeat (apply log_free_bind;
          [first [apply log_free_lift|apply log_free_contact_of
                 |apply log_free_map_or_empty, log_free_format_file]|intros ?]).
  apply log_free_resolve.
Qed.

Lemma log_free_assignee (worker : JsValue) :
  log_free (if truthy worker
            then w ← contact_of worker; resolve (Some w)
            else resolve None).
Proof.
  destruct (truthy worker); [|apply log_free_resolve].
  apply log_free_bind; [apply log_free_contact_of|intros ?; apply log_free_resolve].
Qed.

Lemma log_free_format_task host rt task : log_free (format_task host rt task).
Proof.
  unfold format_task.
  repeat (apply log_free_bind;
          [first [apply log_free_lift|apply log_free_contact_of
                 |apply log_free_container_of|apply log_free_assignee
                 |apply log_free_map_or_empty, log_free_format_comment]|intros ?]).
  apply log_free_resolve.
Qed.

Ltac read_step H tac :=
  rewrite outcome_bind by tac;
  match goal with
  | |- match ?g with _ => _ end = _ -> _ => destruct g as [?|?] eqn:H; [done|]
  end.

Lemma format_task_sound host rt task t :
  outcome (format_task host rt task) = inr t -> task_view host rt task t.
Proof.
  unfold format_task.
  read_prop Hid. read_prop Hname. read_prop Hdesc. read_prop Hprio.
  read_prop Hlabel. read_prop Hso. read_prop Hstate. read_prop Hcompleted. read_prop Hadd.
  read_prop Hdue. read_prop Hend. read_prop Hdone. read_prop Hao.
  read_step Hauthor ltac:(apply log_free_contact_of). read_prop Hw.
  read_step Hassignee ltac:(apply log_free_assignee).
  read_prop Hpo. read_step Hproject ltac:(apply log_free_container_of).
  read_prop Hto. read_step Htl ltac:(apply log_free_container_of).
  read_prop Htags. read_prop Htime. read_prop Hcv.
  read_step Hcomments ltac:(apply log_free_map_or_empty, log_free_format_comment).
  intros [= <-]. unfold task_view. simpl.
  unfold map_or_empty in Hcomments.
  destruct (js_or _ (JArr [])) as [| | | | |xs|] eqn:Hxs; try discriminate Hcomments.
  apply (map_async_success _ _ (log_free_format_comment host rt)) in Hcomments.
  repeat split; eauto 10.
Qed.

(** The result of the get-task tool, from the results of its three steps. *)
Lemma getTask_execute_outcome host rt taskId :
  outcome (getTask_execute host rt taskId) =
    match createFreeloClient host with
    | inl e => inl (rethrow_task_error e)
    | inr c =>
        match outcome (getTask host c taskId) with
        | inl e => inl (rethrow_task_error e)
        | inr task =>
            match outcome (format_task host rt task) with
            | inl e => inl (rethrow_task_error e)
            | inr t => inr t
            end
        end
    end.
Proof.
  unfold outcome at 1, run, getTask_execute, try_catch, mbind, Async_bind, await, lift.
  destruct (createFreeloClient host) as [e|c]; [done|].
  unfold outcome at 1, run.
  destruct (getTask host c taskId []) as [log [e|task]]; simpl; [done|].
  rewrite (log_free_format_task host rt task log).
  by destruct (outcome (format_task host rt task)).
Qed.

Lemma getTask_execute_calls host rt taskId :
  calls (getTask_execute host rt taskId) =
    match createFreeloClient host with
    | inl _ => []
    | inr c => [request_call c (task_endpoint host taskId) empty_init]
    end.
Proof.
  unfold calls at 1, run, getTask_execute, try_catch, mbind, Async_bind, await, lift.
  destruct (createFreeloClient host) as [e|c]; [done|].
  pose proof (request_calls host c (task_endpoint host taskId) empty_init) as Hc.
  unfold calls, run, getTask in *.
  destruct (request host c _ empty_init []) as [log [e|task]]; simpl in *; [done|].
  rewrite (log_free_format_task host rt task log).
  by destruct (outcome (format_task host rt task)).
Qed.

Lemma rethrow_task_error_shape (e : Thrown) :
  exists m, rethrow_task_error e = ErrorObject "Error" m /\
            (String.prefix "Failed to fetch task: " m = true \/
             m = "Unknown error occurred while fetching task").
Proof.
  destruct e as [n m|v]; eexists; (split; [reflexivity|]).
  - left. apply prefix_app.
  - by right.
Qed.

(** X18: the get-task tool reports a failure by rejecting, not by a result
    object: every [Error] thrown on the way is thrown again as a fresh
    [Error] whose message is ["Failed to fetch task: "] followed by the
    original message, so messages of [request] carry both prefixes; without
    credentials no call is dispatched; and nothing but such an [Error] (or
    the fixed unknown-error one) ever leaves [execute]. *)
Theorem getTask_execute_rethrows host rt taskId :
  (forall message,
     createFreeloClient host = inl (new_Error message) ->
     outcome (getTask_execute host rt taskId)
       = inl (new_Error ("Failed to fetch task: " +:+ message)) /\
     calls (getTask_execute host rt taskId) = []) /\
  (forall c name message,
     createFreeloClient host = inr c ->
     answer host (request_call c (task_endpoint host taskId) empty_init)
       = inl (ErrorObject name message) ->
     outcome (getTask_execute host rt taskId)
       = inl (new_Error ("Failed to fetch task: Freelo API error: " +:+ message))) /\
  (forall c r m,
     createFreeloClient host = inr c ->
     answer host (request_call c (task_endpoint host taskId) empty_init) = inr r ->
     ok r = false -> preferred_message host r m ->
     outcome (getTask_execute host rt taskId)
       = inl (new_Error ("Failed to fetch task: Freelo API error: " +:+ m))) /\
  (forall e,
     outcome (getTask_execute host rt taskId) = inl e ->
     exists m, e = ErrorObject "Error" m /\
               (String.prefix "Failed to fetch task: " m = true \/
                m = "Unknown error occurred while fetching task")).
Proof.
  split; [|split; [|split]].
  - intros message Hc. rewrite getTask_execute_outcome, getTask_execute_calls, Hc. done.
  - intros c name message Hc H. rewrite getTask_execute_outcome, Hc.
    unfold outcome. rewrite getTask_run, (request_rejected _ _ _ _ _ H). done.
  - intros c r m Hc H Hok Hm. rewrite getTask_execute_outcome, Hc.
    unfold getTask.
    rewrite (request_raises_chosen _ _ _ _ _ _ H Hok (chosen_preferred _ r m Hm)). done.
  - intros e. rewrite getTask_execute_outcome.
    destruct (createFreeloClient host) as [e0|c].
    { intros [= <-]. apply rethrow_task_error_shape. }
    destruct (outcome (getTask host c taskId)) as [e0|task].
    { intros [= <-]. apply rethrow_task_error_shape. }
    destruct (outcome (format_task host rt task)) as [e0|t]; [|done].
    intros [= <-]. apply rethrow_task_error_shape.
Qed.

Lemma js_or_truthy (v d : JsValue) : truthy d = true -> truthy (js_or v d) = true.
Proof. intros Hd. unfold js_or. by destruct (truthy v) eqn:Hv. Qed.

Lemma js_or_default (v d : JsValue) : js_or v d = d \/ truthy (js_or v d) = true.
Proof. unfold js_or. destruct (truthy v) eqn:Hv; [by right|by left]. Qed.

(** X19: a task the get-task tool returns is the task of the response
    with its defaults filled in: [description] and [state] are never empty
    ("(no description)" and "unknown" stand in for a missing or falsy
    value), [completed] is [false] unless truthy, [tags] is an array unless
    truthy, [timeEstimate] is [null] unless truthy (so an estimate of 0 is
    reported as [null]), the comments are those of the response in their
    order, and [totalComments] is their number. *)
Theorem getTask_execute_defaults host rt taskId (t : FormattedTask) :
  outcome (getTask_execute host rt taskId) = inr t ->
  (exists c task,
     createFreeloClient host = inr c /\
     outcome (getTask host c taskId) = inr task /\
     task_view host rt task t) /\
  truthy (ft_description t) = true /\
  truthy (ft_state t) = true /\
  (ft_completed t = JBool false \/ truthy (ft_completed t) = true) /\
  (ft_tags t = JArr [] \/ truthy (ft_tags t) = true) /\
  (ft_timeEstimate t = JNull \/ truthy (ft_timeEstimate t) = true) /\
  ft_totalComments t = Z.of_nat (length (ft_comments t)).
Proof.
  rewrite getTask_execute_outcome.
  destruct (createFreeloClient host) as [e|c]; [done|].
  destruct (outcome (getTask host c taskId)) as [e|task] eqn:Hg; [done|].
  destruct (outcome (format_task host rt task)) as [e|t'] eqn:Hf; [done|].
  intros [= ->]. pose proof (format_task_sound _ _ _ _ Hf) as Hv.
  split; [by exists c, task|].
  destruct Hv as (_ & _ & (d & _ & ->) & _ & (so & s & _ & _ & ->) & (v1 & _ & ->)
                  & (v2 & _ & ->) & (v3 & _ & ->) & _ & ->).
  split; [by apply js_or_truthy|]. split; [by apply js_or_truthy|].
  split; [apply js_or_default|]. split; [apply js_or_default|].
  split; [apply js_or_default|done].
Qed.

(** X20: [formatPriority] maps ["l"], ["m"] and ["h"] to ["Low"],
    ["Medium"] and ["High"], and returns any other string as it is, unless
    the string names a property every object inherits (such as
    ["constructor"]): then the inherited value is returned, not a string. *)
Theorem formatPriority_table host (s : string) :
  formatPriority host (JStr "l") = inr (Label (JStr "Low")) /\
  formatPriority host (JStr "m") = inr (Label (JStr "Medium")) /\
  formatPriority host (JStr "h") = inr (Label (JStr "High")) /\
  (s ≠ "l" -> s ≠ "m" -> s ≠ "h" -> s ∉ object_prototype_keys ->
   formatPriority host (JStr s) = inr (Label (JStr s))) /\
  (s ∈ object_prototype_keys -> formatPriority host (JStr s) = inr (Inherited s)).
Proof.
  split; [done|]. split; [done|]. split; [done|].
  unfold formatPriority. simpl ToString. split.
  - intros Hl Hm Hh Hk.
    rewrite (proj2 (String.eqb_neq _ _) Hl), (proj2 (String.eqb_neq _ _) Hm),
      (proj2 (String.eqb_neq _ _) Hh).
    destruct (existsb (String.eqb s) object_prototype_keys) eqn:He; [|done].
    apply existsb_exists in He as (k & Hin & Heq%String.eqb_eq). subst k.
    exfalso. apply Hk. by apply list_elem_of_In.
  - intros Hk.
    assert (He : existsb (String.eqb s) object_prototype_keys = true).
    { apply existsb_exists. exists s. split; [by apply list_elem_of_In|].
      apply String.eqb_refl. }
    rewrite He.
    assert (Hne : s ≠ "l" /\ s ≠ "m" /\ s ≠ "h").
    { repeat split; intros ->; vm_compute in He; discriminate He. }
    destruct Hne as (Hl & Hm & Hh).
    by rewrite (proj2 (String.eqb_neq _ _) Hl), (proj2 (String.eqb_neq _ _) Hm),
      (proj2 (String.eqb_neq _ _) Hh).
Qed.

(** * The further properties at the sample hosts *)

(** X1 at a name with path separators, blanks and brackets. *)
Lemma sanitizeFilename_safe_witness :
  sanitizeFilename "../Q3 report (final).pdf" = ".._Q3_report_final_.pdf" /\
  sanitizeFilename "../Q3 report (final).pdf" ≠ "".
Proof.
  split; [reflexivity|].
  exact (proj2 (proj2 (proj2 (proj2 (proj2
           (sanitizeFilename_safe "../Q3 report (final).pdf")))))
           ltac:(discriminate)).
Defined.

(** X2 at a name that needs no change. *)
Lemma sanitizeFilename_fixed_point_witness :
  all_chars safe_char "report-2024_v2.pdf" = true /\
  sanitizeFilename "report-2024_v2.pdf" = "report-2024_v2.pdf".
Proof.
  split; [reflexivity|].
  apply (proj1 (sanitizeFilename_fixed_point "report-2024_v2.pdf"));
    [reflexivity|reflexivity|simpl; lia].
Defined.

(** X3 at a 502 response whose body is [{}]. *)
Lemma request_status_line_fallback_witness :
  ok Fixtures.empty_error = false /\
  outcome (request (Samples.host_answering (inr Fixtures.empty_error) Samples.env)
             Samples.client "/task/7" empty_init)
    = inl (new_Error "Freelo API error: API request failed: 502 Bad Gateway").
Proof.
  split; [reflexivity|].
  exact (proj2 (request_status_line_fallback
                  (Samples.host_answering (inr Fixtures.empty_error) Samples.env)
                  Samples.client "/task/7" empty_init Fixtures.empty_error _
                  eq_refl eq_refl eq_refl)
               JUndefined JUndefined eq_refl eq_refl eq_refl eq_refl).
Defined.

(** X4 at 422 responses whose [message] is a plain object, and an object
    with a [toString] entry, and whose [error] is an array that holds such
    an object. *)
Lemma request_message_to_string_witness :
  ok Fixtures.object_message = false /\
  outcome (request (Samples.host_answering (inr Fixtures.object_message) Samples.env)
             Samples.client "/task/7" empty_init)
    = inl (new_Error "Freelo API error: [object Object]") /\
  outcome (request (Samples.host_answering (inr Fixtures.unprintable_message) Samples.env)
             Samples.client "/task/7" empty_init)
    = inl (new_Error "Freelo API error: Cannot convert object to primitive value") /\
  outcome (request (Samples.host_answering (inr Fixtures.unprintable_error) Samples.env)
             Samples.client "/task/7" empty_init)
    = inl (new_Error "Freelo API error: Cannot convert object to primitive value").
Proof.
  split; [reflexivity|]. split; [|split].
  - exact (proj1 (request_message_to_string
                    (Samples.host_answering (inr Fixtures.object_message) Samples.env)
                    Samples.client "/task/7" empty_init Fixtures.object_message _
                    (JObj {["field" := JStr "name"]})
                    eq_refl eq_refl eq_refl (or_introl (conj eq_refl eq_refl)))
                 "[object Object]" eq_refl).
  - exact (proj2 (proj2 (request_message_to_string
                    (Samples.host_answering (inr Fixtures.unprintable_message) Samples.env)
                    Samples.client "/task/7" empty_init Fixtures.unprintable_message _
                    (JObj {["toString" := JNum 1]})
                    eq_refl eq_refl eq_refl (or_introl (conj eq_refl eq_refl))))
                 _ eq_refl).
  - exact (proj1 (proj2 (request_message_to_string
                    (Samples.host_answering (inr Fixtures.unprintable_error) Samples.env)
                    Samples.client "/task/7" empty_init Fixtures.unprintable_error _
                    (JArr [JStr "name"; JObj {["toString" := JNull]}])
                    eq_refl eq_refl eq_refl
                    (or_intror (ex_intro _ JUndefined
                       (conj eq_refl (conj eq_refl (conj eq_refl eq_refl)))))))
                 _ eq_refl).
Defined.

(** X5 at the bodies [null] and [{"data": {}}]. *)
Lemma listTaskSubtasks_malformed_body_witness :
  ok Fixtures.null_body = true /\
  outcome (listTaskSubtasks (Samples.host_answering (inr Fixtures.null_body) Samples.env)
             Samples.client 7)
    = inl (ErrorObject "TypeError" "Cannot read properties of null (reading 'data')") /\
  outcome (listTaskSubtasks (Samples.host_answering (inr Fixtures.empty_data) Samples.env)
             Samples.client 7)
    = inr JUndefined.
Proof.
  split; [reflexivity|]. split.
  - exact (proj1 (listTaskSubtasks_malformed_body
                    (Samples.host_answering (inr Fixtures.null_body) Samples.env)
                    Samples.client 7 Fixtures.null_body JNull eq_refl eq_refl eq_refl)
                 eq_refl).
  - exact (proj2 (proj2 (listTaskSubtasks_malformed_body
                    (Samples.host_answering (inr Fixtures.empty_data) Samples.env)
                    Samples.client 7 Fixtures.empty_data _ eq_refl eq_refl eq_refl))
                 _ ∅ eq_refl eq_refl eq_refl).
Defined.

(** X6 at a host whose transport is down. *)
Lemma request_throws_only_errors_witness :
  outcome (request Samples.offline Samples.client "/task/7" empty_init)
    = inl (ErrorObject "Error" "Freelo API error: fetch failed") /\
  exists m, ErrorObject "Error" "Freelo API error: fetch failed" = ErrorObject "Error" m /\
            (String.prefix "Freelo API error: " m = true \/
             m = "Unknown Freelo API error").
Proof.
  split; [reflexivity|].
  exact (request_throws_only_errors Samples.offline Samples.client "/task/7" empty_init
           _ eq_refl).
Defined.

(** X7 at the sample client: the call of [getTask] goes to the fixed base
    address. *)
Lemma accessors_single_get_witness :
  String.prefix "https://api.freelo.io/v1"
    (call_url (request_call Samples.client (task_endpoint Samples.offline 7) empty_init))
  = true.
Proof.
  destruct (accessors_single_get Samples.offline Samples.client 7 Samples.uuid)
    as (_ & _ & _ & Hall).
  refine (proj2 (proj2 (Hall _ _))).
  apply elem_of_app. left. unfold calls. rewrite getTask_run.
  rewrite (request_rejected Samples.offline _ _ _ _ eq_refl). apply list_elem_of_here.
Defined.

(** X9 at a host whose transport is down. *)
Lemma execute_reports_message_witness :
  createFreeloClient Samples.offline = inr Samples.client /\
  outcome (execute Samples.offline 7) = inr (ToolFailure "Freelo API error: fetch failed").
Proof.
  split; [reflexivity|].
  exact (proj1 (execute_reports_message Samples.offline Samples.client 7 eq_refl)
               "TypeError" "fetch failed" eq_refl).
Defined.

(** X10 at a listing of two subtasks, the second with a due date and a
    worker. *)
Lemma execute_formats_in_order_witness :
  exists st fs,
    outcome (execute (Fixtures.listing [Samples.A; Fixtures.assigned]) 7)
      = inr (ToolSuccess 7 st fs) /\
    List.map st_name fs = [JStr "A"; JStr "D"] /\
    List.map st_dueDate fs = [JNull; JStr "2024-02-01"] /\
    Forall2 formats_to [Samples.A; Fixtures.assigned] fs.
Proof.
  destruct (outcome (execute (Fixtures.listing [Samples.A; Fixtures.assigned]) 7))
    as [e|[id st fs|e]] eqn:H;
    [vm_compute in H; discriminate H| |vm_compute in H; discriminate H].
  destruct (execute_formats_in_order _ _ _ _ _ H) as ((c & xs & Hc & Hl & HF) & _).
  assert (Hxs : xs = [Samples.A; Fixtures.assigned]).
  { assert (Hc' : createFreeloClient (Fixtures.listing [Samples.A; Fixtures.assigned])
                  = inr Samples.client) by reflexivity.
    rewrite Hc' in Hc. injection Hc as <-.
    assert (Hl' : outcome (listTaskSubtasks
                             (Fixtures.listing [Samples.A; Fixtures.assigned])
                             Samples.client 7)
                  = inr (JArr [Samples.A; Fixtures.assigned])) by reflexivity.
    rewrite Hl' in Hl. by injection Hl as <-. }
  subst xs. exists st, fs.
  assert (Hid : id = 7%float /\ List.map st_name fs = [JStr "A"; JStr "D"]
                /\ List.map st_dueDate fs = [JNull; JStr "2024-02-01"]).
  { vm_compute in H. injection H as <- <- <-. repeat split; reflexivity. }
  destruct Hid as (-> & Hn & Hd).
  split; [reflexivity|]. split; [exact Hn|]. split; [exact Hd|exact HF].
Defined.

(** X11 at a listing whose second subtask has no [state]. *)
Lemma execute_all_or_nothing_witness :
  get_prop Fixtures.stateless "state" = inr JUndefined /\
  outcome (execute (Fixtures.listing [Samples.A; Fixtures.stateless; Samples.B]) 7)
    = inr (ToolFailure "Cannot read properties of undefined (reading 'state')").
Proof.
  split; [reflexivity|].
  apply (execute_all_or_nothing
           (Fixtures.listing [Samples.A; Fixtures.stateless; Samples.B])
           Samples.client 7 [Samples.A] [Samples.B] Fixtures.stateless);
    [reflexivity|reflexivity| |reflexivity].
  constructor; [|constructor]. eexists. vm_compute. reflexivity.
Defined.

(** X12 at three finished subtasks, and at three active ones. *)
Lemma statistics_extremes_witness :
  completionPercentage (statistics_of (repeat (Fixtures.item "finished") 3)) = 100%float /\
  completionPercentage (statistics_of (repeat (Fixtures.item "active") 3)) = 0%float.
Proof.
  split.
  - apply (proj1 (proj2 (statistics_extremes (repeat (Fixtures.item "finished") 3))));
      [discriminate|simpl; lia|].
    repeat constructor.
  - apply (proj2 (proj2 (statistics_extremes (repeat (Fixtures.item "active") 3))));
      [discriminate|simpl; lia|].
    repeat constructor.
Defined.

(** X14 at a host without credentials, and at a read-only file system. *)
Lemma download_not_ready_witness :
  (exists message,
     createFreeloClient Samples.unconfigured = inl (new_Error message) /\
     effects (download_execute Samples.unconfigured Fixtures.runtime Fixtures.bare_input)
       = []) /\
  effects (download_execute Fixtures.file_host Fixtures.read_only Fixtures.bare_input)
    = [MadeDir "/tmp/freelo-files"] /\
  result (download_execute Fixtures.file_host Fixtures.read_only Fixtures.bare_input)
    = inr (DownloadFailure "EROFS: read-only file system, mkdir").
Proof.
  split.
  - eexists. split; [reflexivity|].
    exact (proj1 (proj1 (download_not_ready Samples.unconfigured Fixtures.runtime
                           Fixtures.bare_input) _ eq_refl)).
  - exact (proj2 (download_not_ready Fixtures.file_host Fixtures.read_only
                    Fixtures.bare_input) Samples.client _ _ eq_refl eq_refl).
Defined.

(** X15 at a host whose transport is down, and at a 404 response. *)
Lemma download_failure_writes_nothing_witness :
  result (download_execute Samples.offline Fixtures.runtime Fixtures.named_input)
    = inr (DownloadFailure "fetch failed") /\
  result (download_execute Fixtures.missing_file_host Fixtures.runtime Fixtures.named_input)
    = inr (DownloadFailure "Failed to download file: 404 Not Found") /\
  effects (download_execute Fixtures.missing_file_host Fixtures.runtime Fixtures.named_input)
    = [MadeDir "/tmp/freelo-files"; Fetched (download_call Samples.client Samples.uuid)].
Proof.
  split.
  - exact (proj2 (proj1 (download_failure_writes_nothing Samples.offline Fixtures.runtime
                           Fixtures.named_input Samples.client eq_refl
                           (ex_intro _ tt eq_refl))
                        "TypeError" "fetch failed" eq_refl)).
  - destruct (proj2 (download_failure_writes_nothing Fixtures.missing_file_host
                       Fixtures.runtime Fixtures.named_input Samples.client eq_refl
                       (ex_intro _ tt eq_refl))
                    Samples.not_found eq_refl eq_refl) as [He Hr].
    split; [exact Hr|exact He].
Defined.

(** X16 at a download of six bytes under a name that needs sanitizing. *)
Lemma download_success_result_witness :
  exists file,
    result (download_execute Fixtures.file_host Fixtures.runtime Fixtures.named_input)
      = inr (DownloadSuccess file
               "File successfully downloaded to: /tmp/freelo-files/1700000000000-.._Q3_report_final_.pdf") /\
    effects (download_execute Fixtures.file_host Fixtures.runtime Fixtures.named_input)
      = [MadeDir "/tmp/freelo-files";
         Fetched (download_call Samples.client Samples.uuid);
         Wrote "/tmp/freelo-files/1700000000000-.._Q3_report_final_.pdf" Samples.file_bytes;
         Statted "/tmp/freelo-files/1700000000000-.._Q3_report_final_.pdf"] /\
    file_filename file = ".._Q3_report_final_.pdf" /\
    file_sizeFormatted file = "6 Bytes".
Proof.
  destruct (download_success_result Fixtures.file_host Fixtures.runtime
              Fixtures.named_input Samples.client Samples.file_found Samples.file_bytes
              6%float eq_refl (ex_intro _ tt eq_refl) eq_refl eq_refl eq_refl
              (ex_intro _ tt eq_refl) eq_refl)
    as (file & Hr & He & _ & _ & Hp & Hn & _).
  destruct (Hn _ eq_refl ltac:(discriminate)) as [Hname _].
  assert (Hpath : file_filePath file
                  = "/tmp/freelo-files/1700000000000-.._Q3_report_final_.pdf").
  { rewrite Hp, Hname. reflexivity. }
  exists file. rewrite Hpath in Hr, He.
  split; [exact Hr|]. split; [exact He|]. split; [exact Hname|].
  assert (Hf : result (download_execute Fixtures.file_host Fixtures.runtime
                         Fixtures.named_input)
               = inr (download_success Fixtures.file_host Fixtures.runtime
                        Fixtures.named_input 6%float)) by reflexivity.
  rewrite Hr in Hf.
  apply (f_equal (fun r => match r with
                           | inr (DownloadSuccess f _) => file_sizeFormatted f
                           | _ => ""
                           end)) in Hf.
  exact Hf.
Defined.

(** X17 at a file that vanishes after it was written. *)
Lemma download_stat_failure_keeps_file_witness :
  result (download_execute Fixtures.file_host Fixtures.vanished Fixtures.bare_input)
    = inr (DownloadFailure "ENOENT: no such file or directory, stat") /\
  Wrote (file_path Fixtures.file_host Fixtures.vanished Fixtures.bare_input)
        Samples.file_bytes
    ∈ effects (download_execute Fixtures.file_host Fixtures.vanished Fixtures.bare_input).
Proof.
  exact (download_stat_failure_keeps_file Fixtures.file_host Fixtures.vanished
           Fixtures.bare_input Samples.client Samples.file_found Samples.file_bytes
           "Error" "ENOENT: no such file or directory, stat"
           eq_refl (ex_intro _ tt eq_refl) eq_refl eq_refl eq_refl
           (ex_intro _ tt eq_refl) eq_refl).
Defined.

(** X18 without credentials, with the transport down, and at the 404
    response. *)
Lemma getTask_execute_rethrows_witness :
  (exists message,
     createFreeloClient Samples.unconfigured = inl (new_Error message) /\
     calls (getTask_execute Samples.unconfigured Fixtures.runtime 7) = []) /\
  outcome (getTask_execute Samples.offline Fixtures.runtime 7)
    = inl (new_Error "Failed to fetch task: Freelo API error: fetch failed") /\
  outcome (getTask_execute Fixtures.missing_file_host Fixtures.runtime 7)
    = inl (new_Error "Failed to fetch task: Freelo API error: Task not found").
Proof.
  split; [|split].
  - eexists. split; [reflexivity|].
    exact (proj2 (proj1 (getTask_execute_rethrows Samples.unconfigured Fixtures.runtime 7)
                        _ eq_refl)).
  - exact (proj1 (proj2 (getTask_execute_rethrows Samples.offline Fixtures.runtime 7))
                 Samples.client "TypeError" "fetch failed" eq_refl eq_refl).
  - refine (proj1 (proj2 (proj2 (getTask_execute_rethrows Fixtures.missing_file_host
                                   Fixtures.runtime 7)))
                  Samples.client Samples.not_found "Task not found" eq_refl eq_refl
                  eq_refl _).
    eapply from_message; reflexivity.
Defined.

(** X19 at a task with an empty description, an estimate of 0 and no
    state. *)
Lemma getTask_execute_defaults_witness :
  exists t,
    outcome (getTask_execute Fixtures.task_host Fixtures.runtime 42) = inr t /\
    ft_description t = JStr "(no description)" /\
    ft_state t = JStr "unknown" /\
    ft_timeEstimate t = JNull /\
    ft_priority t = Label (JStr "High") /\
    ft_totalComments t = 1 /\
    truthy (ft_description t) = true.
Proof.
  destruct (outcome (getTask_execute Fixtures.task_host Fixtures.runtime 42))
    as [e|t] eqn:H; [vm_compute in H; discriminate H|].
  exists t. split; [reflexivity|].
  destruct (getTask_execute_defaults _ _ _ _ H) as (_ & Hd & _).
  assert (Ht : ft_description t = JStr "(no description)" /\ ft_state t = JStr "unknown"
               /\ ft_timeEstimate t = JNull /\ ft_priority t = Label (JStr "High")
               /\ ft_totalComments t = 1).
  { vm_compute in H. injection H as <-. repeat split; reflexivity. }
  destruct Ht as (H1 & H2 & H3 & H4 & H5).
  repeat split; assumption.
Defined.

(** X20 at a priority the table does not know, and at the name of an
    inherited property. *)
Lemma formatPriority_table_witness :
  formatPriority Samples.offline (JStr "urgent") = inr (Label (JStr "urgent")) /\
  formatPriority Samples.offline (JStr "constructor") = inr (Inherited "constructor").
Proof.
  destruct (formatPriority_table Samples.offline "urgent") as (_ & _ & _ & Hother & _).
  destruct (formatPriority_table Samples.offline "constructor") as (_ & _ & _ & _ & Hin).
  split.
  - apply Hother; try discriminate. intros Hk. vm_compute in Hk.
    repeat (apply elem_of_cons in Hk as [Hk|Hk]; [discriminate Hk|]).
    by apply elem_of_nil in Hk.
  - apply Hin. apply list_elem_of_here.
Defined.
